(** * purpledove-payment: virtual-wallet payment orchestration

    A shallow embedding of the Frappe controllers of the repository

      - doctype/virtual_payment/virtual_payment.py   (class VirtualPayment)
      - doctype/virtual_wallet/virtual_wallet.py     (verify_and_update_pin)
      - doctype/transaction_history/transaction_history.py
      - doctype/banksb/banksb.py

    and the properties of the payment engine proved about them.

    Modelling conventions.
      - Python text is [string]; the model is exact for ASCII text (code
        points below 128), which is what PINs, bank codes and account
        numbers are made of.
      - A nullable document field is an [option string]; Python truthiness
        ([if x:], [x or y], [not x]) is the function [truthy].
      - Money (Python floats obtained through frappe's [flt]) is an exact
        rational [Q]; an unset amount and the amount 0 are the same value,
        as every use in the source goes through [x or 0.0] or [not x].
        A Python float can also be infinite or NaN (not a number): the
        functions that compare the amount of a payment are given once
        more on such floats in [Module Float], where they agree with the
        ones on numbers.
      - A database table is the list of its documents in the order
        [frappe.get_list] returns them; [frappe.get_doc] is a lookup by
        [name] that raises DoesNotExistError.
      - The outside world (the payment gateway reached through [requests])
        is a function from the index of the request to what that request
        does: it answers, or it raises.
      - A Python function that touches the database, the network or the
        clock is a computation in the monad [M] (state and exceptions).
      - [frappe.log_error], [frappe.logger()], [frappe.publish_realtime]
        and [frappe.db.commit] calls are left out: they write log entries,
        notify clients and end the transaction.  The permission checks of
        [frappe.get_list] are left out as well.
      - [response.json()] raises JSONDecodeError on a body that is not
        JSON; in the requests library that exception is a RequestException
        and a json.JSONDecodeError at the same time. *)

From Stdlib Require Import Bool Arith ZArith QArith Qabs String Ascii List Lia Lqa.
Import ListNotations.

Set Implicit Arguments.
Set Warnings "-register-all".
Local Close Scope Q_scope.
Local Open Scope string_scope.

(** ** Python text *)

Module Py.

(** [str.isspace] on ASCII: tab, newline, vertical tab, form feed,
    carriage return (9..13), the separators 28..31 and the blank 32. *)
Definition isspace (c : ascii) : bool :=
  let n := nat_of_ascii c in
  (((9 <=? n) && (n <=? 13)) || ((28 <=? n) && (n <=? 32)))%nat.

(** [s.lstrip()] *)
Fixpoint lstrip (s : string) : string :=
  match s with
  | EmptyString => EmptyString
  | String c s' => if isspace c then lstrip s' else s
  end.

(** [s.rstrip()] *)
Fixpoint rstrip (s : string) : string :=
  match s with
  | EmptyString => EmptyString
  | String c s' =>
      match rstrip s' with
      | EmptyString => if isspace c then EmptyString else String c EmptyString
      | r => String c r
      end
  end.

(** [s.strip()] *)
Definition strip (s : string) : string := rstrip (lstrip s).

(** [c.upper()] on ASCII letters; every other character is kept. *)
Definition upper_char (c : ascii) : ascii :=
  let n := nat_of_ascii c in
  if ((97 <=? n) && (n <=? 122))%nat then ascii_of_nat (n - 32) else c.

(** [s.upper()] *)
Fixpoint upper (s : string) : string :=
  match s with
  | EmptyString => EmptyString
  | String c s' => String (upper_char c) (upper s')
  end.

(** Truthiness of a nullable text value: [None] and the empty string are
    falsy. *)
Definition truthy (v : option string) : bool :=
  match v with
  | Some (String _ _) => true
  | _ => false
  end.

(** [a or b] on nullable text values. *)
Definition or_ (a b : option string) : option string :=
  if truthy a then a else b.

(** [str(v)] of a nullable text value. *)
Definition str (v : option string) : string :=
  match v with
  | Some s => s
  | None => "None"
  end.

(** [x in xs] for a list of strings. *)
Definition elem (x : string) (xs : list string) : bool :=
  existsb (String.eqb x) xs.

End Py.

(** ** JSON values, as [response.json()] yields them *)

Inductive json : Type :=
| JNull
| JBool (b : bool)
| JNum (q : Q)
| JStr (s : string)
| JList (items : list json)
| JDict (fields : list (string * json)).

Module Json.

(** Lookup of a key among the fields of a parsed object. *)
Fixpoint assoc (k : string) (fields : list (string * json)) : option json :=
  match fields with
  | [] => None
  | (k', v) :: rest => if String.eqb k k' then Some v else assoc k rest
  end.

(** Python truthiness of a JSON value. *)
Definition truthy (v : json) : bool :=
  match v with
  | JNull => false
  | JBool b => b
  | JNum q => negb (Qeq_bool q 0)
  | JStr s => match s with EmptyString => false | _ => true end
  | JList l => match l with [] => false | _ => true end
  | JDict d => match d with [] => false | _ => true end
  end.

(** Equality of two JSON values, as the database compares a stored value
    with a filter value. *)
Fixpoint eqb (a b : json) {struct a} : bool :=
  match a, b with
  | JNull, JNull => true
  | JBool x, JBool y => Bool.eqb x y
  | JNum x, JNum y => Qeq_bool x y
  | JStr x, JStr y => String.eqb x y
  | JList xs, JList ys =>
      (fix go (xs ys : list json) {struct xs} : bool :=
         match xs, ys with
         | [], [] => true
         | x :: xs', y :: ys' => eqb x y && go xs' ys'
         | _, _ => false
         end) xs ys
  | JDict xs, JDict ys =>
      (fix go (xs ys : list (string * json)) {struct xs} : bool :=
         match xs, ys with
         | [], [] => true
         | (k, x) :: xs', (k', y) :: ys' =>
             String.eqb k k' && eqb x y && go xs' ys'
         | _, _ => false
         end) xs ys
  | _, _ => false
  end.

End Json.

(** ** Python exceptions *)

Inductive exn : Type :=
| DoesNotExistError (doctype : string) (name : option string)
    (** frappe.DoesNotExistError, raised by frappe.get_doc *)
| ValueError (msg : string)
| ValidationError (msg : string)
    (** raised by frappe.throw *)
| AttributeError (msg : string)
| TypeError (msg : string)
| IndexError (msg : string)
| JSONDecodeError
    (** raised by response.json() on a body that is not JSON *)
| Timeout
    (** requests.exceptions.Timeout *)
| ConnectionError (msg : string)
    (** requests.exceptions.ConnectionError *)
| RequestException (msg : string)
    (** any other requests.RequestException (TooManyRedirects,
        InvalidHeader, ChunkedEncodingError, ...) *)
| OtherException (msg : string).

(** ** Documents

    One record per doctype, with the fields the controllers read or write.
    The field names are those of the source. *)

Module VirtualWallet.
Record t : Type := mk {
  name : string;
  balance : Q;
  account_number : option string;
  role : option string
}.
End VirtualWallet.

Module PaymentPin.
Record t : Type := mk {
  name : string;
  wallet : string;            (** link to the Virtual Wallet *)
  pin : option string         (** the PIN in plain text, when stored so *)
}.
End PaymentPin.

Module BanksB.
Record t : Type := mk {
  name : string;
  bank_name : option string;
  bank_code : option string
}.
End BanksB.

Module TransactionHistory.
Record t : Type := mk {
  name : string;
  transaction_reference : json;
  virtual_payment : option string;
  status : string;
  transaction_date : string;
  amount : json;
  destination_bank : json;
  destination_account_number : json;
  destination_account_name : json;
  source_account_number : json;
  narration : json;
  api_response : json
}.
End TransactionHistory.

Module VirtualPayment.
Record t : Type := mk {
  name : string;
  destination_bank : option string;
  destination_bank_code : option string;
  destination_account_number : option string;
  destination_account_name : option string;
  amount : Q;
  source_account_number : option string;
  narration : option string;
  transaction_reference : json
}.

(** Class constants of VirtualPayment. *)
Definition DEFAULT_WALLET_ACCOUNT : string := "9000136910".
Definition MAX_RETRIES : nat := 3.
Definition RETRY_DELAYS : list Z := [2; 5; 10]%Z.
End VirtualPayment.

(** ** The world a request runs in *)

(** What one call of [requests.get] or [requests.post] does: it returns a
    response (status code, and the body parsed as JSON when it is JSON),
    or it raises. *)
Inductive HttpOutcome : Type :=
| Response (status_code : Z) (body : option json)
| Raises (e : exn).

Record World : Type := mkWorld {
  (** the tables of the site database *)
  wallets : list VirtualWallet.t;
  pins : list PaymentPin.t;
  banks : list BanksB.t;
  history : list TransactionHistory.t;
  payments : list VirtualPayment.t;
  (** credential sources *)
  environ : string -> option string;        (** os.environ *)
  conf_live_token : option string;          (** frappe.conf.live_token *)
  db_connected : bool;                      (** truthiness of frappe.db *)
  settings_live_token : option string;      (** System Settings, live_token *)
  (** the session *)
  user_roles : list string;                 (** frappe.get_roles(frappe.session.user) *)
  (** the network and the clock *)
  network : nat -> HttpOutcome;             (** what the n-th request does *)
  requests_made : nat;                      (** requests issued so far *)
  slept : list Z;                           (** time.sleep calls so far, in order *)
  now : string                              (** frappe.utils.now() *)
}.

(** ** The monad of controller code: state and exceptions *)

Inductive Res (A : Type) : Type :=
| Val (a : A)
| Exc (e : exn).
Arguments Val {A} a.
Arguments Exc {A} e.

Definition M (A : Type) : Type := World -> Res A * World.

Definition ret {A} (a : A) : M A := fun w => (Val a, w).

Definition bind {A B} (c : M A) (k : A -> M B) : M B :=
  fun w =>
    match c w with
    | (Val a, w') => k a w'
    | (Exc e, w') => (Exc e, w')
    end.

(** [raise e] *)
Definition raise {A} (e : exn) : M A := fun w => (Exc e, w).

(** [try: c  except Exception as e: h e] *)
Definition try_except {A} (c : M A) (h : exn -> M A) : M A :=
  fun w =>
    match c w with
    | (Val a, w') => (Val a, w')
    | (Exc e, w') => h e w'
    end.

Definition get_world : M World := fun w => (Val w, w).
Definition put_world (w : World) : M unit := fun _ => (Val tt, w).

Declare Scope py_scope.
Delimit Scope py_scope with py.
Notation "x <- c ;; k" := (bind c (fun x => k))
  (at level 61, c at next level, right associativity) : py_scope.
Notation "c ;; k" := (bind c (fun _ => k))
  (at level 61, right associativity) : py_scope.
Local Open Scope py_scope.

(** The result and the final world of running a computation. *)
Definition result {A} (c : M A) (w : World) : Res A := fst (c w).
Definition final {A} (c : M A) (w : World) : World := snd (c w).

(** ** The framework and library calls the controllers make *)

Module frappe.

(** [frappe.get_doc("Virtual Wallet", name)] *)
Definition get_wallet (name : string) : M VirtualWallet.t := fun w =>
  match find (fun d => String.eqb (VirtualWallet.name d) name) (wallets w) with
  | Some d => (Val d, w)
  | None => (Exc (DoesNotExistError "Virtual Wallet" (Some name)), w)
  end.

(** [frappe.get_list("Virtual Wallet", limit=1)], as the list of names *)
Definition list_wallets_limit_1 : M (list string) := fun w =>
  (Val (firstn 1 (map VirtualWallet.name (wallets w))), w).

(** [frappe.get_list("Payment Pin", filters={"wallet": wallet_name},
    fields=["name"])], as the list of names *)
Definition list_pins (wallet_name : string) : M (list string) := fun w =>
  (Val (map PaymentPin.name
          (filter (fun p => String.eqb (PaymentPin.wallet p) wallet_name) (pins w))),
   w).

(** The same query with [limit=1]. *)
Definition list_pins_limit_1 (wallet_name : string) : M (list string) :=
  l <- list_pins wallet_name ;; ret (firstn 1 l).

(** [frappe.get_doc("Payment Pin", name)] *)
Definition get_pin (name : string) : M PaymentPin.t := fun w =>
  match find (fun d => String.eqb (PaymentPin.name d) name) (pins w) with
  | Some d => (Val d, w)
  | None => (Exc (DoesNotExistError "Payment Pin" (Some name)), w)
  end.

(** [frappe.get_doc("BanksB", name)]; the name comes from a link field and
    may be unset. *)
Definition get_bank (name : option string) : M BanksB.t := fun w =>
  match name with
  | Some n =>
      match find (fun d => String.eqb (BanksB.name d) n) (banks w) with
      | Some d => (Val d, w)
      | None => (Exc (DoesNotExistError "BanksB" name), w)
      end
  | None => (Exc (DoesNotExistError "BanksB" name), w)
  end.

(** [frappe.get_doc("Virtual Payment", name)] *)
Definition get_payment (name : string) : M VirtualPayment.t := fun w =>
  match find (fun d => String.eqb (VirtualPayment.name d) name) (payments w) with
  | Some d => (Val d, w)
  | None => (Exc (DoesNotExistError "Virtual Payment" (Some name)), w)
  end.

(** [frappe.get_roles(frappe.session.user)] *)
Definition get_roles : M (list string) := fun w => (Val (user_roles w), w).

(** [frappe.utils.now()] *)
Definition utils_now : M string := fun w => (Val (now w), w).

End frappe.

(** Writing a table back: the row with the document's name is replaced. *)
Fixpoint replace_wallet (d : VirtualWallet.t) (l : list VirtualWallet.t)
  : list VirtualWallet.t :=
  match l with
  | [] => []
  | x :: rest =>
      if String.eqb (VirtualWallet.name x) (VirtualWallet.name d)
      then d :: rest
      else x :: replace_wallet d rest
  end.

Fixpoint replace_pin (d : PaymentPin.t) (l : list PaymentPin.t)
  : list PaymentPin.t :=
  match l with
  | [] => []
  | x :: rest =>
      if String.eqb (PaymentPin.name x) (PaymentPin.name d)
      then d :: rest
      else x :: replace_pin d rest
  end.

Fixpoint replace_payment (d : VirtualPayment.t) (l : list VirtualPayment.t)
  : list VirtualPayment.t :=
  match l with
  | [] => []
  | x :: rest =>
      if String.eqb (VirtualPayment.name x) (VirtualPayment.name d)
      then d :: rest
      else x :: replace_payment d rest
  end.

Definition set_wallets (ws : list VirtualWallet.t) (w : World) : World :=
  mkWorld ws (pins w) (banks w) (history w) (payments w) (environ w)
    (conf_live_token w) (db_connected w) (settings_live_token w)
    (user_roles w) (network w) (requests_made w) (slept w) (now w).

Definition set_pins (ps : list PaymentPin.t) (w : World) : World :=
  mkWorld (wallets w) ps (banks w) (history w) (payments w) (environ w)
    (conf_live_token w) (db_connected w) (settings_live_token w)
    (user_roles w) (network w) (requests_made w) (slept w) (now w).

Definition set_history (h : list TransactionHistory.t) (w : World) : World :=
  mkWorld (wallets w) (pins w) (banks w) h (payments w) (environ w)
    (conf_live_token w) (db_connected w) (settings_live_token w)
    (user_roles w) (network w) (requests_made w) (slept w) (now w).

Definition set_payments (ps : list VirtualPayment.t) (w : World) : World :=
  mkWorld (wallets w) (pins w) (banks w) (history w) ps (environ w)
    (conf_live_token w) (db_connected w) (settings_live_token w)
    (user_roles w) (network w) (requests_made w) (slept w) (now w).

Definition set_requests_made (n : nat) (w : World) : World :=
  mkWorld (wallets w) (pins w) (banks w) (history w) (payments w) (environ w)
    (conf_live_token w) (db_connected w) (settings_live_token w)
    (user_roles w) (network w) n (slept w) (now w).

Definition set_slept (l : list Z) (w : World) : World :=
  mkWorld (wallets w) (pins w) (banks w) (history w) (payments w) (environ w)
    (conf_live_token w) (db_connected w) (settings_live_token w)
    (user_roles w) (network w) (requests_made w) l (now w).

(** [wallet_doc.save(ignore_permissions=True)]: the Virtual Wallet
    controller defines no validate or before_save hook. *)
Definition save_wallet (d : VirtualWallet.t) : M unit := fun w =>
  (Val tt, set_wallets (replace_wallet d (wallets w)) w).

(** [pin_doc.save()] *)
Definition save_pin (d : PaymentPin.t) : M unit := fun w =>
  (Val tt, set_pins (replace_pin d (pins w)) w).

(** [doc.db_set(field, value, commit=True)] on a Virtual Payment, given
    the document with the field already set. *)
Definition db_set_payment (d : VirtualPayment.t) : M unit := fun w =>
  (Val tt, set_payments (replace_payment d (payments w)) w).

(** [requests.get(...)] and [requests.post(...)]: the next request goes
    out, and the gateway answers or the call raises. *)
Definition http_request : M (Z * option json) := fun w =>
  let w' := set_requests_made (S (requests_made w)) w in
  match network w (requests_made w) with
  | Response status body => (Val (status, body), w')
  | Raises e => (Exc e, w')
  end.

(** [time.sleep(seconds)] *)
Definition time_sleep (seconds : Z) : M unit := fun w =>
  (Val tt, set_slept (slept w ++ [seconds]) w).

(** [response.json()] *)
Definition response_json (body : option json) : M json :=
  match body with
  | Some j => ret j
  | None => raise JSONDecodeError
  end.

(** [d.get(key, default)], which only a dict has. *)
Definition dict_get (d : json) (key : string) (default : json) : M json :=
  match d with
  | JDict fields =>
      ret (match Json.assoc key fields with Some v => v | None => default end)
  | _ => raise (AttributeError "object has no attribute 'get'")
  end.

(** [s.strip()] of a value read from JSON, which only a string has. *)
Definition json_strip (v : json) : M string :=
  match v with
  | JStr s => ret (Py.strip s)
  | _ => raise (AttributeError "object has no attribute 'strip'")
  end.

(** [xs[i]] *)
Definition index {A} (xs : list A) (i : nat) : M A :=
  match nth_error xs i with
  | Some x => ret x
  | None => raise (IndexError "list index out of range")
  end.

(** ** What the controllers return

    Every whitelisted method returns a dict with a [success] flag and either
    a payload or an [error] text.  [Msg] has one constructor per error text
    of the source, carrying the values its f-string interpolates. *)

Inductive ValidationIssue : Type :=
| BankCodeMissing
    (** destination_bank_code is missing or could not be retrieved *)
| AccountNumberMissing
    (** destination_account_number is missing *)
| AmountInvalid (amount : Q)
    (** amount is invalid: {amount} *)
| AccountNumberNot10 (account : option string).
    (** destination_account_number should be 10 digits: {account} *)

Inductive Msg : Type :=
(* verify_transaction_pin *)
| NoPermission (role : string)
    (** You don't have permission to access this wallet. Required role: {role} *)
| WalletNotFound (wallet_name : string)
    (** Virtual wallet '{wallet_name}' not found *)
| NoPinFound
    (** No PIN found for this wallet. Please set up a PIN first. *)
| IncorrectPin
    (** Incorrect PIN. Please try again. *)
| PinNotConfigured
    (** PIN not properly configured. Please reset your PIN. *)
| UnableToVerifyPin
    (** Unable to verify PIN. Please contact administrator or reset your PIN. *)
| PinVerificationFailed (e : exn)
    (** PIN verification failed: {e} *)
(* validate_balance_for_wallet *)
| AmountNotPositive
    (** Payment amount must be greater than zero. *)
| InsufficientFunds (wallet_name : string) (current_balance payment_amount : Q)
    (** Insufficient Funds in virtual wallet {wallet_name}. Current balance
        is {current_balance}, but you are trying to transfer
        {payment_amount}. Please top up your virtual wallet or reduce the
        transfer amount. *)
| BalanceValidationError (e : exn)
    (** Error validating virtual wallet balance: {e} *)
(* make_virtual_payment *)
| NoWalletsFound
    (** No virtual wallets found. Please create a virtual wallet first. *)
| PinRequired
    (** Transaction PIN is required for payment authorization *)
| BearerTokenNotFound
    (** Bearer token not found *)
| BankCodeNotFound
    (** Bank code not found *)
| PaymentError (e : exn)
    (** Payment error: {e} *)
(* _process_payment_request and _handle_payment_response *)
| RequestValidationFailed (issues : list ValidationIssue)
    (** Request validation failed: {issues, comma separated} *)
| MissingFields (fields : list string)
    (** Missing or invalid required fields: {fields, comma separated} *)
| RequestTimedOut
    (** Payment request timed out *)
| ConnectionErrorOccurred (e : exn)
    (** Connection error occurred: {e} *)
| NetworkErrorOccurred (e : exn)
    (** Network error occurred: {e} *)
| MaxRetriesExceeded
    (** Max retries exceeded *)
| InvalidResponseFormat
    (** Invalid response format from payment gateway *)
| PaymentFailedWithStatus (status_code : Z)
    (** Payment failed with status {status_code} *)
| GatewayMessage (message : json)
    (** the gateway's own [message], verbatim *)
(* process_bank_verification and _verify_bank_account *)
| BearerTokenNotFoundContactAdmin
    (** Bearer token not found. Please contact administrator. *)
| UnableToRetrieveBankInfo
    (** Unable to retrieve bank information *)
| InvalidAccountNumberFormat
    (** Invalid account number format *)
| UnableToRetrieveAccountName
    (** Unable to retrieve account name *)
| VerificationFailedWithStatus (status_code : Z)
    (** Verification failed with status code {status_code} *)
| NetworkErrorDuringVerification
    (** Network error occurred during verification *)
| VerificationError (e : exn)
    (** Verification error: {e} *)
(* verify_and_update_pin *)
| NoPinForWallet
    (** No PIN found for this wallet *)
| CurrentPinIncorrect
    (** Current PIN is incorrect *)
| PinUpdateError (e : exn).
    (** Error updating PIN: {e} *)

Inductive Reply : Type :=
| Failure (error : Msg)
    (** {"success": False, "error": error} *)
| FailureWithStatus (error : Msg) (status_code : Z)
    (** {"success": False, "error": error, "status_code": ..., "details": ...} *)
| RetryReply
    (** {"retry": True} *)
| PinVerified
    (** {"success": True, "message": "PIN verified successfully"} *)
| BalanceValidated (current_balance payment_amount : Q)
    (wallet_doc : VirtualWallet.t) (account_number : string)
    (** {"success": True, "current_balance": ..., "payment_amount": ...,
         "wallet_doc": ..., "account_number": ...} *)
| TransferAccepted (response_data : json)
    (** {"success": True, "response_data": response_data} *)
| PaymentCompleted (new_balance : Q) (transaction_data : json)
    (wallet_used : string)
    (** {"success": True, "message": ..., "new_balance": ...,
         "transaction_data": ..., "wallet_used": ...} *)
| AccountVerified (account_name bank_name : string)
    (** {"success": True, "message": ..., "account_name": ..., "bank_name": ...} *)
| PinUpdated.
    (** {"success": True, "message": "PIN updated successfully"} *)

(** [reply["success"]] ([RetryReply] has no such key and is never asked). *)
Definition success (r : Reply) : bool :=
  match r with
  | Failure _ | FailureWithStatus _ _ | RetryReply => false
  | _ => true
  end.

(** [reply.get("retry")] *)
Definition get_retry (r : Reply) : bool :=
  match r with
  | RetryReply => true
  | _ => false
  end.

(** [reply["success"]] of what a controller returned; an exception is not
    a success. *)
Definition success_of (r : Res Reply) : bool :=
  match r with
  | Val reply => success reply
  | Exc _ => false
  end.

(** [a > b] on amounts. *)
Definition Qgt_bool (a b : Q) : bool := negb (Qle_bool a b).

(** ** class VirtualPayment, verify_and_update_pin, class TransactionHistory *)

Section Controllers.

(** [PaymentPin.get_decrypted_pin], defined by the Payment Pin doctype whose
    controller is not among the sources: it returns the decrypted PIN, or
    nothing, or it raises. *)
Variable get_decrypted_pin : PaymentPin.t -> Res (option string).

(** The naming rule of the Transaction History doctype, declared in the
    doctype's JSON, which is not among the sources: the name a new document
    gets, given the table it is inserted in. *)
Variable autoname : TransactionHistory.t -> list TransactionHistory.t -> string.

Definition lift {A} (r : Res A) : M A := fun w => (r, w).

(** *** Credential resolver *)

Definition _get_bearer_token : M (option string) :=
  w <- get_world ;;
  let token := Py.or_ (environ w "LIVE_TOKEN") (environ w "PAYABLE_LIVE_TOKEN") in
  let token := if negb (Py.truthy token) then None else token in
  let token := if negb (Py.truthy token) then conf_live_token w else token in
  let token :=
    if negb (Py.truthy token)
    then (if db_connected w then settings_live_token w else None)
    else token in
  if negb (Py.truthy token) then ret None else ret token.

(** *** Bank directory lookup *)

Definition _get_bank_code (bank_name : option string) : M string :=
  try_except
    (bank_doc <- frappe.get_bank bank_name ;;
     match BanksB.bank_code bank_doc with
     | Some (String c s) => ret (String c s)
     | _ => raise (ValueError ("Bank code not found for: " ++ Py.str bank_name))
     end)
    (fun e => raise e).

(** *** PIN authorizer *)

Definition verify_transaction_pin (wallet_name : string)
    (transaction_pin : option string) : M Reply :=
  try_except
    (denied <-
       try_except
         (wallet_doc <- frappe.get_wallet wallet_name ;;
          match VirtualWallet.role wallet_doc with
          | Some (String c s) =>
              let role := String c s in
              user_roles <- frappe.get_roles ;;
              if negb (Py.elem role user_roles)
              then ret (Some (Failure (NoPermission role)))
              else ret None
          | _ => ret None
          end)
         (fun e =>
            match e with
            | DoesNotExistError _ _ => ret (Some (Failure (WalletNotFound wallet_name)))
            | _ => raise e
            end) ;;
     match denied with
     | Some reply => ret reply
     | None =>
         pin_records <- frappe.list_pins_limit_1 wallet_name ;;
         match pin_records with
         | [] => ret (Failure NoPinFound)
         | first :: _ =>
             pin_doc <- frappe.get_pin first ;;
             if Py.truthy (PaymentPin.pin pin_doc) then
               if String.eqb (Py.strip (Py.str transaction_pin))
                             (Py.strip (Py.str (PaymentPin.pin pin_doc)))
               then ret PinVerified
               else ret (Failure IncorrectPin)
             else
               try_except
                 (stored_pin <- lift (get_decrypted_pin pin_doc) ;;
                  if Py.truthy stored_pin then
                    if String.eqb (Py.strip (Py.str transaction_pin))
                                  (Py.strip (Py.str stored_pin))
                    then ret PinVerified
                    else ret (Failure IncorrectPin)
                  else ret (Failure PinNotConfigured))
                 (fun _ => ret (Failure UnableToVerifyPin))
         end
     end)
    (fun e => ret (Failure (PinVerificationFailed e))).

(** *** Wallet ledger *)

Definition validate_balance_for_wallet (self : VirtualPayment.t)
    (wallet_name : string) : M Reply :=
  try_except
    (wallet_doc <- frappe.get_wallet wallet_name ;;
     let current_balance := VirtualWallet.balance wallet_doc in
     let payment_amount := VirtualPayment.amount self in
     if Qle_bool payment_amount 0 then
       ret (Failure AmountNotPositive)
     else if Qgt_bool payment_amount current_balance then
       ret (Failure (InsufficientFunds wallet_name current_balance payment_amount))
     else
       let account_number :=
         Py.str (Py.or_ (VirtualWallet.account_number wallet_doc)
                        (Some VirtualPayment.DEFAULT_WALLET_ACCOUNT)) in
       ret (BalanceValidated current_balance payment_amount wallet_doc account_number))
    (fun e => ret (Failure (BalanceValidationError e))).

Definition with_balance (wallet_doc : VirtualWallet.t) (b : Q) : VirtualWallet.t :=
  VirtualWallet.mk (VirtualWallet.name wallet_doc) b
    (VirtualWallet.account_number wallet_doc) (VirtualWallet.role wallet_doc).

Definition _update_specific_wallet_balance (wallet_doc : VirtualWallet.t)
    (current_balance payment_amount : Q) : M Q :=
  try_except
    (let new_balance := (current_balance - payment_amount)%Q in
     save_wallet (with_balance wallet_doc new_balance) ;;
     ret new_balance)
    (fun e =>
       raise (OtherException "Payment processed but failed to update wallet balance")).

(** *** Transaction ledger *)

(** [frappe.db.exists("Transaction History", {"transaction_reference": ref})]:
    the name of the first record with that reference. *)
Definition db_exists_history (ref : json) : M (option string) := fun w =>
  (Val (option_map TransactionHistory.name
          (find (fun d => Json.eqb (TransactionHistory.transaction_reference d) ref)
                (history w))),
   w).

(** [frappe.get_doc("Transaction History", name)] *)
Definition get_history (name : string) : M TransactionHistory.t := fun w =>
  match find (fun d => String.eqb (TransactionHistory.name d) name) (history w) with
  | Some d => (Val d, w)
  | None => (Exc (DoesNotExistError "Transaction History" (Some name)), w)
  end.

(** [TransactionHistory.validate] *)
Definition TransactionHistory_validate (self : TransactionHistory.t) : M unit :=
  if negb (Json.truthy (TransactionHistory.transaction_reference self)) then
    raise (ValidationError "Transaction Reference is required")
  else
    match TransactionHistory.amount self with
    | JNum q =>
        if Qeq_bool q 0 || Qle_bool q 0
        then raise (ValidationError "Amount must be greater than zero")
        else ret tt
    | JBool true => ret tt
    | JNull | JBool false | JStr EmptyString | JList [] | JDict [] =>
        raise (ValidationError "Amount must be greater than zero")
    | _ => raise (TypeError "'<=' not supported")
    end.

Definition with_name (d : TransactionHistory.t) (n : string) : TransactionHistory.t :=
  TransactionHistory.mk n
    (TransactionHistory.transaction_reference d)
    (TransactionHistory.virtual_payment d)
    (TransactionHistory.status d)
    (TransactionHistory.transaction_date d)
    (TransactionHistory.amount d)
    (TransactionHistory.destination_bank d)
    (TransactionHistory.destination_account_number d)
    (TransactionHistory.destination_account_name d)
    (TransactionHistory.source_account_number d)
    (TransactionHistory.narration d)
    (TransactionHistory.api_response d).

(** [transaction.insert(ignore_permissions=True)]: the document is named,
    validated and appended to its table; a name already taken is refused.
    ([before_insert] only fills a missing transaction_date, which
    create_transaction_record always supplies.) *)
Definition insert_history (d : TransactionHistory.t) : M TransactionHistory.t :=
  w <- get_world ;;
  let named := with_name d (autoname d (history w)) in
  TransactionHistory_validate named ;;
  if existsb (fun x => String.eqb (TransactionHistory.name x)
                                  (TransactionHistory.name named)) (history w)
  then raise (OtherException "DuplicateEntryError")
  else
    put_world (set_history (history w ++ [named]) w) ;;
    ret named.

(** [TransactionHistory.create_transaction_record(transaction_data,
    virtual_payment_name)]; the Python [None] it returns on an exception
    is [None] here. *)
Definition create_transaction_record (transaction_data : json)
    (virtual_payment_name : option string) : M (option TransactionHistory.t) :=
  try_except
    (ref <- dict_get transaction_data "transactionReference" JNull ;;
     existing <- db_exists_history ref ;;
     match existing with
     | Some name =>
         d <- get_history name ;;
         ret (Some d)
     | None =>
         date <- frappe.utils_now ;;
         amount <- dict_get transaction_data "amount" (JNum 0) ;;
         bank <- dict_get transaction_data "destinationBankName" (JStr EmptyString) ;;
         account_number <- dict_get transaction_data "destinationAccountNumber" (JStr EmptyString) ;;
         account_name <- dict_get transaction_data "destinationAccountName" (JStr EmptyString) ;;
         source <- dict_get transaction_data "sourceAccountNumber" (JStr EmptyString) ;;
         narration <- dict_get transaction_data "narration" (JStr EmptyString) ;;
         transaction <-
           insert_history
             (TransactionHistory.mk EmptyString ref virtual_payment_name "Pending"
                date amount bank account_number account_name source narration
                transaction_data) ;;
         ret (Some transaction)
     end)
    (fun e => ret None).

(** *** The external transfer call *)

Definition _handle_payment_response (response : Z * option json) (attempt : nat)
  : M Reply :=
  let '(status_code, body) := response in
  if (status_code =? 200)%Z then
    try_except
      (response_json <- response_json body ;;
       response_data <- dict_get response_json "data" response_json ;;
       ret (TransferAccepted response_data))
      (fun e =>
         match e with
         | JSONDecodeError => ret (Failure InvalidResponseFormat)
         | _ => raise e
         end)
  else if (status_code =? 502)%Z && (attempt <? VirtualPayment.MAX_RETRIES - 1)%nat then
    ret RetryReply
  else
    error_message <-
      try_except
        (error_data <- response_json body ;;
         match error_data with
         | JDict fields =>
             match Json.assoc "message" fields with
             | Some m => ret (GatewayMessage m)
             | None => ret (PaymentFailedWithStatus status_code)
             end
         | _ => raise (AttributeError "object has no attribute 'get'")
         end)
        (fun e =>
           match e with
           | JSONDecodeError => ret (PaymentFailedWithStatus status_code)
           | _ => raise e
           end) ;;
    ret (FailureWithStatus error_message status_code).

(** What one turn of the [for attempt in range(MAX_RETRIES)] loop ends in:
    a [return], or a [continue]. *)
Inductive LoopStep : Type :=
| Return (r : Reply)
| Continue.

(** [time.sleep(self.RETRY_DELAYS[attempt]); continue] *)
Definition backoff (attempt : nat) : M LoopStep :=
  delay <- index VirtualPayment.RETRY_DELAYS attempt ;;
  time_sleep delay ;;
  ret Continue.

(** The body of the loop for one value of [attempt]. *)
Definition attempt_transfer (attempt : nat) : M LoopStep :=
  try_except
    (response <- http_request ;;
     result <- _handle_payment_response response attempt ;;
     if get_retry result then backoff attempt
     else ret (Return result))
    (fun e =>
       match e with
       | Timeout =>
           if (attempt <? VirtualPayment.MAX_RETRIES - 1)%nat then backoff attempt
           else ret (Return (Failure RequestTimedOut))
       | ConnectionError _ =>
           if (attempt <? VirtualPayment.MAX_RETRIES - 1)%nat then backoff attempt
           else ret (Return (Failure (ConnectionErrorOccurred e)))
       | RequestException _ =>
           if (attempt <? VirtualPayment.MAX_RETRIES - 1)%nat then backoff attempt
           else ret (Return (Failure (NetworkErrorOccurred e)))
       | _ => raise e
       end).

(** The loop, from [attempt] on, with [remaining] turns left; falling out of
    it returns the max-retries error. *)
Fixpoint transfer_loop (remaining attempt : nat) : M Reply :=
  match remaining with
  | O => ret (Failure MaxRetriesExceeded)
  | S remaining' =>
      step <- attempt_transfer attempt ;;
      match step with
      | Return r => ret r
      | Continue => transfer_loop remaining' (S attempt)
      end
  end.

(** [len(str(self.destination_account_number)) != 10
     if self.destination_account_number else True] *)
Definition account_number_not_10 (account : option string) : bool :=
  if Py.truthy account then negb (String.length (Py.str account) =? 10)%nat
  else true.

(** The bank code of the request: the one on the document, else the one
    of the bank the document names, when it can be found.  (The in-memory
    assignment [self.destination_bank_code = ...] is not modelled: nothing
    reads the field afterwards.) *)
Definition resolve_destination_bank_code (self : VirtualPayment.t)
  : M (option string) :=
  if negb (Py.truthy (VirtualPayment.destination_bank_code self))
     && Py.truthy (VirtualPayment.destination_bank self)
  then
    try_except
      (code <- _get_bank_code (VirtualPayment.destination_bank self) ;;
       ret (Some code))
      (fun _ => ret (VirtualPayment.destination_bank_code self))
  else ret (VirtualPayment.destination_bank_code self).

(** The request payload is not modelled: the gateway's behaviour is given
    by [network]. *)
Definition _process_payment_request (self : VirtualPayment.t)
    (bearer_token bank_code : string) (payment_amount : Q)
    (account_number : string) : M Reply :=
  destination_bank_code <- resolve_destination_bank_code self ;;
  let source_account :=
    Py.or_ (VirtualPayment.source_account_number self) (Some "9000136910") in
  let amount := VirtualPayment.amount self in
  let account := VirtualPayment.destination_account_number self in
  let validation_errors :=
    ((if negb (Py.truthy destination_bank_code) then [BankCodeMissing] else [])
     ++ (if negb (Py.truthy account) then [AccountNumberMissing] else [])
     ++ (if Qeq_bool amount 0 || Qle_bool amount 0 then [AmountInvalid amount] else [])
     ++ (if account_number_not_10 account then [AccountNumberNot10 account] else []))%list in
  match validation_errors with
  | _ :: _ => ret (Failure (RequestValidationFailed validation_errors))
  | [] =>
      if negb (Py.truthy destination_bank_code
               && Py.truthy account
               && negb (Qeq_bool amount 0 || Qle_bool amount 0)
               && Py.truthy source_account)
      then
        ret (Failure (MissingFields
          ((if negb (Py.truthy destination_bank_code) then ["destinationBankCode"] else [])
           ++ (if negb (Py.truthy account) then ["destinationAccountNumber"] else [])
           ++ (if Qeq_bool amount 0 || Qle_bool amount 0 then ["amount"] else [])
           ++ (if negb (Py.truthy source_account) then ["sourceAccountNumber"] else []))%list))
      else transfer_loop VirtualPayment.MAX_RETRIES 0
  end.

(** *** Payment orchestrator *)

Definition with_transaction_reference (d : VirtualPayment.t) (ref : json)
  : VirtualPayment.t :=
  VirtualPayment.mk (VirtualPayment.name d)
    (VirtualPayment.destination_bank d)
    (VirtualPayment.destination_bank_code d)
    (VirtualPayment.destination_account_number d)
    (VirtualPayment.destination_account_name d)
    (VirtualPayment.amount d)
    (VirtualPayment.source_account_number d)
    (VirtualPayment.narration d)
    ref.

Definition with_destination_account_name (d : VirtualPayment.t)
    (account_name : option string) : VirtualPayment.t :=
  VirtualPayment.mk (VirtualPayment.name d)
    (VirtualPayment.destination_bank d)
    (VirtualPayment.destination_bank_code d)
    (VirtualPayment.destination_account_number d)
    account_name
    (VirtualPayment.amount d)
    (VirtualPayment.source_account_number d)
    (VirtualPayment.narration d)
    (VirtualPayment.transaction_reference d).

(** The wallet the payment is taken from: the one given, else the first
    wallet there is. *)
Definition select_wallet (virtual_wallet : option string) : M (option string) :=
  match virtual_wallet with
  | Some (String c s) => ret (Some (String c s))
  | _ =>
      wallet_list <- frappe.list_wallets_limit_1 ;;
      match wallet_list with
      | [] => ret None
      | first :: _ => ret (Some first)
      end
  end.

(** Step 7 of make_virtual_payment: the reference is saved on the payment
    document and the transaction record is created. *)
Definition record_transaction (self : VirtualPayment.t) (response_data : json)
  : M unit :=
  transaction_ref <- dict_get response_data "transactionReference" JNull ;;
  if Json.truthy transaction_ref then
    doc <- frappe.get_payment (VirtualPayment.name self) ;;
    db_set_payment (with_transaction_reference doc transaction_ref) ;;
    create_transaction_record response_data (Some (VirtualPayment.name self)) ;;
    ret tt
  else ret tt.

Definition make_virtual_payment (self : VirtualPayment.t)
    (transaction_pin virtual_wallet : option string) : M Reply :=
  try_except
    (selected <- select_wallet virtual_wallet ;;
     match selected with
     | None => ret (Failure NoWalletsFound)
     | Some payment_wallet =>
         (* Step 1: verify the transaction PIN *)
         if negb (Py.truthy transaction_pin) then ret (Failure PinRequired)
         else
           pin_verification <- verify_transaction_pin payment_wallet transaction_pin ;;
           if negb (success pin_verification) then ret pin_verification
           else
             (* Step 2: validate the balance of the wallet *)
             validation_result <- validate_balance_for_wallet self payment_wallet ;;
             match validation_result with
             | BalanceValidated current_balance payment_amount wallet_doc account_number =>
                 (* Step 3: bearer token *)
                 bearer_token <- _get_bearer_token ;;
                 if negb (Py.truthy bearer_token) then ret (Failure BearerTokenNotFound)
                 else
                   (* Step 4: bank code *)
                   found <-
                     try_except
                       (code <- _get_bank_code (VirtualPayment.destination_bank self) ;;
                        ret (Some code))
                       (fun _ => ret None) ;;
                   match found with
                   | None => ret (Failure BankCodeNotFound)
                   | Some bank_code =>
                       (* Step 5: the transfer *)
                       payment_result <-
                         _process_payment_request self (Py.str bearer_token)
                           bank_code payment_amount account_number ;;
                       match payment_result with
                       | TransferAccepted response_data =>
                           (* Step 6: the balance of the wallet *)
                           new_balance <-
                             _update_specific_wallet_balance wallet_doc
                               current_balance payment_amount ;;
                           (* Step 7: the transaction record *)
                           record_transaction self response_data ;;
                           ret (PaymentCompleted new_balance response_data payment_wallet)
                       | _ => ret payment_result
                       end
                   end
             | _ => ret validation_result
             end
     end)
    (fun e => ret (Failure (PaymentError e))).

(** *** Account resolution *)

Definition _verify_bank_account (self : VirtualPayment.t)
    (bearer_token bank_code account_number : string) (doc : VirtualPayment.t)
  : M Reply :=
  try_except
    (response <- http_request ;;
     let '(status_code, body) := response in
     if (status_code =? 200)%Z then
       response_data <- response_json body ;;
       data <- dict_get response_data "data" (JDict []) ;;
       account_name_raw <- dict_get data "accountName" (JStr EmptyString) ;;
       account_name <- json_strip account_name_raw ;;
       bank_name_raw <- dict_get data "bankName" (JStr EmptyString) ;;
       bank_name <- json_strip bank_name_raw ;;
       match account_name with
       | EmptyString => ret (Failure UnableToRetrieveAccountName)
       | _ =>
           db_set_payment (with_destination_account_name doc (Some account_name)) ;;
           ret (AccountVerified account_name bank_name)
       end
     else ret (Failure (VerificationFailedWithStatus status_code)))
    (fun e =>
       match e with
       | Timeout | ConnectionError _ | RequestException _ | JSONDecodeError =>
           ret (Failure NetworkErrorDuringVerification)
       | _ => raise e
       end).

(** [hasattr(self, 'destination_bank')] and [hasattr(self,
    'destination_account_number')] hold of every Virtual Payment document,
    so that test never fails and is left out. *)
Definition process_bank_verification (self : VirtualPayment.t) : M Reply :=
  try_except
    (doc <- frappe.get_payment (VirtualPayment.name self) ;;
     let doc := with_destination_account_name doc (Some EmptyString) in
     db_set_payment doc ;;
     bearer_token <- _get_bearer_token ;;
     if negb (Py.truthy bearer_token) then
       ret (Failure BearerTokenNotFoundContactAdmin)
     else
       found <-
         try_except
           (code <- _get_bank_code (VirtualPayment.destination_bank self) ;;
            ret (Some code))
           (fun _ => ret None) ;;
       match found with
       | None => ret (Failure UnableToRetrieveBankInfo)
       | Some bank_code =>
           let account_number :=
             Py.str (VirtualPayment.destination_account_number self) in
           if (String.length account_number <? 10)%nat then
             ret (Failure InvalidAccountNumberFormat)
           else
             _verify_bank_account self (Py.str bearer_token) bank_code
               account_number doc
       end)
    (fun e => ret (Failure (VerificationError e))).

(** *** verify_and_update_pin (virtual_wallet.py) *)

Definition with_pin (d : PaymentPin.t) (p : option string) : PaymentPin.t :=
  PaymentPin.mk (PaymentPin.name d) (PaymentPin.wallet d) p.

Definition verify_and_update_pin (wallet_name : string)
    (current_pin new_pin : option string) : M Reply :=
  try_except
    (pin_records <- frappe.list_pins wallet_name ;;
     match pin_records with
     | [] => ret (Failure NoPinForWallet)
     | first :: _ =>
         pin_doc <- frappe.get_pin first ;;
         if negb (String.eqb (Py.str (PaymentPin.pin pin_doc)) (Py.str current_pin))
         then ret (Failure CurrentPinIncorrect)
         else
           save_pin (with_pin pin_doc new_pin) ;;
           ret PinUpdated
     end)
    (fun e => ret (Failure (PinUpdateError e))).

End Controllers.

(** ** class BanksB *)

Module BanksBController.

Definition set_banks (bs : list BanksB.t) (w : World) : World :=
  mkWorld (wallets w) (pins w) bs (history w) (payments w) (environ w)
    (conf_live_token w) (db_connected w) (settings_live_token w)
    (user_roles w) (network w) (requests_made w) (slept w) (now w).

(** Equality of a stored nullable text with a filter value. *)
Definition text_eqb (a b : option string) : bool :=
  match a, b with
  | Some x, Some y => String.eqb x y
  | None, None => true
  | _, _ => false
  end.

(** [frappe.db.get_value("BanksB", {"bank_code": bank_code,
    "name": ("!=", name)}, "name")]: the name of the first other bank
    with that code. *)
Definition other_bank_with_code (bank_code : option string) (name : string)
  : M (option string) := fun w =>
  (Val (option_map BanksB.name
          (find (fun d => text_eqb (BanksB.bank_code d) bank_code
                          && negb (String.eqb (BanksB.name d) name))
                (banks w))),
   w).

(** [BanksB.validate]; [frappe.throw] raises a ValidationError.  A
    document name is never empty, so [if existing:] is the test that a
    name came back. *)
Definition validate (self : BanksB.t) : M unit :=
  if negb (Py.truthy (BanksB.bank_name self)) then
    raise (ValidationError "Bank name is required")
  else if negb (Py.truthy (BanksB.bank_code self)) then
    raise (ValidationError "Bank code is required")
  else
    existing <- other_bank_with_code (BanksB.bank_code self) (BanksB.name self) ;;
    match existing with
    | Some _ =>
        raise (ValidationError
                 ("Bank with code " ++ Py.str (BanksB.bank_code self)
                  ++ " already exists"))
    | None => ret tt
    end.

(** [BanksB.before_save] *)
Definition before_save (self : BanksB.t) : BanksB.t :=
  BanksB.mk (BanksB.name self)
    (match BanksB.bank_name self with
     | Some (String c s) => Some (Py.strip (String c s))
     | other => other
     end)
    (match BanksB.bank_code self with
     | Some (String c s) => Some (Py.upper (Py.strip (String c s)))
     | other => other
     end).

(** Writing the row: the bank of that name is replaced, a new bank is
    appended. *)
Fixpoint upsert (d : BanksB.t) (l : list BanksB.t) : list BanksB.t :=
  match l with
  | [] => [d]
  | x :: rest =>
      if String.eqb (BanksB.name x) (BanksB.name d)
      then d :: rest
      else x :: upsert d rest
  end.

(** [doc.save()] and [doc.insert()] of a BanksB document: Frappe runs the
    controller hooks in the order [validate], [before_save], and then
    writes the row. *)
Definition save (self : BanksB.t) : M BanksB.t :=
  validate self ;;
  let doc := before_save self in
  w <- get_world ;;
  put_world (set_banks (upsert doc (banks w)) w) ;;
  ret doc.

End BanksBController.

(** ** Tactics for running controller code *)

Ltac unfold_monad :=
  unfold result, final, bind, ret, raise, try_except, lift, get_world, put_world in *.

Ltac run := unfold_monad; cbn [fst snd] in *.


(** ** Statements of the specification, in its own words *)

(** Credential resolver: the sources in the order the specification lists
    them (environment variable LIVE_TOKEN, environment variable
    PAYABLE_LIVE_TOKEN, configuration key live_token, the persisted System
    Settings value, which is there when there is a database). *)
Definition credential_sources (w : World) : list (option string) :=
  [ environ w "LIVE_TOKEN";
    environ w "PAYABLE_LIVE_TOKEN";
    conf_live_token w;
    if db_connected w then settings_live_token w else None ].

(** The first non-empty value of a list of sources, [None] when there is
    none. *)
Definition first_non_empty (sources : list (option string)) : option string :=
  match find Py.truthy sources with
  | Some v => v
  | None => None
  end.

(** PIN authorizer: the caller lacks the role the wallet requires. *)
Definition lacks_required_role (wallet_doc : VirtualWallet.t) (w : World) : bool :=
  match VirtualWallet.role wallet_doc with
  | Some (String c s) => negb (Py.elem (String c s) (user_roles w))
  | _ => false
  end.

(** PIN authorizer: exact match after trimming whitespace on both sides. *)
Definition trimmed_equal (attempt stored : option string) : bool :=
  String.eqb (Py.strip (Py.str attempt)) (Py.strip (Py.str stored)).

(** PIN authorizer, last step as the specification words it: when the
    stored PIN is not plain text and decryption does not fail, the outcome
    is that of the trimmed comparison with the decrypted value. *)
Definition decrypted_pin_is_always_compared : Prop :=
  forall (get_decrypted_pin : PaymentPin.t -> Res (option string))
         (w : World) (wallet_name : string) (wallet_doc : VirtualWallet.t)
         (attempt : option string) (first : string) (rest : list string)
         (pin_doc : PaymentPin.t) (stored : option string),
    result (frappe.get_wallet wallet_name) w = Val wallet_doc ->
    lacks_required_role wallet_doc w = false ->
    result (frappe.list_pins wallet_name) w = Val (first :: rest) ->
    result (frappe.get_pin first) w = Val pin_doc ->
    Py.truthy (PaymentPin.pin pin_doc) = false ->
    get_decrypted_pin pin_doc = Val stored ->
    result (verify_transaction_pin get_decrypted_pin wallet_name attempt) w
    = Val (if trimmed_equal attempt stored then PinVerified
           else Failure IncorrectPin).

(** Wallet ledger, as the specification words it: a successful validation
    carries the account number of the wallet. *)
Definition validated_account_is_the_wallets : Prop :=
  forall (w : World) (self : VirtualPayment.t) (wallet_name : string)
         (current_balance payment_amount : Q) (wallet_doc : VirtualWallet.t)
         (account_number : string),
    result (validate_balance_for_wallet self wallet_name) w
    = Val (BalanceValidated current_balance payment_amount wallet_doc account_number) ->
    VirtualWallet.account_number wallet_doc = Some account_number.

(** The account a validated debit is taken from: the wallet's own, or the
    default wallet account when the wallet has none. *)
Definition effective_account (wallet_doc : VirtualWallet.t) : string :=
  match VirtualWallet.account_number wallet_doc with
  | Some (String c s) => String c s
  | _ => VirtualPayment.DEFAULT_WALLET_ACCOUNT
  end.

(** ** Sample worlds *)

Definition offline : nat -> HttpOutcome :=
  fun _ => Raises (ConnectionError "Name or service not known").

Definition no_environ : string -> option string := fun _ => None.

(** A site with the given tables, no credentials, no roles and no network. *)
Definition site (ws : list VirtualWallet.t) (ps : list PaymentPin.t)
    (bs : list BanksB.t) (pays : list VirtualPayment.t) : World :=
  mkWorld ws ps bs [] pays no_environ None true None [] offline 0 []
    "2025-01-01 00:00:00".

Definition wallet_5000 : VirtualWallet.t :=
  VirtualWallet.mk "WALLET-1" (5000 # 1) (Some "9000136910") None.

Definition wallet_without_account : VirtualWallet.t :=
  VirtualWallet.mk "WALLET-2" (5000 # 1) None None.

Definition pin_1234 : PaymentPin.t :=
  PaymentPin.mk "PIN-1" "WALLET-1" (Some "1234").

Definition pin_encrypted : PaymentPin.t :=
  PaymentPin.mk "PIN-1" "WALLET-1" None.

Definition payment_of (amount : Q) : VirtualPayment.t :=
  VirtualPayment.mk "PAY-1" (Some "Bank A") (Some "100004") (Some "8169246969")
    None amount None None JNull.

(** ** Debits on the ledger *)

(** A debit as make_virtual_payment performs it on the ledger: step 2,
    validate_balance_for_wallet, and, when that passes, step 6,
    _update_specific_wallet_balance with the values step 2 returned.  The
    result tells whether the debit passed. *)
Definition validated_debit (self : VirtualPayment.t) (wallet_name : string)
  : M bool :=
  validation_result <- validate_balance_for_wallet self wallet_name ;;
  match validation_result with
  | BalanceValidated current_balance payment_amount wallet_doc _ =>
      _update_specific_wallet_balance wallet_doc current_balance payment_amount ;;
      ret true
  | _ => ret false
  end.

(** A sequence of debits, each a payment document and the wallet it is
    taken from. *)
Fixpoint debits (requests : list (VirtualPayment.t * string)) : M unit :=
  match requests with
  | [] => ret tt
  | (self, wallet_name) :: rest =>
      validated_debit self wallet_name ;;
      debits rest
  end.

(** The row of a wallet. *)
Definition find_wallet (name : string) (w : World) : option VirtualWallet.t :=
  find (fun d => String.eqb (VirtualWallet.name d) name) (wallets w).

(** ** The retry policy of the transfer *)

(** The outcomes of an attempt on which the specification says the
    transfer is retried: request timeout, connection-level fault, HTTP 502
    response. *)
Definition retryable_as_specified (o : HttpOutcome) : bool :=
  match o with
  | Raises Timeout => true
  | Raises (ConnectionError _) => true
  | Response status_code _ => (status_code =? 502)%Z
  | _ => false
  end.

(** The scenario as the specification words it: a 502 on attempts 1 and 2
    followed by a 200 on attempt 3 yields overall success. *)
Definition third_200_always_succeeds : Prop :=
  forall (self : VirtualPayment.t) (bearer_token bank_code : string)
         (payment_amount : Q) (account_number : string) (w : World)
         (b1 b2 b3 : option json),
    Py.truthy (VirtualPayment.destination_bank_code self) = true ->
    Py.truthy (VirtualPayment.destination_account_number self) = true ->
    String.length (Py.str (VirtualPayment.destination_account_number self)) = 10 ->
    (0 < VirtualPayment.amount self)%Q ->
    network w (requests_made w) = Response 502%Z b1 ->
    network w (S (requests_made w)) = Response 502%Z b2 ->
    network w (S (S (requests_made w))) = Response 200%Z b3 ->
    success_of (result (_process_payment_request self bearer_token bank_code
                          payment_amount account_number) w) = true.

(** The retry policy as the specification words it: an attempt is followed
    by another one only if it ended in one of those outcomes. *)
Definition retries_only_as_specified : Prop :=
  forall (self : VirtualPayment.t) (bearer_token bank_code : string)
         (payment_amount : Q) (account_number : string) (w : World) (k : nat),
    S k < requests_made
            (final (_process_payment_request self bearer_token bank_code
                      payment_amount account_number) w)
          - requests_made w ->
    retryable_as_specified (network w (requests_made w + k)) = true.

(** The outcomes of an attempt that the loop of _process_payment_request
    answers with a backoff and a new attempt: the three except clauses
    (Timeout, ConnectionError, any other RequestException) and the 502
    branch of _handle_payment_response. *)
Definition retryable (o : HttpOutcome) : bool :=
  match o with
  | Raises Timeout => true
  | Raises (ConnectionError _) => true
  | Raises (RequestException _) => true
  | Response status_code _ => (status_code =? 502)%Z
  | _ => false
  end.

(** A payment document whose request passes the validation that precedes
    the transfer: bank code on the document, account number of 10
    characters, amount above 0. *)
Definition well_formed_request (self : VirtualPayment.t) : Prop :=
  Py.truthy (VirtualPayment.destination_bank_code self) = true
  /\ Py.truthy (VirtualPayment.destination_account_number self) = true
  /\ String.length (Py.str (VirtualPayment.destination_account_number self)) = 10
  /\ (0 < VirtualPayment.amount self)%Q.

(** An attempt that ends the loop: its result is not a [continue], it is
    not the max-retries error, and it is a success only on a 200
    response. *)
Definition terminal (r : Res LoopStep) (o : HttpOutcome) : Prop :=
  r <> Val Continue
  /\ r <> Val (Return (Failure MaxRetriesExceeded))
  /\ (forall response_data,
        r = Val (Return (TransferAccepted response_data)) ->
        exists body, o = Response 200%Z body).

(** The second world differs from the first at most in the requests made
    and the sleeps taken: the database, the credentials and the session
    are the same. *)
Definition only_network_used (w w' : World) : Prop :=
  w' = set_slept (slept w') (set_requests_made (requests_made w') w).

(** A gateway that answers the given outcomes to the first requests and is
    unreachable afterwards. *)
Definition scripted (outcomes : list HttpOutcome) : nat -> HttpOutcome :=
  fun n => nth n outcomes (Raises (ConnectionError "Connection refused")).

Definition with_network (net : nat -> HttpOutcome) (w : World) : World :=
  mkWorld (wallets w) (pins w) (banks w) (history w) (payments w) (environ w)
    (conf_live_token w) (db_connected w) (settings_live_token w)
    (user_roles w) net (requests_made w) (slept w) (now w).

Definition accepted_body : option json :=
  Some (JDict [("data", JDict [("transactionReference", JStr "TRX-1");
                               ("amount", JNum (100 # 1))])]).

(** ** Frames: what a computation leaves as it is *)

(** Every run of [c] takes a world to one related to it by [R]. *)
Definition preserves {A} (R : World -> World -> Prop) (c : M A) : Prop :=
  forall w, R w (final c w).

(** The wallet table is the same. *)
Definition same_wallets (w w' : World) : Prop := wallets w' = wallets w.

(** [c] returns, whatever the world: it does not raise. *)
Definition returns {A} (c : M A) : Prop :=
  forall w, exists a, result c w = Val a.

(** Every step of make_virtual_payment up to and including the transfer
    succeeded: a wallet was selected, its PIN verified, the balance
    validated, the bearer token and the bank code found, and
    _process_payment_request returned success. *)
Definition transfer_succeeded
    (get_decrypted_pin : PaymentPin.t -> Res (option string))
    (self : VirtualPayment.t) (transaction_pin virtual_wallet : option string)
    (w : World) (wallet_doc : VirtualWallet.t)
    (current_balance payment_amount : Q) : Prop :=
  exists payment_wallet account_number bearer_token bank_code response_data,
    result (select_wallet virtual_wallet) w = Val (Some payment_wallet)
    /\ result (verify_transaction_pin get_decrypted_pin payment_wallet transaction_pin) w
       = Val PinVerified
    /\ result (validate_balance_for_wallet self payment_wallet) w
       = Val (BalanceValidated current_balance payment_amount wallet_doc account_number)
    /\ result _get_bearer_token w = Val (Some bearer_token)
    /\ result (_get_bank_code (VirtualPayment.destination_bank self)) w = Val bank_code
    /\ result (_process_payment_request self bearer_token bank_code payment_amount
                 account_number) w
       = Val (TransferAccepted response_data).

(** Whatever [c] returns satisfies [P]. *)
Definition ensures {A} (P : A -> Prop) (c : M A) : Prop :=
  forall w a, result c w = Val a -> P a.

(** The replies of the PIN authorizer: verified, or a failure. *)
Definition pin_reply (r : Reply) : Prop :=
  r = PinVerified \/ exists error, r = Failure error.

Definition bank_a : BanksB.t :=
  BanksB.mk "Bank A" (Some "Bank A") (Some "100004").

(** A site that can pay: a wallet with 5000 and PIN 1234, the bank of the
    payment, the token in the environment, and a gateway that answers as
    scripted. *)
Definition live_site (outcomes : list HttpOutcome) : World :=
  mkWorld [wallet_5000] [pin_1234] [bank_a] [] [payment_of (100 # 1)]
    (fun key => if String.eqb key "LIVE_TOKEN" then Some "secret" else None)
    None true None [] (scripted outcomes) 0 [] "2025-01-01 00:00:00".

Definition no_decryption : PaymentPin.t -> Res (option string) :=
  fun _ => Exc (OtherException "no encryption key").

Definition name_by_reference
  : TransactionHistory.t -> list TransactionHistory.t -> string :=
  fun d _ =>
    match TransactionHistory.transaction_reference d with
    | JStr s => s
    | _ => "TXN"
    end.

(** ** Transaction ledger *)

(** The reference a response payload carries: [transactionReference], or
    None as a JSON null; a payload that is not an object has none. *)
Definition reference_of (transaction_data : json) : option json :=
  match transaction_data with
  | JDict fields =>
      Some (match Json.assoc "transactionReference" fields with
            | Some v => v
            | None => JNull
            end)
  | _ => None
  end.


Definition transfer_data (reference : string) (amount : Q) : json :=
  JDict [("transactionReference", JStr reference); ("amount", JNum amount)].

(** ** Account resolution *)

(** The accountName field of the body of a 200 response, when it has
    one. *)
Definition account_name_field (body : json) : option json :=
  match body with
  | JDict fields =>
      match Json.assoc "data" fields with
      | Some (JDict data) => Json.assoc "accountName" data
      | _ => None
      end
  | _ => None
  end.

(** The field is absent, or it is text that is blank after trimming. *)
Definition account_name_absent_or_blank (body : json) : Prop :=
  account_name_field body = None
  \/ exists s, account_name_field body = Some (JStr s) /\ Py.strip s = EmptyString.

Definition payment_to (account : option string) : VirtualPayment.t :=
  VirtualPayment.mk "PAY-1" (Some "Bank A") (Some "100004") account
    None (100 # 1) None None JNull.

(** ** Bank directory *)

Definition bank_b (code : string) : BanksB.t :=
  BanksB.mk "Bank B" (Some "Bank B") (Some code).

(** * Further controllers and statements *)

(** ** The transfer request: validation and exhaustion *)

(** What the loop of _process_payment_request returns when its last
    attempt raises one of the exceptions it handles. *)
Definition fault_reply (e : exn) : option Reply :=
  match e with
  | Timeout => Some (Failure RequestTimedOut)
  | ConnectionError _ => Some (Failure (ConnectionErrorOccurred e))
  | RequestException _ => Some (Failure (NetworkErrorOccurred e))
  | _ => None
  end.

(** The issues the validation of _process_payment_request lists, for the
    bank code it resolved. *)
Definition request_issues (self : VirtualPayment.t)
    (destination_bank_code : option string) : list ValidationIssue :=
  ((if negb (Py.truthy destination_bank_code) then [BankCodeMissing] else [])
   ++ (if negb (Py.truthy (VirtualPayment.destination_account_number self))
       then [AccountNumberMissing] else [])
   ++ (if Qeq_bool (VirtualPayment.amount self) 0
          || Qle_bool (VirtualPayment.amount self) 0
       then [AmountInvalid (VirtualPayment.amount self)] else [])
   ++ (if account_number_not_10 (VirtualPayment.destination_account_number self)
       then [AccountNumberNot10 (VirtualPayment.destination_account_number self)]
       else []))%list.

(** The replies of the transfer loop: an accepted transfer, a refusal of
    the gateway with its status, or one of the failures of the loop. *)
Definition loop_reply (r : Reply) : Prop :=
  (exists response_data, r = TransferAccepted response_data)
  \/ (exists error status_code, r = FailureWithStatus error status_code)
  \/ r = Failure InvalidResponseFormat
  \/ r = Failure RequestTimedOut
  \/ (exists e, r = Failure (ConnectionErrorOccurred e))
  \/ (exists e, r = Failure (NetworkErrorOccurred e))
  \/ r = Failure MaxRetriesExceeded.

(** ** check_wallet_balance (class VirtualPayment) *)

Inductive BalanceMsg : Type :=
| NoWalletsFoundForBalance
    (** No virtual wallets found *)
| WalletNotFoundForBalance (wallet_name : string)
    (** Virtual wallet '{wallet_name}' not found *)
| BalanceCheckError (e : exn).
    (** Error checking wallet balance: {e} *)

Inductive BalanceReply : Type :=
| BalanceReport (current_balance : Q) (wallet_name : string)
    (** {"success": True, "current_balance": ..., "formatted_balance": ...,
         "message": ..., "wallet_name": ...} *)
| BalanceFailure (error : BalanceMsg).
    (** {"success": False, "error": error} *)

(** The two except clauses of check_wallet_balance read the variable
    [wallet_name] as it is when the exception is raised; the lookup that can
    raise DoesNotExistError comes after the variable is set. *)
Definition check_wallet_balance (wallet_name : option string) : M BalanceReply :=
  try_except
    (selected <-
       (if negb (Py.truthy wallet_name) then
          wallet_list <- frappe.list_wallets_limit_1 ;;
          match wallet_list with
          | [] => ret None
          | first :: _ => ret (Some first)
          end
        else ret (Some (Py.str wallet_name))) ;;
     match selected with
     | None => ret (BalanceFailure NoWalletsFoundForBalance)
     | Some name =>
         try_except
           (wallet_doc <- frappe.get_wallet name ;;
            let current_balance := VirtualWallet.balance wallet_doc in
            ret (BalanceReport current_balance name))
           (fun e =>
              match e with
              | DoesNotExistError _ _ =>
                  ret (BalanceFailure (WalletNotFoundForBalance name))
              | _ => raise e
              end)
     end)
    (fun e => ret (BalanceFailure (BalanceCheckError e))).

(** The replies of _process_payment_request: those of the loop, or the
    validation failure. *)
Definition transfer_reply (r : Reply) : Prop :=
  loop_reply r \/ exists issues, r = Failure (RequestValidationFailed issues).

(** The replies of validate_balance_for_wallet. *)
Definition validation_reply (r : Reply) : Prop :=
  (exists error, r = Failure error)
  \/ exists current_balance payment_amount wallet_doc account_number,
       r = BalanceValidated current_balance payment_amount wallet_doc account_number.

(** The world after step 6 of make_virtual_payment: the validated wallet
    debited. *)
Definition debited (wallet_doc : VirtualWallet.t)
    (current_balance payment_amount : Q) (w : World) : World :=
  set_wallets
    (replace_wallet (with_balance wallet_doc (current_balance - payment_amount)%Q)
       (wallets w)) w.

(** ** update_status (class TransactionHistory) *)

Definition with_status (d : TransactionHistory.t) (s : string) : TransactionHistory.t :=
  TransactionHistory.mk (TransactionHistory.name d)
    (TransactionHistory.transaction_reference d)
    (TransactionHistory.virtual_payment d)
    s
    (TransactionHistory.transaction_date d)
    (TransactionHistory.amount d)
    (TransactionHistory.destination_bank d)
    (TransactionHistory.destination_account_number d)
    (TransactionHistory.destination_account_name d)
    (TransactionHistory.source_account_number d)
    (TransactionHistory.narration d)
    (TransactionHistory.api_response d).

Definition with_api_response (d : TransactionHistory.t) (r : json)
  : TransactionHistory.t :=
  TransactionHistory.mk (TransactionHistory.name d)
    (TransactionHistory.transaction_reference d)
    (TransactionHistory.virtual_payment d)
    (TransactionHistory.status d)
    (TransactionHistory.transaction_date d)
    (TransactionHistory.amount d)
    (TransactionHistory.destination_bank d)
    (TransactionHistory.destination_account_number d)
    (TransactionHistory.destination_account_name d)
    (TransactionHistory.source_account_number d)
    (TransactionHistory.narration d)
    r.

Fixpoint replace_history (d : TransactionHistory.t) (l : list TransactionHistory.t)
  : list TransactionHistory.t :=
  match l with
  | [] => []
  | x :: rest =>
      if String.eqb (TransactionHistory.name x) (TransactionHistory.name d)
      then d :: rest
      else x :: replace_history d rest
  end.

(** [doc.save(ignore_permissions=True)] on a Transaction History document
    that was read from its table: the document is validated by the
    controller's [validate] and its row is written back.  (The options of
    the status field are in the doctype's JSON, which is not among the
    sources; the statuses written here are those of [status_mapping].) *)
Definition save_history (d : TransactionHistory.t) : M unit :=
  TransactionHistory_validate d ;;
  w <- get_world ;;
  put_world (set_history (replace_history d (history w)) w).

(** [TransactionHistory.update_status(transaction_reference, status,
    api_response)].  Without a record of the reference the function falls
    off its end and returns [None], as it does on an exception. *)
Definition update_status (transaction_reference : json) (status : string)
    (api_response : json) : M (option TransactionHistory.t) :=
  try_except
    (transaction <- db_exists_history transaction_reference ;;
     if Py.truthy transaction then
       doc <- get_history (Py.str transaction) ;;
       let doc := with_status doc status in
       let doc := if Json.truthy api_response
                  then with_api_response doc api_response else doc in
       save_history doc ;;
       ret (Some doc)
     else ret None)
    (fun _ => ret None).

(** A record as update_status may leave it: only the status and the stored
    response can differ from what they were. *)
Definition status_updated (old new : TransactionHistory.t) : Prop :=
  with_api_response (with_status old (TransactionHistory.status new))
    (TransactionHistory.api_response new) = new.

(** ** check_transaction_status_api (class VirtualPayment) *)

Inductive StatusMsg : Type :=
| TransactionReferenceRequired
    (** Transaction reference is required *)
| StatusBearerTokenNotFound
    (** Bearer token not found *)
| TransactionNotFound
    (** Transaction not found *)
| StatusCheckFailedWithCode (status_code : Z)
    (** Status check failed with code {status_code} *)
| NetworkErrorWhileCheckingStatus
    (** Network error occurred while checking status *)
| StatusCheckError (e : exn).
    (** Status check error: {e} *)

Inductive StatusReply : Type :=
| StatusRetrieved (data : json)
    (** {"success": True, "data": data, "message": ...} *)
| StatusFailure (error : StatusMsg).
    (** {"success": False, "error": error} *)

(** The [status_mapping] dict of check_transaction_status_api. *)
Definition status_mapping : list (string * string) :=
  [ ("SUCCESSFUL", "Successful");
    ("SUCCESS", "Successful");
    ("PENDING", "Pending");
    ("PROCESSING", "Processing");
    ("FAILED", "Failed");
    ("CANCELLED", "Cancelled") ].

(** [mapping.get(key, default)] on a dict from text to text. *)
Fixpoint mapping_get (mapping : list (string * string)) (key default : string)
  : string :=
  match mapping with
  | [] => default
  | (k, v) :: rest => if String.eqb key k then v else mapping_get rest key default
  end.

(** [v.upper()] of a value read from JSON, which only a string has. *)
Definition json_upper (v : json) : M string :=
  match v with
  | JStr s => ret (Py.upper s)
  | _ => raise (AttributeError "object has no attribute 'upper'")
  end.

(** [(data.get('status') or data.get('transactionStatus') or '').upper()] *)
Definition api_status_of (data : json) : M string :=
  status <- dict_get data "status" JNull ;;
  if Json.truthy status then json_upper status
  else
    transaction_status <- dict_get data "transactionStatus" JNull ;;
    if Json.truthy transaction_status then json_upper transaction_status
    else json_upper (JStr EmptyString).

(** The inner [try] of check_transaction_status_api: the status of the
    response is mapped and written to the Transaction History; whatever is
    raised is logged and dropped.  The reference is the text the caller
    sends; it is looked up among the stored references as that text. *)
Definition update_from_status_response (transaction_reference : option string)
    (data : json) : M unit :=
  try_except
    (api_status <- api_status_of data ;;
     let mapped_status := mapping_get status_mapping api_status "Pending" in
     update_status (JStr (Py.str transaction_reference)) mapped_status data ;;
     ret tt)
    (fun _ => ret tt).

Definition check_transaction_status_api (transaction_reference : option string)
  : M StatusReply :=
  try_except
    (if negb (Py.truthy transaction_reference) then
       ret (StatusFailure TransactionReferenceRequired)
     else
       bearer_token <- _get_bearer_token ;;
       if negb (Py.truthy bearer_token) then
         ret (StatusFailure StatusBearerTokenNotFound)
       else
         try_except
           (response <- http_request ;;
            let '(status_code, body) := response in
            if (status_code =? 200)%Z then
              response_data <- response_json body ;;
              data <- dict_get response_data "data" response_data ;;
              update_from_status_response transaction_reference data ;;
              ret (StatusRetrieved data)
            else if (status_code =? 404)%Z then
              ret (StatusFailure TransactionNotFound)
            else ret (StatusFailure (StatusCheckFailedWithCode status_code)))
           (fun e =>
              match e with
              | Timeout | ConnectionError _ | RequestException _ | JSONDecodeError =>
                  ret (StatusFailure NetworkErrorWhileCheckingStatus)
              | _ => raise e
              end))
    (fun e => ret (StatusFailure (StatusCheckError e))).

(** The statuses check_transaction_status_api can write. *)
Definition mapped_statuses : list string :=
  ["Successful"; "Pending"; "Processing"; "Failed"; "Cancelled"].

(** The document update_status saves, from the one it read. *)
Definition updated_doc (old : TransactionHistory.t) (status : string)
    (api_response : json) : TransactionHistory.t :=
  if Json.truthy api_response
  then with_api_response (with_status old status) api_response
  else with_status old status.

(** The document passes [TransactionHistory.validate]. *)
Definition passes_validation (d : TransactionHistory.t) : Prop :=
  forall w, TransactionHistory_validate d w = (Val tt, w).

(** Only the history table can differ. *)
Definition only_history_written (w w' : World) : Prop :=
  w' = set_history (history w') w.

(** What check_transaction_status_api replies when the request raises. *)
Definition status_fault_reply (e : exn) : StatusMsg :=
  match e with
  | Timeout | ConnectionError _ | RequestException _ | JSONDecodeError =>
      NetworkErrorWhileCheckingStatus
  | _ => StatusCheckError e
  end.

(** A record as check_transaction_status_api may leave it: as it was, or
    with one of the mapped statuses, the rest but the stored response
    unchanged. *)
Definition status_written (old new : TransactionHistory.t) : Prop :=
  status_updated old new
  /\ (new = old \/ In (TransactionHistory.status new) mapped_statuses).

(** Only the history table and the count of requests can differ. *)
Definition only_history_and_requests (w w' : World) : Prop :=
  w' = set_history (history w') (set_requests_made (requests_made w') w).

(** A payment gateway that reports the status of a transfer. *)
Definition status_body (status : string) : option json :=
  Some (JDict [("data", JDict [("transactionReference", JStr "TRX-1");
                               ("status", JStr status)])]).

Definition record_trx_1 (status : string) : TransactionHistory.t :=
  TransactionHistory.mk "TXN-0001" (JStr "TRX-1") (Some "PAY-1") status
    "2025-01-01 00:00:00" (JNum (100 # 1)) (JStr "Bank A") (JStr "8169246969")
    (JStr "ADA OBI") (JStr "9000136910") (JStr EmptyString) JNull.

(** ** validate_wallet_data (class VirtualWallet)

    The tests of Python's [str] that the validation uses, on ASCII text. *)

Module PyStr.

Definition isdigit_char (c : ascii) : bool :=
  let n := nat_of_ascii c in ((48 <=? n) && (n <=? 57))%nat.

Definition isalnum_char (c : ascii) : bool :=
  let n := nat_of_ascii c in
  (isdigit_char c || ((65 <=? n) && (n <=? 90)) || ((97 <=? n) && (n <=? 122)))%nat.

Fixpoint all_chars (p : ascii -> bool) (s : string) : bool :=
  match s with
  | EmptyString => true
  | String c s' => p c && all_chars p s'
  end.

Fixpoint any_chars (p : ascii -> bool) (s : string) : bool :=
  match s with
  | EmptyString => false
  | String c s' => p c || any_chars p s'
  end.

(** [s.isalnum()]: at least one character, and every one a letter or a
    digit. *)
Definition isalnum (s : string) : bool :=
  match s with
  | EmptyString => false
  | _ => all_chars isalnum_char s
  end.

(** [s.isdigit()]: at least one character, and every one a digit. *)
Definition isdigit (s : string) : bool :=
  match s with
  | EmptyString => false
  | _ => all_chars isdigit_char s
  end.

(** [s.replace(c, '')] for a single character [c]. *)
Fixpoint remove_char (c : ascii) (s : string) : string :=
  match s with
  | EmptyString => EmptyString
  | String x s' =>
      if Ascii.eqb x c then remove_char c s' else String x (remove_char c s')
  end.

(** [''.join(filter(p, s))] *)
Fixpoint filter_chars (p : ascii -> bool) (s : string) : string :=
  match s with
  | EmptyString => EmptyString
  | String x s' => if p x then String x (filter_chars p s') else filter_chars p s'
  end.

End PyStr.

Inductive WalletDataError : Type :=
| WalletNameRequired
    (** Wallet name is required *)
| WalletNameTooShort
    (** Wallet name must be at least 2 characters *)
| WalletNameTooLong
    (** Wallet name must be less than 50 characters *)
| WalletNameCharacters
    (** Wallet name should contain only letters, numbers, spaces, hyphens,
        and underscores *)
| BvnRequired
    (** BVN is required *)
| BvnNotDigits
    (** BVN must contain only digits *)
| BvnNot11Digits (provided : nat).
    (** BVN must be exactly 11 digits (provided: {provided}) *)

(** [VirtualWallet.validate_wallet_data], of the two fields it reads,
    [self.wallet_name] and [self.bvn]. *)
Definition validate_wallet_data (wallet_name bvn : option string)
  : list WalletDataError :=
  let errors := [] in
  let errors :=
    if negb (Py.truthy wallet_name) then (errors ++ [WalletNameRequired])%list
    else
      let wallet_name := Py.strip (Py.str wallet_name) in
      if (String.length wallet_name <? 2)%nat then
        (errors ++ [WalletNameTooShort])%list
      else if (50 <? String.length wallet_name)%nat then
        (errors ++ [WalletNameTooLong])%list
      else if negb (PyStr.isalnum
                      (PyStr.remove_char "_"
                         (PyStr.remove_char "-"
                            (PyStr.remove_char " " wallet_name)))) then
        (errors ++ [WalletNameCharacters])%list
      else errors in
  let errors :=
    if negb (Py.truthy bvn) then (errors ++ [BvnRequired])%list
    else
      let bvn_str := Py.strip (Py.str bvn) in
      if negb (PyStr.isdigit bvn_str) then (errors ++ [BvnNotDigits])%list
      else if negb (String.length bvn_str =? 11)%nat then
        (errors ++ [BvnNot11Digits (String.length bvn_str)])%list
      else errors in
  errors.

(** The errors that are about the wallet name; the others are about the
    BVN. *)
Definition wallet_name_error (e : WalletDataError) : bool :=
  match e with
  | WalletNameRequired | WalletNameTooShort | WalletNameTooLong
  | WalletNameCharacters => true
  | _ => false
  end.

(** [bvn_clean] of create_wallet: the digits of the trimmed BVN. *)
Definition bvn_clean (bvn : option string) : string :=
  PyStr.filter_chars PyStr.isdigit_char (Py.strip (Py.str bvn)).

(** The characters that validate_wallet_data removes from the wallet name
    before its test: blank, hyphen, underscore. *)
Definition name_separator (c : ascii) : bool :=
  Ascii.eqb c " " || Ascii.eqb c "-" || Ascii.eqb c "_".

(** A character that the message of the wallet name allows. *)
Definition wallet_name_char (c : ascii) : bool :=
  PyStr.isalnum_char c || name_separator c.

(** ** safe_log_error (class VirtualWallet) *)

(** [s[:stop]]: a negative [stop] counts from the end. *)
Definition slice_to (s : string) (stop : Z) : string :=
  if (0 <=? stop)%Z then String.substring 0 (Z.to_nat stop) s
  else String.substring 0 (String.length s - Z.to_nat (- stop)) s.

(** What is logged: text, or a dict or a list. *)
Inductive LogData : Type :=
| LogText (s : string)
| LogStructure (j : json).

Section Logging.

(** [json.dumps(data, indent=2)], of the standard library. *)
Variable json_dumps : json -> string.

(** [VirtualWallet.safe_log_error(data, title_prefix, max_title_length)]:
    the message and the title it passes to [frappe.log_error]. *)
Definition safe_log_error (data : LogData) (title_prefix : string)
    (max_title_length : Z) : string * string :=
  let title_prefix :=
    if (max_title_length <? Z.of_nat (String.length title_prefix))%Z
    then slice_to title_prefix (max_title_length - 3) ++ "..."
    else title_prefix in
  let message :=
    match data with
    | LogStructure j => json_dumps j
    | LogText s => s
    end in
  let message :=
    if (3000 <? String.length message)%nat
    then String.substring 0 3000 message ++ "... (truncated)"
    else message in
  (message, title_prefix).

End Logging.

(** * Amounts as Python floats

    [self.amount] of a Virtual Payment is a Python float.  The controllers
    above take it as a number.  A float can also be infinite or NaN, not a
    number, and [flt] and [json.loads] let both through: a comparison with
    NaN is false whichever way it is asked, and a difference with NaN is
    NaN.  The functions that compare the amount follow once more, with the
    amount as such a float; on numbers they are the ones above
    ([agrees] and the lemmas on numbers).  The balance of a wallet is read
    from the database, whose column holds numbers.  Finite floats are taken
    as the rationals they are; the rounding of a difference is left out. *)

Module Float.

Inductive t : Type :=
| Number (q : Q)
| PosInf
| NegInf
| NaN.

(** [bool(x)]: only zero is falsy. *)
Definition truthy (x : t) : bool :=
  match x with
  | Number q => negb (Qeq_bool q 0)
  | _ => true
  end.

(** [x <= y] *)
Definition le_bool (x y : t) : bool :=
  match x, y with
  | NaN, _ | _, NaN => false
  | NegInf, _ => true
  | _, PosInf => true
  | Number a, Number b => Qle_bool a b
  | _, _ => false
  end.

(** [x > y] *)
Definition gt_bool (x y : t) : bool :=
  match x, y with
  | NaN, _ | _, NaN => false
  | _, _ => negb (le_bool x y)
  end.

(** [x - y] *)
Definition sub (x y : t) : t :=
  match x, y with
  | NaN, _ | _, NaN => NaN
  | Number a, Number b => Number (a - b)
  | PosInf, PosInf | NegInf, NegInf => NaN
  | PosInf, _ => PosInf
  | NegInf, _ => NegInf
  | Number _, PosInf => NegInf
  | Number _, NegInf => PosInf
  end.

(** [flt(x or 0.0)] *)
Definition or_zero (x : t) : t := if truthy x then x else Number 0.

(** *** validate_balance_for_wallet *)

Inductive Validation : Type :=
| Validated (current_balance payment_amount : t)
    (wallet_doc : VirtualWallet.t) (account_number : string)
    (** {"success": True, "current_balance": ..., "payment_amount": ...,
         "wallet_doc": ..., "account_number": ...} *)
| NotPositive
    (** Payment amount must be greater than zero. *)
| Insufficient (wallet_name : string) (current_balance payment_amount : t)
    (** Insufficient Funds in virtual wallet {wallet_name}. ... *)
| ValidationRaised (e : exn).
    (** Error validating virtual wallet balance: {e} *)

(** [validate_balance_for_wallet(wallet_name)] of a payment whose
    [self.amount] is the float [amount]. *)
Definition validate_balance_for_wallet (amount : t) (wallet_name : string)
  : M Validation :=
  try_except
    (wallet_doc <- frappe.get_wallet wallet_name ;;
     let current_balance := Number (VirtualWallet.balance wallet_doc) in
     let payment_amount := or_zero amount in
     if le_bool payment_amount (Number 0) then ret NotPositive
     else if gt_bool payment_amount current_balance then
       ret (Insufficient wallet_name current_balance payment_amount)
     else
       let account_number :=
         Py.str (Py.or_ (VirtualWallet.account_number wallet_doc)
                        (Some VirtualPayment.DEFAULT_WALLET_ACCOUNT)) in
       ret (Validated current_balance payment_amount wallet_doc account_number))
    (fun e => ret (ValidationRaised e)).

(** [validation_result["success"]] *)
Definition passed (v : Validation) : bool :=
  match v with
  | Validated _ _ _ _ => true
  | _ => false
  end.

Definition passes (r : Res Validation) : bool :=
  match r with
  | Val v => passed v
  | Exc _ => false
  end.

(** *** _update_specific_wallet_balance *)

(** [new_balance = current_balance - payment_amount]: the balance that
    _update_specific_wallet_balance assigns to the wallet document, saves
    and returns.  (What the database does with a balance that is not a
    number is not in the sources.) *)
Definition new_balance (current_balance payment_amount : t) : t :=
  sub current_balance payment_amount.

(** *** _process_payment_request *)

Inductive Issue : Type :=
| NoBankCode
    (** destination_bank_code is missing or could not be retrieved *)
| NoAccountNumber
    (** destination_account_number is missing *)
| InvalidAmount (amount : t)
    (** amount is invalid: {amount} *)
| AccountNot10 (account : option string).
    (** destination_account_number should be 10 digits: {account} *)

Inductive Outcome : Type :=
| Refused (issues : list Issue)
    (** Request validation failed: {issues, comma separated} *)
| FieldsMissing (fields : list string)
    (** Missing or invalid required fields: {fields, comma separated} *)
| Attempted (reply : Reply).
    (** what the loop of attempts returned *)

(** [_process_payment_request(...)] of a payment whose [self.amount] is the
    float [amount]; the other fields of [self] are read as above. *)
Definition _process_payment_request (self : VirtualPayment.t) (amount : t)
    (bearer_token bank_code : string) (payment_amount : t)
    (account_number : string) : M Outcome :=
  destination_bank_code <- resolve_destination_bank_code self ;;
  let source_account :=
    Py.or_ (VirtualPayment.source_account_number self) (Some "9000136910") in
  let account := VirtualPayment.destination_account_number self in
  let validation_errors :=
    ((if negb (Py.truthy destination_bank_code) then [NoBankCode] else [])
     ++ (if negb (Py.truthy account) then [NoAccountNumber] else [])
     ++ (if negb (truthy amount) || le_bool amount (Number 0)
         then [InvalidAmount amount] else [])
     ++ (if account_number_not_10 account then [AccountNot10 account] else []))%list in
  match validation_errors with
  | _ :: _ => ret (Refused validation_errors)
  | [] =>
      if negb (Py.truthy destination_bank_code
               && Py.truthy account
               && (truthy amount && gt_bool amount (Number 0))
               && Py.truthy source_account)
      then
        ret (FieldsMissing
          ((if negb (Py.truthy destination_bank_code) then ["destinationBankCode"] else [])
           ++ (if negb (Py.truthy account) then ["destinationAccountNumber"] else [])
           ++ (if negb (truthy amount) || le_bool amount (Number 0)
               then ["amount"] else [])
           ++ (if negb (Py.truthy source_account) then ["sourceAccountNumber"] else []))%list)
      else
        reply <- transfer_loop VirtualPayment.MAX_RETRIES 0 ;;
        ret (Attempted reply)
  end.

(** The issues the validation of _process_payment_request lists, for the
    bank code it resolved. *)
Definition request_issues (self : VirtualPayment.t) (amount : t)
    (destination_bank_code : option string) : list Issue :=
  ((if negb (Py.truthy destination_bank_code) then [NoBankCode] else [])
   ++ (if negb (Py.truthy (VirtualPayment.destination_account_number self))
       then [NoAccountNumber] else [])
   ++ (if negb (truthy amount) || le_bool amount (Number 0)
       then [InvalidAmount amount] else [])
   ++ (if account_number_not_10 (VirtualPayment.destination_account_number self)
       then [AccountNot10 (VirtualPayment.destination_account_number self)]
       else []))%list.

(** *** On numbers *)

(** The reply of validate_balance_for_wallet on a number, and the same
    reply with the amounts as floats. *)
Inductive agrees : Reply -> Validation -> Prop :=
| agrees_validated (current_balance payment_amount : Q)
    (wallet_doc : VirtualWallet.t) (account_number : string) :
    agrees (BalanceValidated current_balance payment_amount wallet_doc account_number)
      (Validated (Number current_balance) (Number payment_amount) wallet_doc
         account_number)
| agrees_not_positive : agrees (Failure AmountNotPositive) NotPositive
| agrees_insufficient (wallet_name : string) (current_balance payment_amount : Q) :
    agrees (Failure (InsufficientFunds wallet_name current_balance payment_amount))
      (Insufficient wallet_name (Number current_balance) (Number payment_amount))
| agrees_raised (e : exn) :
    agrees (Failure (BalanceValidationError e)) (ValidationRaised e).

Definition of_issue (issue : ValidationIssue) : Issue :=
  match issue with
  | BankCodeMissing => NoBankCode
  | AccountNumberMissing => NoAccountNumber
  | AmountInvalid amount => InvalidAmount (Number amount)
  | AccountNumberNot10 account => AccountNot10 account
  end.

(** The reply of _process_payment_request on a number, as an outcome. *)
Definition of_reply (reply : Reply) : Outcome :=
  match reply with
  | Failure (RequestValidationFailed issues) => Refused (map of_issue issues)
  | Failure (MissingFields fields) => FieldsMissing fields
  | _ => Attempted reply
  end.

End Float.
(** * Properties *)

(** ** Python text *)

Lemma truthy_or_ (a b : option string) :
  Py.truthy (Py.or_ a b) = Py.truthy a || Py.truthy b.
Proof. unfold Py.or_. destruct (Py.truthy a) eqn:E; [exact E | reflexivity]. Qed.

Example strip_padded_pin : Py.strip " 1234 " = "1234".
Proof. reflexivity. Qed.

Example upper_code : Py.upper (Py.strip "  gtb01 ") = "GTB01".
Proof. reflexivity. Qed.

(** ** Credential resolver *)

Lemma first_non_empty_none (sources : list (option string)) :
  first_non_empty sources = None <->
  forall v, In v sources -> Py.truthy v = false.
Proof.
  unfold first_non_empty. split.
  - intros H v Hin. destruct (Py.truthy v) eqn:Ev; [|reflexivity].
    destruct (find Py.truthy sources) as [u|] eqn:Ef.
    + apply find_some in Ef. destruct Ef as [_ Hu]. subst u. discriminate.
    + apply (find_none _ _ Ef) in Hin. congruence.
  - intros H. destruct (find Py.truthy sources) as [u|] eqn:Ef; [|reflexivity].
    apply find_some in Ef. destruct Ef as [Hin Hu].
    rewrite (H u Hin) in Hu. discriminate.
Qed.

Lemma get_bearer_token_run (w : World) :
  _get_bearer_token w = (Val (first_non_empty (credential_sources w)), w).
Proof.
  unfold _get_bearer_token, first_non_empty, credential_sources, Py.or_.
  run. cbn [find].
  destruct (environ w "LIVE_TOKEN") as [[|c1 s1]|];
    destruct (environ w "PAYABLE_LIVE_TOKEN") as [[|c2 s2]|];
    destruct (conf_live_token w) as [[|c3 s3]|];
    destruct (db_connected w);
    destruct (settings_live_token w) as [[|c4 s4]|];
    reflexivity.
Qed.

(** C8. _get_bearer_token reads its sources in the order LIVE_TOKEN,
    PAYABLE_LIVE_TOKEN, frappe.conf.live_token, System Settings; it returns
    the first non-empty one, it returns None exactly when every source is
    empty, and it changes nothing. *)
Theorem get_bearer_token_first_non_empty (w : World) :
  _get_bearer_token w = (Val (first_non_empty (credential_sources w)), w)
  /\ (result _get_bearer_token w = Val None <->
      forall v, In v (credential_sources w) -> Py.truthy v = false).
Proof.
  split; [apply get_bearer_token_run|].
  unfold result. rewrite get_bearer_token_run. cbn [fst].
  rewrite <- first_non_empty_none.
  split; intros H; [injection H as H; exact H | rewrite H; reflexivity].
Qed.

(** ** verify_and_update_pin *)

(** C10. verify_and_update_pin compares the current PIN with the stored one
    as they are: an attempt that equals the stored PIN only after trimming
    is rejected with the incorrect-PIN error, and nothing is written. *)
Theorem verify_and_update_pin_does_not_trim
    (w : World) (wallet_name first : string) (rest : list string)
    (pin_doc : PaymentPin.t) (current_pin new_pin : option string) :
  result (frappe.list_pins wallet_name) w = Val (first :: rest) ->
  result (frappe.get_pin first) w = Val pin_doc ->
  Py.strip (Py.str current_pin) = Py.strip (Py.str (PaymentPin.pin pin_doc)) ->
  Py.str current_pin <> Py.str (PaymentPin.pin pin_doc) ->
  verify_and_update_pin wallet_name current_pin new_pin w
  = (Val (Failure CurrentPinIncorrect), w).
Proof.
  intros Hlist Hget _ Hneq.
  unfold verify_and_update_pin. run.
  unfold frappe.list_pins in *. cbn [fst] in Hlist.
  injection Hlist as Hlist. rewrite Hlist.
  unfold frappe.get_pin in *.
  destruct (find _ (pins w)) as [d|]; cbn [fst] in Hget; [|discriminate].
  injection Hget as ->.
  destruct (String.eqb_spec (Py.str (PaymentPin.pin pin_doc)) (Py.str current_pin))
    as [E|E]; [symmetry in E; contradiction | reflexivity].
Qed.

Lemma verify_and_update_pin_does_not_trim_witness :
  verify_and_update_pin "WALLET-1" (Some " 1234 ") (Some "9999")
    (site [wallet_5000] [pin_1234] [] [])
  = (Val (Failure CurrentPinIncorrect), site [wallet_5000] [pin_1234] [] []).
Proof.
  apply (@verify_and_update_pin_does_not_trim
           (site [wallet_5000] [pin_1234] [] []) "WALLET-1" "PIN-1" [] pin_1234
           (Some " 1234 ") (Some "9999")).
  - reflexivity.
  - reflexivity.
  - reflexivity.
  - discriminate.
Defined.

(** The padded attempt that verify_and_update_pin rejects is accepted by
    verify_transaction_pin, which trims. *)
Example verify_transaction_pin_accepts_padded
    (get_decrypted_pin : PaymentPin.t -> Res (option string)) :
  result (verify_transaction_pin get_decrypted_pin "WALLET-1" (Some " 1234 "))
         (site [wallet_5000] [pin_1234] [] [])
  = Val PinVerified.
Proof. reflexivity. Qed.

(** ** PIN authorizer *)

(** C5, as amended.  For a wallet that exists, verify_transaction_pin
    decides in this order and changes nothing: a wallet with a role the
    caller lacks gives the permission error; else no Payment Pin record
    gives the no-PIN error; else a plain-text PIN is compared after trimming
    both sides; else the PIN is decrypted: an exception gives the
    unable-to-verify error, an empty result gives the not-properly-configured
    error, and a decrypted PIN is compared after trimming both sides. *)
Theorem verify_transaction_pin_decision_order
    (get_decrypted_pin : PaymentPin.t -> Res (option string))
    (w : World) (wallet_name : string) (wallet_doc : VirtualWallet.t)
    (attempt : option string) :
  result (frappe.get_wallet wallet_name) w = Val wallet_doc ->
  let reply := result (verify_transaction_pin get_decrypted_pin wallet_name attempt) w in
  final (verify_transaction_pin get_decrypted_pin wallet_name attempt) w = w
  /\ (forall role,
        lacks_required_role wallet_doc w = true ->
        VirtualWallet.role wallet_doc = Some role ->
        reply = Val (Failure (NoPermission role)))
  /\ (lacks_required_role wallet_doc w = false ->
      (result (frappe.list_pins wallet_name) w = Val [] ->
       reply = Val (Failure NoPinFound))
      /\ (forall first rest pin_doc,
            result (frappe.list_pins wallet_name) w = Val (first :: rest) ->
            result (frappe.get_pin first) w = Val pin_doc ->
            (Py.truthy (PaymentPin.pin pin_doc) = true ->
             reply = Val (if trimmed_equal attempt (PaymentPin.pin pin_doc)
                          then PinVerified else Failure IncorrectPin))
            /\ (Py.truthy (PaymentPin.pin pin_doc) = false ->
                match get_decrypted_pin pin_doc with
                | Exc _ => reply = Val (Failure UnableToVerifyPin)
                | Val stored =>
                    reply = Val (if Py.truthy stored
                                 then (if trimmed_equal attempt stored
                                       then PinVerified else Failure IncorrectPin)
                                 else Failure PinNotConfigured)
                end))).
Proof.
  intros Hw reply. subst reply.
  unfold verify_transaction_pin, lacks_required_role, trimmed_equal,
    frappe.list_pins_limit_1, frappe.list_pins, frappe.get_roles.
  unfold frappe.get_wallet in *. run.
  destruct (find _ (wallets w)) as [d|]; cbn [fst] in Hw; [|discriminate].
  injection Hw as ->.
  split; [|split].
  - (* nothing is written *)
    destruct (VirtualWallet.role wallet_doc) as [[|c s]|]; cbn [fst snd];
      try destruct (negb (Py.elem (String c s) (user_roles w))); cbn [fst snd];
      try reflexivity;
      (destruct (filter _ (pins w)) as [|p ps]; cbn [map firstn fst snd];
       [reflexivity|];
       unfold frappe.get_pin;
       destruct (find _ (pins w)) as [pd|]; cbn [fst snd]; [|reflexivity];
       destruct (Py.truthy (PaymentPin.pin pd)); cbn [fst snd];
       [destruct (String.eqb _ _); reflexivity|];
       destruct (get_decrypted_pin pd) as [st|e]; cbn [fst snd]; [|reflexivity];
       destruct (Py.truthy st); [destruct (String.eqb _ _)|]; reflexivity).
  - (* the role is required and missing *)
    intros role Hlack Hrole. rewrite Hrole in *.
    destruct role as [|c s]; [discriminate|].
    rewrite Hlack. reflexivity.
  - intros Hlack.
    split.
    + intros Hnone. cbn [fst] in Hnone. injection Hnone as Hnone.
      destruct (VirtualWallet.role wallet_doc) as [[|c s]|];
        try rewrite Hlack; cbn [fst snd]; rewrite Hnone; reflexivity.
    + intros first rest pin_doc Hlist Hget. cbn [fst] in Hlist.
      injection Hlist as Hlist.
      unfold frappe.get_pin in *.
      assert (Hpin : find (fun d : PaymentPin.t => (PaymentPin.name d =? first)%string)
                       (pins w) = Some pin_doc).
      { destruct (find _ (pins w)); cbn [fst] in Hget; [|discriminate].
        injection Hget as ->. reflexivity. }
      split; intros Hplain;
        destruct (VirtualWallet.role wallet_doc) as [[|c s]|];
        try rewrite Hlack; cbn [fst snd]; rewrite Hlist; cbn [firstn fst snd];
        rewrite Hpin; cbn [fst snd]; rewrite Hplain; cbn [fst snd];
        try (destruct (String.eqb _ _); reflexivity);
        (destruct (get_decrypted_pin pin_doc) as [st|e]; cbn [fst snd];
         [destruct (Py.truthy st); [destruct (String.eqb _ _)|]; reflexivity
         |reflexivity]).
Qed.

Lemma verify_transaction_pin_decision_order_witness :
  result (verify_transaction_pin (fun _ => Val None) "WALLET-1" (Some " 1234 "))
         (site [wallet_5000] [pin_1234] [] [])
  = Val PinVerified.
Proof.
  destruct (@verify_transaction_pin_decision_order (fun _ => Val None)
              (site [wallet_5000] [pin_1234] [] []) "WALLET-1" wallet_5000
              (Some " 1234 ") eq_refl) as [_ [_ H]].
  destruct (H eq_refl) as [_ Hpin].
  destruct (Hpin "PIN-1" [] pin_1234 eq_refl eq_refl) as [Hplain _].
  exact (Hplain eq_refl).
Defined.

(** C5, as stated, fails: with a PIN that is not stored in plain text and a
    decryption that returns nothing (without raising), the attempt 1234 is
    not compared at all; the reply is the not-properly-configured error,
    which is neither of the two outcomes of a comparison. *)
Lemma decrypted_pin_is_not_always_compared :
  ~ decrypted_pin_is_always_compared.
Proof.
  intros H.
  specialize (H (fun _ => Val None)
                (site [wallet_5000] [pin_encrypted] [] [])
                "WALLET-1" wallet_5000 (Some "1234") "PIN-1" [] pin_encrypted None
                eq_refl eq_refl eq_refl eq_refl eq_refl eq_refl).
  vm_compute in H. discriminate H.
Qed.

Example verify_transaction_pin_empty_decryption :
  result (verify_transaction_pin (fun _ => Val None) "WALLET-1" (Some "1234"))
         (site [wallet_5000] [pin_encrypted] [] [])
  = Val (Failure PinNotConfigured).
Proof. reflexivity. Qed.

(** ** Wallet ledger *)

Lemma Qle_bool_false (a b : Q) : Qle_bool a b = false <-> (b < a)%Q.
Proof.
  split.
  - intros H. apply Qnot_le_lt. intros Hle.
    apply Qle_bool_iff in Hle. congruence.
  - intros H. destruct (Qle_bool a b) eqn:E; [|reflexivity].
    apply Qle_bool_iff in E. exfalso. apply (Qlt_not_le _ _ H E).
Qed.

(** validate_balance_for_wallet only reads. *)
Lemma validate_balance_for_wallet_reads (self : VirtualPayment.t)
    (wallet_name : string) (w : World) :
  final (validate_balance_for_wallet self wallet_name) w = w.
Proof.
  unfold validate_balance_for_wallet, frappe.get_wallet. run.
  destruct (find _ (wallets w)) as [d|]; cbn [fst snd]; [|reflexivity].
  destruct (Qle_bool _ 0); [reflexivity|].
  destruct (Qgt_bool _ _); reflexivity.
Qed.

(** C4, as amended.  For a wallet that exists, validate_balance_for_wallet
    returns the invalid-amount error when the amount is at most 0, the
    insufficient-funds error citing the balance and the amount when the
    amount exceeds the balance, and otherwise success carrying the wallet's
    account number, or the default wallet account 9000136910 when the
    wallet has none; it never writes, so the balance is unchanged. *)
Theorem validate_balance_for_wallet_cases
    (w : World) (self : VirtualPayment.t) (wallet_name : string)
    (wallet_doc : VirtualWallet.t) :
  result (frappe.get_wallet wallet_name) w = Val wallet_doc ->
  let amount := VirtualPayment.amount self in
  let balance := VirtualWallet.balance wallet_doc in
  let reply := result (validate_balance_for_wallet self wallet_name) w in
  final (validate_balance_for_wallet self wallet_name) w = w
  /\ ((amount <= 0)%Q -> reply = Val (Failure AmountNotPositive))
  /\ ((0 < amount)%Q -> (balance < amount)%Q ->
      reply = Val (Failure (InsufficientFunds wallet_name balance amount)))
  /\ ((0 < amount)%Q -> (amount <= balance)%Q ->
      reply = Val (BalanceValidated balance amount wallet_doc
                     (effective_account wallet_doc))).
Proof.
  intros Hw amount balance reply.
  split; [apply validate_balance_for_wallet_reads|].
  subst reply amount balance.
  unfold validate_balance_for_wallet, frappe.get_wallet in *. run.
  destruct (find _ (wallets w)) as [d|]; cbn [fst] in Hw; [|discriminate].
  injection Hw as ->. cbn [fst snd].
  repeat split.
  - intros Hle. apply Qle_bool_iff in Hle. rewrite Hle. reflexivity.
  - intros Hpos Hlt.
    apply Qle_bool_false in Hpos. rewrite Hpos.
    unfold Qgt_bool. apply Qle_bool_false in Hlt. rewrite Hlt. reflexivity.
  - intros Hpos Hle.
    apply Qle_bool_false in Hpos. rewrite Hpos.
    unfold Qgt_bool. apply Qle_bool_iff in Hle. rewrite Hle. cbn [negb fst].
    unfold effective_account, Py.or_.
    destruct (VirtualWallet.account_number wallet_doc) as [[|c s]|]; reflexivity.
Qed.

(** The scenario of the specification: balance 5000, amount 6000. *)
Lemma validate_balance_for_wallet_cases_witness :
  validate_balance_for_wallet (payment_of (6000 # 1)) "WALLET-1"
    (site [wallet_5000] [] [] [])
  = (Val (Failure (InsufficientFunds "WALLET-1" (5000 # 1) (6000 # 1))),
     site [wallet_5000] [] [] []).
Proof.
  destruct (@validate_balance_for_wallet_cases (site [wallet_5000] [] [] [])
              (payment_of (6000 # 1)) "WALLET-1" wallet_5000 eq_refl)
    as [Hsame [_ [Hfunds _]]].
  rewrite (surjective_pairing (validate_balance_for_wallet _ _ _)).
  unfold final in Hsame. rewrite Hsame.
  unfold result in Hfunds. rewrite Hfunds; [reflexivity | reflexivity | reflexivity].
Defined.

(** C4, as stated, fails: a wallet without an account number validates with
    the default wallet account, which is not an account number of the
    wallet. *)
Lemma validated_account_may_be_the_default :
  ~ validated_account_is_the_wallets.
Proof.
  intros H.
  specialize (H (site [wallet_without_account] [] [] [])
                (payment_of (1000 # 1)) "WALLET-2"
                (5000 # 1)%Q (1000 # 1)%Q wallet_without_account "9000136910"
                eq_refl).
  discriminate H.
Qed.

(** *** Debits keep the balance non-negative *)

Lemma find_replace_wallet (d : VirtualWallet.t) (n : string)
    (l : list VirtualWallet.t) :
  find (fun x => String.eqb (VirtualWallet.name x) n) (replace_wallet d l)
  = if String.eqb (VirtualWallet.name d) n
    then match find (fun x => String.eqb (VirtualWallet.name x) n) l with
         | Some _ => Some d
         | None => None
         end
    else find (fun x => String.eqb (VirtualWallet.name x) n) l.
Proof.
  induction l as [|x rest IH]; cbn [replace_wallet find].
  - destruct (String.eqb _ n); reflexivity.
  - destruct (String.eqb_spec (VirtualWallet.name x) (VirtualWallet.name d)) as [E|E].
    + cbn [find]. rewrite E.
      destruct (String.eqb (VirtualWallet.name d) n); reflexivity.
    + cbn [find].
      destruct (String.eqb_spec (VirtualWallet.name x) n) as [Ex|Ex].
      * destruct (String.eqb_spec (VirtualWallet.name d) n) as [Ed|Ed];
          [congruence | reflexivity].
      * exact IH.
Qed.

(** One debit: either nothing is written, or the row of the wallet is
    replaced by one whose balance is the old balance minus an amount that
    is positive and at most the old balance. *)
Lemma validated_debit_step (self : VirtualPayment.t) (wallet_name : string)
    (w : World) :
  final (validated_debit self wallet_name) w = w
  \/ exists wallet_doc,
       find_wallet wallet_name w = Some wallet_doc
       /\ (0 < VirtualPayment.amount self)%Q
       /\ (VirtualPayment.amount self <= VirtualWallet.balance wallet_doc)%Q
       /\ final (validated_debit self wallet_name) w
          = set_wallets
              (replace_wallet
                 (with_balance wallet_doc
                    (VirtualWallet.balance wallet_doc - VirtualPayment.amount self)%Q)
                 (wallets w)) w.
Proof.
  unfold validated_debit, validate_balance_for_wallet, find_wallet,
    _update_specific_wallet_balance, save_wallet, frappe.get_wallet. run.
  destruct (find _ (wallets w)) as [d|] eqn:Ef; cbn [fst snd]; [|left; reflexivity].
  destruct (Qle_bool (VirtualPayment.amount self) 0) eqn:Epos; cbn [fst snd];
    [left; reflexivity|].
  unfold Qgt_bool.
  destruct (Qle_bool (VirtualPayment.amount self) (VirtualWallet.balance d)) eqn:Ele;
    cbn [negb fst snd]; [|left; reflexivity].
  right. exists d. repeat split.
  - apply Qle_bool_false. exact Epos.
  - apply Qle_bool_iff. exact Ele.
Qed.

Lemma validated_debit_keeps_non_negative (self : VirtualPayment.t)
    (wallet_name : string) (w : World) (name : string) (d : VirtualWallet.t) :
  find_wallet name w = Some d ->
  (0 <= VirtualWallet.balance d)%Q ->
  exists d',
    find_wallet name (final (validated_debit self wallet_name) w) = Some d'
    /\ (0 <= VirtualWallet.balance d')%Q.
Proof.
  intros Hfind Hpos.
  destruct (validated_debit_step self wallet_name w)
    as [E | [wd [Hwd [Ha [Hle E]]]]]; rewrite E.
  - exists d. split; assumption.
  - unfold find_wallet in *. cbn [wallets set_wallets].
    rewrite find_replace_wallet. cbn [with_balance VirtualWallet.name].
    destruct (String.eqb (VirtualWallet.name wd) name).
    + rewrite Hfind. eexists. split; [reflexivity|].
      unfold with_balance. cbn [VirtualWallet.balance]. lra.
    + exists d. split; assumption.
Qed.

(** For amounts that are numbers: a wallet whose balance is non-negative
    keeps a non-negative balance through any sequence of debits, each made
    of validate_balance_for_wallet (amount above 0 and at most the balance)
    followed, when it passes, by _update_specific_wallet_balance (balance
    minus amount). *)
Theorem debits_keep_balance_non_negative
    (requests : list (VirtualPayment.t * string)) (w : World)
    (name : string) (d : VirtualWallet.t) :
  find_wallet name w = Some d ->
  (0 <= VirtualWallet.balance d)%Q ->
  exists d',
    find_wallet name (final (debits requests) w) = Some d'
    /\ (0 <= VirtualWallet.balance d')%Q.
Proof.
  revert w d.
  induction requests as [|[self wallet_name] rest IH]; intros w d Hfind Hpos.
  - exists d. split; assumption.
  - destruct (validated_debit_keeps_non_negative self wallet_name w name Hfind Hpos)
      as [d1 [Hfind1 Hpos1]].
    destruct (IH _ _ Hfind1 Hpos1) as [d2 [Hfind2 Hpos2]].
    exists d2. split; [|exact Hpos2].
    rewrite <- Hfind2. unfold final. cbn [debits]. unfold bind.
    destruct (validated_debit self wallet_name w) as [[b|e] w1] eqn:E.
    + reflexivity.
    + exfalso. revert E.
      unfold validated_debit, validate_balance_for_wallet,
        _update_specific_wallet_balance, save_wallet, frappe.get_wallet. run.
      destruct (find _ (wallets w)); cbn [fst snd]; [|discriminate].
      destruct (Qle_bool _ 0); [discriminate|].
      destruct (Qgt_bool _ _); discriminate.
Qed.

(** Two debits of 3000 from a balance of 5000: the first passes, the second
    is refused, and the balance ends at 2000. *)
Lemma debits_keep_balance_non_negative_witness :
  exists d',
    find_wallet "WALLET-1"
      (final (debits [(payment_of (3000 # 1), "WALLET-1");
                      (payment_of (3000 # 1), "WALLET-1")])
             (site [wallet_5000] [] [] []))
    = Some d'
    /\ (0 <= VirtualWallet.balance d')%Q.
Proof.
  apply (@debits_keep_balance_non_negative
           [(payment_of (3000 # 1), "WALLET-1"); (payment_of (3000 # 1), "WALLET-1")]
           (site [wallet_5000] [] [] []) "WALLET-1" wallet_5000).
  - reflexivity.
  - cbn. discriminate.
Defined.

Example two_debits_of_3000 :
  option_map VirtualWallet.balance
    (find_wallet "WALLET-1"
       (final (debits [(payment_of (3000 # 1), "WALLET-1");
                       (payment_of (3000 # 1), "WALLET-1")])
              (site [wallet_5000] [] [] [])))
  = Some (2000 # 1)%Q.
Proof. reflexivity. Qed.

(** On numbers the validation of the balance on floats is the one above. *)
Lemma float_validation_on_numbers (self : VirtualPayment.t) (wallet_name : string)
    (w : World) :
  exists reply validation,
    validate_balance_for_wallet self wallet_name w = (Val reply, w)
    /\ Float.validate_balance_for_wallet (Float.Number (VirtualPayment.amount self))
         wallet_name w = (Val validation, w)
    /\ Float.agrees reply validation.
Proof.
  unfold validate_balance_for_wallet, Float.validate_balance_for_wallet,
    frappe.get_wallet, Float.or_zero, Qgt_bool. run.
  destruct (find _ (wallets w)) as [d|]; cbn [fst snd];
    [|eexists; eexists; split; [reflexivity|]; split; [reflexivity|]; constructor].
  cbn [Float.truthy].
  destruct (Qle_bool (VirtualPayment.amount self) 0) eqn:Hle.
  - (* at most 0 *)
    destruct (Qeq_bool (VirtualPayment.amount self) 0) eqn:Hzero;
      cbn [negb Float.le_bool]; [|rewrite Hle];
      eexists; eexists; (split; [reflexivity|]); (split; [reflexivity|]);
      constructor.
  - (* above 0 *)
    assert (Hzero : Qeq_bool (VirtualPayment.amount self) 0 = false).
    { destruct (Qeq_bool (VirtualPayment.amount self) 0) eqn:E; [|reflexivity].
      apply Qeq_bool_iff in E. apply Qle_bool_false in Hle. rewrite E in Hle.
      exfalso. apply (Qlt_irrefl 0). exact Hle. }
    rewrite Hzero. cbn [negb Float.le_bool Float.gt_bool]. rewrite Hle.
    destruct (Qle_bool (VirtualPayment.amount self) (VirtualWallet.balance d));
      cbn [negb];
      eexists; eexists; (split; [reflexivity|]); (split; [reflexivity|]);
      constructor.
Qed.

(** The amounts that pass the validation of the balance: the numbers above
    0 and at most the balance, for which the new balance is a number that
    is not negative, and NaN. *)
Lemma float_validation_passes (amount : Float.t) (wallet_name : string)
    (w : World) (wallet_doc : VirtualWallet.t) :
  find_wallet wallet_name w = Some wallet_doc ->
  let balance := VirtualWallet.balance wallet_doc in
  final (Float.validate_balance_for_wallet amount wallet_name) w = w
  /\ (Float.passes (result (Float.validate_balance_for_wallet amount wallet_name) w)
      = true
      <-> amount = Float.NaN
          \/ exists a, amount = Float.Number a /\ (0 < a)%Q /\ (a <= balance)%Q)
  /\ (Float.passes (result (Float.validate_balance_for_wallet amount wallet_name) w)
      = true ->
      result (Float.validate_balance_for_wallet amount wallet_name) w
      = Val (Float.Validated (Float.Number balance) amount wallet_doc
               (effective_account wallet_doc)))
  /\ (forall a,
        amount = Float.Number a -> (0 < a)%Q -> (a <= balance)%Q ->
        Float.new_balance (Float.Number balance) amount
        = Float.Number (balance - a)
        /\ (0 <= balance - a)%Q).
Proof.
  intros Hfind. cbv zeta. unfold find_wallet in Hfind.
  assert (Haccount :
    Py.str (Py.or_ (VirtualWallet.account_number wallet_doc)
              (Some VirtualPayment.DEFAULT_WALLET_ACCOUNT))
    = effective_account wallet_doc).
  { unfold effective_account, Py.or_.
    destruct (VirtualWallet.account_number wallet_doc) as [[|c s]|]; reflexivity. }
  unfold Float.validate_balance_for_wallet, frappe.get_wallet, Float.or_zero. run.
  rewrite Hfind. cbn [fst snd].
  split; [|split; [|split]].
  - destruct (Float.truthy amount);
      [destruct (Float.le_bool amount _); [|destruct (Float.gt_bool amount _)]
      |cbn [Float.le_bool]; destruct (Qle_bool 0 0)];
      try reflexivity.
    destruct (Float.gt_bool _ _); reflexivity.
  - destruct amount as [a | | |]; cbn [Float.truthy Float.le_bool Float.gt_bool].
    + destruct (Qeq_bool a 0) eqn:Hzero; cbn [negb Float.le_bool Float.gt_bool].
      * assert (H00 : Qle_bool 0 0 = true) by (apply Qle_bool_iff; lra).
        rewrite H00. cbn [fst Float.passes Float.passed].
        split; [discriminate|].
        intros [H | [a' [H [Hpos _]]]]; [discriminate|].
        injection H as <-. apply Qeq_bool_iff in Hzero. lra.
      * destruct (Qle_bool a 0) eqn:Hle; cbn [fst Float.passes Float.passed].
        -- apply Qle_bool_iff in Hle. split; [discriminate|].
           intros [H | [a' [H [Hpos _]]]]; [discriminate|].
           injection H as <-. lra.
        -- apply Qle_bool_false in Hle.
           destruct (Qle_bool a (VirtualWallet.balance wallet_doc)) eqn:Hb;
             cbn [negb fst Float.passes Float.passed].
           ++ apply Qle_bool_iff in Hb. split; [|reflexivity].
              intros _. right. exists a. repeat split; assumption.
           ++ apply Qle_bool_false in Hb. split; [discriminate|].
              intros [H | [a' [H [_ Hle']]]]; [discriminate|].
              injection H as <-. lra.
    + cbn [negb fst Float.passes Float.passed]. split; [discriminate|].
      intros [H | [a' [H _]]]; discriminate.
    + cbn [fst Float.passes Float.passed]. split; [discriminate|].
      intros [H | [a' [H _]]]; discriminate.
    + cbn [fst Float.passes Float.passed]. split; [|reflexivity].
      intros _. left. reflexivity.
  - destruct amount as [a | | |]; cbn [Float.truthy Float.le_bool Float.gt_bool].
    + destruct (Qeq_bool a 0) eqn:Hzero; cbn [negb Float.le_bool Float.gt_bool].
      * assert (H00 : Qle_bool 0 0 = true) by (apply Qle_bool_iff; lra).
        rewrite H00. cbn [fst Float.passes Float.passed]. discriminate.
      * destruct (Qle_bool a 0); cbn [fst Float.passes Float.passed];
          [discriminate|].
        destruct (Qle_bool a (VirtualWallet.balance wallet_doc));
          cbn [negb fst Float.passes Float.passed]; [|discriminate].
        intros _. rewrite Haccount. reflexivity.
    + cbn [negb fst Float.passes Float.passed]. discriminate.
    + cbn [fst Float.passes Float.passed]. discriminate.
    + cbn [fst Float.passes Float.passed]. intros _. rewrite Haccount. reflexivity.
  - intros a -> Hpos Hle. unfold Float.new_balance. cbn [Float.sub].
    split; [reflexivity | lra].
Qed.


(** ** The external transfer call *)

Lemma attempt_transfer_step (attempt : nat) (w : World) :
  let o := network w (requests_made w) in
  let w1 := set_requests_made (S (requests_made w)) w in
  if retryable o && (attempt <? 2)%nat
  then exists delay,
         nth_error VirtualPayment.RETRY_DELAYS attempt = Some delay
         /\ attempt_transfer attempt w
            = (Val Continue, set_slept (slept w ++ [delay]) w1)
  else exists r, attempt_transfer attempt w = (r, w1) /\ terminal r o.
Proof.
  cbv zeta.
  unfold attempt_transfer, http_request, _handle_payment_response, backoff,
    time_sleep, index, response_json, dict_get, terminal.
  unfold VirtualPayment.MAX_RETRIES. cbn [Nat.sub]. run.
  destruct (network w (requests_made w)) as [status body|e] eqn:Eo.
  - (* a response came back *)
    cbn [retryable].
    destruct (status =? 200)%Z eqn:E200.
    + apply Z.eqb_eq in E200. subst status. cbn [Z.eqb Pos.eqb andb].
      destruct body as [[| b | q | s | l | fields]|];
        eexists; (split; [reflexivity|]);
        repeat split; try discriminate; intros; eexists; reflexivity.
    + destruct (status =? 502)%Z eqn:E502; cbn [andb].
      * destruct attempt as [|[|attempt]]; cbn [Nat.ltb Nat.leb andb get_retry];
          try (eexists; split; reflexivity).
        destruct body as [[| b | q | s | l | fields]|];
          try (destruct (Json.assoc "message" fields));
          eexists; (split; [reflexivity|]);
          repeat split; try discriminate; intros; discriminate.
      * destruct body as [[| b | q | s | l | fields]|];
          try (destruct (Json.assoc "message" fields));
          eexists; (split; [reflexivity|]);
          repeat split; try discriminate; intros; discriminate.
  - (* the request raised *)
    destruct e; cbn [retryable andb];
      try (eexists; (split; [reflexivity|]);
           repeat split; try discriminate; intros; discriminate);
      (destruct attempt as [|[|attempt]]; cbn [Nat.ltb Nat.leb];
       [eexists; split; reflexivity
       |eexists; split; reflexivity
       |eexists; (split; [reflexivity|]);
        repeat split; try discriminate; intros; discriminate]).
Qed.

Lemma only_network_used_refl (w : World) : only_network_used w w.
Proof. destruct w. reflexivity. Qed.

Lemma only_network_used_trans (w1 w2 w3 : World) :
  only_network_used w1 w2 -> only_network_used w2 w3 -> only_network_used w1 w3.
Proof.
  unfold only_network_used. intros H12 H23.
  rewrite H23 at 1. rewrite H12 at 1.
  destruct w1. reflexivity.
Qed.

Lemma only_network_used_site (w w' : World) :
  only_network_used w w' ->
  wallets w' = wallets w /\ pins w' = pins w /\ banks w' = banks w
  /\ history w' = history w /\ payments w' = payments w
  /\ network w' = network w.
Proof.
  unfold only_network_used. intros H. rewrite H. destruct w.
  repeat split; reflexivity.
Qed.

(** One more turn of the loop. *)
Lemma transfer_loop_unfold (remaining attempt : nat) (w : World) :
  transfer_loop (S remaining) attempt w
  = match attempt_transfer attempt w with
    | (Val (Return r), w1) => (Val r, w1)
    | (Val Continue, w1) => transfer_loop remaining (S attempt) w1
    | (Exc e, w1) => (Exc e, w1)
    end.
Proof.
  cbn [transfer_loop]. unfold bind, ret.
  destruct (attempt_transfer attempt w) as [[[r|]|e] w1]; reflexivity.
Qed.

(** The loop, from any attempt on: how many requests it makes, on what it
    goes on, what it sleeps, and what it can return. *)
Lemma transfer_loop_spec (remaining attempt : nat) (w : World) :
  attempt + remaining = 3 ->
  exists n,
    requests_made (final (transfer_loop remaining attempt) w) = requests_made w + n
    /\ n <= remaining
    /\ only_network_used w (final (transfer_loop remaining attempt) w)
    /\ (forall k, S k < n -> retryable (network w (requests_made w + k)) = true)
    /\ slept (final (transfer_loop remaining attempt) w)
       = (slept w ++ firstn (n - 1) (skipn attempt VirtualPayment.RETRY_DELAYS))%list
    /\ (0 < remaining ->
        0 < n
        /\ result (transfer_loop remaining attempt) w <> Val (Failure MaxRetriesExceeded)
        /\ (forall response_data,
              result (transfer_loop remaining attempt) w
              = Val (TransferAccepted response_data) ->
              exists body,
                network w (requests_made w + (n - 1)) = Response 200%Z body)).
Proof.
  revert attempt w.
  induction remaining as [|remaining IH]; intros attempt w Hsum.
  - exists 0. unfold final, result. cbn [transfer_loop]. unfold ret. cbn [fst snd].
    refine (conj _ (conj _ (conj _ (conj _ (conj _ _))))).
    + lia.
    + lia.
    + apply only_network_used_refl.
    + intros k Hk. lia.
    + cbn [firstn Nat.sub]. rewrite app_nil_r. reflexivity.
    + intros H. lia.
  - unfold final, result. rewrite transfer_loop_unfold.
    pose proof (attempt_transfer_step attempt w) as Hstep. cbv zeta in Hstep.
    destruct (retryable (network w (requests_made w)) && (attempt <? 2)%nat) eqn:Eretry.
    + (* backoff and another attempt *)
      destruct Hstep as [delay [Hdelay Hrun]]. rewrite Hrun.
      apply andb_true_iff in Eretry. destruct Eretry as [Hretry Hlt].
      apply Nat.ltb_lt in Hlt.
      set (w1 := set_slept (slept w ++ [delay])
                   (set_requests_made (S (requests_made w)) w)) in *.
      destruct (IH (S attempt) w1 ltac:(lia))
        as [n [Hreq [Hle [Honly [Hretr [Hslept Hpos]]]]]].
      destruct (Hpos ltac:(lia)) as [Hn [Hmax Hok]].
      unfold final, result in *.
      exists (S n).
      refine (conj _ (conj _ (conj _ (conj _ (conj _ _))))).
      * rewrite Hreq. subst w1. cbn [requests_made set_slept set_requests_made]. lia.
      * lia.
      * eapply only_network_used_trans; [|exact Honly].
        subst w1. unfold only_network_used. destruct w. reflexivity.
      * intros [|k] Hk.
        -- rewrite Nat.add_0_r. exact Hretry.
        -- specialize (Hretr k ltac:(lia)).
           subst w1. cbn [requests_made network set_slept set_requests_made] in Hretr.
           replace (requests_made w + S k) with (S (requests_made w) + k) by lia.
           exact Hretr.
      * rewrite Hslept. subst w1. cbn [slept set_slept set_requests_made].
        rewrite <- app_assoc. f_equal.
        destruct n as [|n]; [lia|].
        cbn [Nat.sub]. rewrite Nat.sub_0_r.
        unfold VirtualPayment.RETRY_DELAYS in *.
        destruct attempt as [|[|attempt]]; [| |lia];
          cbn [nth_error] in Hdelay; injection Hdelay as <-; reflexivity.
      * intros _. refine (conj _ (conj _ _)).
        -- lia.
        -- exact Hmax.
        -- intros rd Hrd. destruct (Hok rd Hrd) as [body Hbody].
           exists body. subst w1.
           cbn [requests_made network set_slept set_requests_made] in Hbody.
           replace (requests_made w + (S n - 1)) with (S (requests_made w) + (n - 1))
             by lia.
           exact Hbody.
    + (* the attempt ends the loop *)
      destruct Hstep as [r [Hrun [Hcont [Hmax Hok]]]]. rewrite Hrun.
      exists 1.
      assert (Hfin :
        forall (x : Res Reply),
          (forall rd, x = Val (TransferAccepted rd) ->
                      r = Val (Return (TransferAccepted rd))) ->
          (x = Val (Failure MaxRetriesExceeded) ->
           r = Val (Return (Failure MaxRetriesExceeded))) ->
          requests_made (snd (x, set_requests_made (S (requests_made w)) w))
          = requests_made w + 1
          /\ 1 <= S remaining
          /\ only_network_used w (snd (x, set_requests_made (S (requests_made w)) w))
          /\ (forall k, S k < 1 -> retryable (network w (requests_made w + k)) = true)
          /\ slept (snd (x, set_requests_made (S (requests_made w)) w))
             = (slept w ++ firstn (1 - 1) (skipn attempt VirtualPayment.RETRY_DELAYS))%list
          /\ (0 < S remaining ->
              0 < 1
              /\ fst (x, set_requests_made (S (requests_made w)) w)
                 <> Val (Failure MaxRetriesExceeded)
              /\ (forall response_data,
                    fst (x, set_requests_made (S (requests_made w)) w)
                    = Val (TransferAccepted response_data) ->
                    exists body,
                      network w (requests_made w + (1 - 1)) = Response 200%Z body))).
      { intros x Hx Hm. cbn [fst snd].
        refine (conj _ (conj _ (conj _ (conj _ (conj _ _))))).
        - cbn [requests_made set_requests_made]. lia.
        - lia.
        - unfold only_network_used. destruct w. reflexivity.
        - intros k Hk. lia.
        - cbn [slept set_requests_made firstn Nat.sub].
          rewrite app_nil_r. reflexivity.
        - intros _. refine (conj _ (conj _ _)).
          + lia.
          + intros E. apply Hmax. apply Hm. exact E.
          + intros rd E. cbn [Nat.sub]. rewrite Nat.add_0_r.
            apply (Hok rd). apply Hx. exact E. }
      destruct r as [[reply|]|e]; [| contradiction |]; apply Hfin;
        intros; congruence.
Qed.

Lemma get_bank_code_reads (bank_name : option string) (w : World) :
  final (_get_bank_code bank_name) w = w.
Proof.
  unfold _get_bank_code, frappe.get_bank. run.
  destruct bank_name as [n|]; [|reflexivity].
  destruct (find _ (banks w)) as [d|]; [|reflexivity].
  destruct (BanksB.bank_code d) as [[|c s]|]; reflexivity.
Qed.

Lemma resolve_destination_bank_code_reads (self : VirtualPayment.t) (w : World) :
  exists v, resolve_destination_bank_code self w = (Val v, w).
Proof.
  unfold resolve_destination_bank_code.
  destruct (negb _ && _).
  - pose proof (get_bank_code_reads (VirtualPayment.destination_bank self) w) as Hr.
    unfold final in Hr. run.
    destruct (_get_bank_code (VirtualPayment.destination_bank self) w) as [[v|e] w1];
      cbn [fst snd] in *; subst w1; eexists; reflexivity.
  - eexists. reflexivity.
Qed.

(** _process_payment_request either refuses the request before any call,
    leaving the world as it is, or runs the loop from the first attempt. *)
Lemma process_payment_request_cases (self : VirtualPayment.t)
    (bearer_token bank_code : string) (payment_amount : Q)
    (account_number : string) (w : World) :
  _process_payment_request self bearer_token bank_code payment_amount account_number w
  = transfer_loop VirtualPayment.MAX_RETRIES 0 w
  \/ exists issue,
       issue <> MaxRetriesExceeded
       /\ _process_payment_request self bearer_token bank_code payment_amount
            account_number w
          = (Val (Failure issue), w).
Proof.
  unfold _process_payment_request, bind.
  destruct (resolve_destination_bank_code_reads self w) as [v ->].
  destruct (_ ++ _)%list as [|i l].
  - match goal with
    | |- context [if ?b then _ else _] => destruct b
    end.
    + right. eexists. split; [|reflexivity]. discriminate.
    + left. reflexivity.
  - right. eexists. split; [|reflexivity]. discriminate.
Qed.

(** A well-formed request reaches the loop. *)
Lemma well_formed_request_reaches_loop (self : VirtualPayment.t)
    (bearer_token bank_code : string) (payment_amount : Q)
    (account_number : string) (w : World) :
  well_formed_request self ->
  _process_payment_request self bearer_token bank_code payment_amount account_number w
  = transfer_loop VirtualPayment.MAX_RETRIES 0 w.
Proof.
  intros [Hcode [Hacc [Hlen Hpos]]].
  unfold _process_payment_request, resolve_destination_bank_code,
    account_number_not_10.
  rewrite Hcode. cbn [negb andb]. run. cbv zeta.
  assert (Ez : Qeq_bool (VirtualPayment.amount self) 0 = false).
  { destruct (Qeq_bool _ 0) eqn:E; [|reflexivity].
    apply Qeq_bool_iff in E. rewrite E in Hpos. exfalso.
    apply (Qlt_irrefl 0). exact Hpos. }
  apply Qle_bool_false in Hpos. rewrite Hcode, Hacc, Hlen, Ez, Hpos.
  cbn [orb negb andb app Nat.eqb].
  rewrite truthy_or_. cbn [Py.truthy]. rewrite orb_true_r. reflexivity.
Qed.

(** The scenario of the specification: 502, 502, then 200 with a JSON
    object. *)
Lemma transfer_loop_502_502_200 (w : World) (b1 b2 : option json)
    (fields : list (string * json)) :
  network w (requests_made w) = Response 502%Z b1 ->
  network w (S (requests_made w)) = Response 502%Z b2 ->
  network w (S (S (requests_made w))) = Response 200%Z (Some (JDict fields)) ->
  transfer_loop VirtualPayment.MAX_RETRIES 0 w
  = (Val (TransferAccepted
            (match Json.assoc "data" fields with
             | Some v => v
             | None => JDict fields
             end)),
     set_requests_made (3 + requests_made w)
       (set_slept (slept w ++ [2; 5]%Z)%list w)).
Proof.
  intros H1 H2 H3.
  unfold VirtualPayment.MAX_RETRIES.
  rewrite transfer_loop_unfold.
  unfold attempt_transfer at 1.
  unfold http_request, _handle_payment_response, backoff, time_sleep, index,
    response_json, dict_get. run.
  rewrite H1. cbn [Z.eqb Pos.eqb andb Nat.ltb Nat.leb Nat.sub
                   VirtualPayment.MAX_RETRIES get_retry nth_error
                   VirtualPayment.RETRY_DELAYS].
  rewrite transfer_loop_unfold.
  unfold attempt_transfer at 1.
  unfold http_request, _handle_payment_response, backoff, time_sleep, index,
    response_json, dict_get. run.
  cbn [network requests_made set_slept set_requests_made].
  rewrite H2. cbn [Z.eqb Pos.eqb andb Nat.ltb Nat.leb Nat.sub
                   VirtualPayment.MAX_RETRIES get_retry nth_error
                   VirtualPayment.RETRY_DELAYS].
  rewrite transfer_loop_unfold.
  unfold attempt_transfer at 1.
  unfold http_request, _handle_payment_response, backoff, time_sleep, index,
    response_json, dict_get. run.
  cbn [network requests_made set_slept set_requests_made].
  rewrite H3. cbn [Z.eqb Pos.eqb andb get_retry].
  destruct w. cbn. rewrite <- app_assoc. reflexivity.
Qed.

(** The requests, the sleeps and the reply of _process_payment_request. *)
Lemma process_payment_request_spec (self : VirtualPayment.t)
    (bearer_token bank_code : string) (payment_amount : Q)
    (account_number : string) (w : World) :
  exists n,
    requests_made (final (_process_payment_request self bearer_token bank_code
                            payment_amount account_number) w)
    = requests_made w + n
    /\ n <= 3
    /\ (forall k, S k < n -> retryable (network w (requests_made w + k)) = true)
    /\ slept (final (_process_payment_request self bearer_token bank_code
                       payment_amount account_number) w)
       = (slept w ++ firstn (n - 1) VirtualPayment.RETRY_DELAYS)%list
    /\ result (_process_payment_request self bearer_token bank_code
                 payment_amount account_number) w
       <> Val (Failure MaxRetriesExceeded)
    /\ (forall response_data,
          result (_process_payment_request self bearer_token bank_code
                    payment_amount account_number) w
          = Val (TransferAccepted response_data) ->
          0 < n
          /\ exists body,
               network w (requests_made w + (n - 1)) = Response 200%Z body).
Proof.
  destruct (process_payment_request_cases self bearer_token bank_code
              payment_amount account_number w) as [E | [issue [Hissue E]]].
  - unfold final, result. rewrite E.
    destruct (transfer_loop_spec VirtualPayment.MAX_RETRIES 0 w eq_refl)
      as [n [Hreq [Hle [_ [Hretr [Hslept Hpos]]]]]].
    destruct (Hpos ltac:(unfold VirtualPayment.MAX_RETRIES; lia))
      as [Hn [Hmax Hok]].
    exists n. refine (conj Hreq (conj Hle (conj Hretr (conj _ (conj Hmax _))))).
    + exact Hslept.
    + intros rd Hrd. split; [exact Hn | exact (Hok rd Hrd)].
  - unfold final, result. rewrite E. cbn [fst snd].
    exists 0. refine (conj _ (conj _ (conj _ (conj _ (conj _ _))))).
    + lia.
    + lia.
    + intros k Hk. lia.
    + cbn [firstn Nat.sub]. rewrite app_nil_r. reflexivity.
    + intros H. apply Hissue. congruence.
    + intros rd H. discriminate H.
Qed.

(** C3, as amended.  _process_payment_request makes at most 3 requests; an
    attempt is followed by another one only if it ended in a timeout, a
    connection error, any other exception of the requests library, or a 502
    response; the sleeps are the delays 2, 5, 10 indexed by the attempt, one
    after each attempt but the last; the max-retries error is never
    returned before the attempts are used up (with three attempts it is not
    returned at all, as the third attempt always returns); a response other
    than 502 ends the loop, and the reply is a success only when the last
    response is a 200; a well-formed request answered 502, 502 and then 200
    with a JSON object succeeds after three requests and the two sleeps 2
    and 5. *)
Theorem transfer_retry_policy (self : VirtualPayment.t)
    (bearer_token bank_code : string) (payment_amount : Q)
    (account_number : string) (w : World) :
  let run := _process_payment_request self bearer_token bank_code
               payment_amount account_number in
  let n := requests_made (final run w) - requests_made w in
  n <= VirtualPayment.MAX_RETRIES
  /\ (forall k, S k < n -> retryable (network w (requests_made w + k)) = true)
  /\ slept (final run w)
     = (slept w ++ firstn (n - 1) VirtualPayment.RETRY_DELAYS)%list
  /\ result run w <> Val (Failure MaxRetriesExceeded)
  /\ (forall k status_code body,
        k < n ->
        network w (requests_made w + k) = Response status_code body ->
        status_code <> 502%Z ->
        n = S k)
  /\ (forall response_data,
        result run w = Val (TransferAccepted response_data) ->
        exists body, network w (requests_made w + (n - 1)) = Response 200%Z body)
  /\ (well_formed_request self ->
      forall b1 b2 fields,
        network w (requests_made w) = Response 502%Z b1 ->
        network w (S (requests_made w)) = Response 502%Z b2 ->
        network w (S (S (requests_made w))) = Response 200%Z (Some (JDict fields)) ->
        result run w
        = Val (TransferAccepted
                 (match Json.assoc "data" fields with
                  | Some v => v
                  | None => JDict fields
                  end))
        /\ n = 3
        /\ slept (final run w) = (slept w ++ [2; 5]%Z)%list).
Proof.
  cbv zeta.
  destruct (process_payment_request_spec self bearer_token bank_code
              payment_amount account_number w)
    as [n [Hreq [Hle [Hretr [Hslept [Hmax Hok]]]]]].
  rewrite Hreq. replace (requests_made w + n - requests_made w) with n by lia.
  refine (conj Hle (conj Hretr (conj Hslept (conj Hmax (conj _ (conj _ _)))))).
  - intros k status body Hk Hnet Hstatus.
    destruct (Nat.lt_ge_cases (S k) n) as [Hlt|Hge]; [|lia].
    specialize (Hretr k Hlt). rewrite Hnet in Hretr. cbn [retryable] in Hretr.
    apply Z.eqb_eq in Hretr. contradiction.
  - intros rd Hrd. exact (proj2 (Hok rd Hrd)).
  - intros Hwf b1 b2 fields H1 H2 H3.
    pose proof (well_formed_request_reaches_loop bearer_token bank_code
                  payment_amount account_number w Hwf) as E.
    rewrite (transfer_loop_502_502_200 w H1 H2 H3) in E.
    unfold final, result in *. rewrite E in *. cbn [fst snd] in *.
    cbn [requests_made set_requests_made] in Hreq.
    refine (conj eq_refl (conj _ _)).
    + lia.
    + destruct w; reflexivity.
Qed.

(** The scenario run on a concrete site. *)
Lemma transfer_retry_policy_witness :
  let w := with_network
             (scripted [Response 502 None; Response 502 None;
                        Response 200 accepted_body])
             (site [wallet_5000] [pin_1234] [] []) in
  let run := _process_payment_request (payment_of (100 # 1)) "token" "100004"
               (100 # 1) "9000136910" in
  result run w
  = Val (TransferAccepted
           (JDict [("transactionReference", JStr "TRX-1");
                   ("amount", JNum (100 # 1))]))
  /\ requests_made (final run w) - requests_made w = 3
  /\ slept (final run w) = [2; 5]%Z.
Proof.
  cbv zeta.
  destruct (@transfer_retry_policy (payment_of (100 # 1)) "token" "100004"
              (100 # 1) "9000136910"
              (with_network
                 (scripted [Response 502 None; Response 502 None;
                            Response 200 accepted_body])
                 (site [wallet_5000] [pin_1234] [] [])))
    as [_ [_ [_ [_ [_ [_ H]]]]]].
  assert (Hwf : well_formed_request (payment_of (100 # 1))).
  { unfold well_formed_request. repeat split. }
  exact (H Hwf None None _ eq_refl eq_refl eq_refl).
Defined.

(** C3, as stated, fails twice.  An attempt that raises a RequestException
    which is neither a timeout nor a connection error (here, too many
    redirects) is followed by a second attempt; and a 200 on the third
    attempt whose body is not JSON yields the invalid-response failure, not
    a success. *)
Lemma retried_on_other_request_exception :
  ~ retries_only_as_specified /\ ~ third_200_always_succeeds.
Proof.
  split.
  - intros H.
    specialize (H (payment_of (100 # 1)) "token" "100004" (100 # 1)%Q "9000136910"
                  (with_network
                     (scripted [Raises (RequestException "Exceeded 30 redirects.");
                                Response 200 accepted_body])
                     (site [wallet_5000] [pin_1234] [] []))
                  0).
    vm_compute in H.
    specialize (H (le_n 2)). discriminate H.
  - intros H.
    specialize (H (payment_of (100 # 1)) "token" "100004" (100 # 1)%Q "9000136910"
                  (with_network
                     (scripted [Response 502 None; Response 502 None;
                                Response 200 None])
                     (site [wallet_5000] [pin_1234] [] []))
                  None None None eq_refl eq_refl eq_refl eq_refl eq_refl eq_refl
                  eq_refl).
    vm_compute in H. discriminate H.
Qed.

Example retry_after_other_request_exception :
  let w := with_network
             (scripted [Raises (RequestException "Exceeded 30 redirects.");
                        Response 200 accepted_body])
             (site [wallet_5000] [pin_1234] [] []) in
  let run := _process_payment_request (payment_of (100 # 1)) "token" "100004"
               (100 # 1) "9000136910" in
  requests_made (final run w) = 2 /\ slept (final run w) = [2]%Z
  /\ success_of (result run w) = true.
Proof. repeat split. Qed.

(** ** Frames *)

Section Frames.

Variable R : World -> World -> Prop.
Hypothesis R_refl : forall w, R w w.
Hypothesis R_trans : forall w1 w2 w3, R w1 w2 -> R w2 w3 -> R w1 w3.

Lemma preserves_ret {A} (a : A) : preserves R (ret a).
Proof. intros w. apply R_refl. Qed.

Lemma preserves_raise {A} (e : exn) : preserves R (@raise A e).
Proof. intros w. apply R_refl. Qed.

Lemma preserves_lift {A} (r : Res A) : preserves R (lift r).
Proof. intros w. apply R_refl. Qed.

Lemma preserves_get_world : preserves R get_world.
Proof. intros w. apply R_refl. Qed.

Lemma preserves_bind {A B} (c : M A) (k : A -> M B) :
  preserves R c -> (forall a, preserves R (k a)) -> preserves R (bind c k).
Proof.
  intros Hc Hk w. specialize (Hc w). unfold final, bind in *.
  destruct (c w) as [[a|e] w1]; cbn [snd] in *.
  - eapply R_trans; [exact Hc | apply Hk].
  - exact Hc.
Qed.

Lemma preserves_try_except {A} (c : M A) (h : exn -> M A) :
  preserves R c -> (forall e, preserves R (h e)) -> preserves R (try_except c h).
Proof.
  intros Hc Hh w. specialize (Hc w). unfold final, try_except in *.
  destruct (c w) as [[a|e] w1]; cbn [snd] in *.
  - exact Hc.
  - eapply R_trans; [exact Hc | apply Hh].
Qed.

(** The framework calls that only read. *)

Lemma preserves_get_wallet (name : string) : preserves R (frappe.get_wallet name).
Proof.
  intros w. unfold final, frappe.get_wallet.
  destruct (find _ (wallets w)); apply R_refl.
Qed.

Lemma preserves_list_wallets : preserves R frappe.list_wallets_limit_1.
Proof. intros w. apply R_refl. Qed.

Lemma preserves_list_pins (wallet_name : string) :
  preserves R (frappe.list_pins wallet_name).
Proof. intros w. apply R_refl. Qed.

Lemma preserves_get_pin (name : string) : preserves R (frappe.get_pin name).
Proof.
  intros w. unfold final, frappe.get_pin.
  destruct (find _ (pins w)); apply R_refl.
Qed.

Lemma preserves_get_bank (name : option string) : preserves R (frappe.get_bank name).
Proof.
  intros w. unfold final, frappe.get_bank.
  destruct name; [destruct (find _ (banks w))|]; apply R_refl.
Qed.

Lemma preserves_get_payment (name : string) : preserves R (frappe.get_payment name).
Proof.
  intros w. unfold final, frappe.get_payment.
  destruct (find _ (payments w)); apply R_refl.
Qed.

Lemma preserves_get_roles : preserves R frappe.get_roles.
Proof. intros w. apply R_refl. Qed.

Lemma preserves_utils_now : preserves R frappe.utils_now.
Proof. intros w. apply R_refl. Qed.

Lemma preserves_db_exists_history (ref : json) : preserves R (db_exists_history ref).
Proof. intros w. apply R_refl. Qed.

Lemma preserves_get_history (name : string) : preserves R (get_history name).
Proof.
  intros w. unfold final, get_history.
  destruct (find _ (history w)); apply R_refl.
Qed.

Lemma preserves_response_json (body : option json) : preserves R (response_json body).
Proof. intros w. destruct body; apply R_refl. Qed.

Lemma preserves_dict_get (d : json) (key : string) (default : json) :
  preserves R (dict_get d key default).
Proof. intros w. destruct d; apply R_refl. Qed.

Lemma preserves_json_strip (v : json) : preserves R (json_strip v).
Proof. intros w. destruct v; apply R_refl. Qed.

Lemma preserves_index {A} (xs : list A) (i : nat) : preserves R (index xs i).
Proof. intros w. unfold final, index. destruct (nth_error xs i); apply R_refl. Qed.

End Frames.

Lemma returns_try_except {A} (c : M A) (h : exn -> M A) :
  (forall e, returns (h e)) -> returns (try_except c h).
Proof.
  intros Hh w. unfold result, try_except.
  destruct (c w) as [[a|e] w1]; cbn [fst].
  - exists a. reflexivity.
  - apply Hh.
Qed.

Lemma returns_ret {A} (a : A) : returns (ret a).
Proof. intros w. exists a. reflexivity. Qed.

(** A computation that only reads and returns, run. *)
Lemma run_reader {A} (c : M A) (w : World) :
  preserves eq c -> returns c -> exists a, c w = (Val a, w).
Proof.
  intros Hp Hr. destruct (Hr w) as [a Ha]. specialize (Hp w).
  exists a. unfold result, final in *.
  destruct (c w) as [r w1]. cbn [fst snd] in *. congruence.
Qed.

Create HintDb frames.

#[local] Hint Resolve preserves_get_wallet preserves_list_wallets
  preserves_list_pins preserves_get_pin preserves_get_bank preserves_get_payment
  preserves_get_roles preserves_utils_now preserves_db_exists_history
  preserves_get_history preserves_response_json preserves_dict_get
  preserves_json_strip preserves_index : frames.

Ltac frame_step :=
  match goal with
  | |- forall _, _ => intro
  | |- preserves _ (ret _) => apply preserves_ret; solve [auto]
  | |- preserves _ (raise _) => apply preserves_raise; solve [auto]
  | |- preserves _ (lift _) => apply preserves_lift; solve [auto]
  | |- preserves _ get_world => apply preserves_get_world; solve [auto]
  | |- preserves _ (bind _ _) => apply preserves_bind; [solve [eauto] | | ]
  | |- preserves _ (try_except _ _) =>
      apply preserves_try_except; [solve [eauto] | | ]
  | |- preserves _ (match ?x with _ => _ end) => destruct x
  | |- preserves _ _ => solve [auto with frames]
  end.

Ltac frame := repeat frame_step.

Lemma eq_trans_world (w1 w2 w3 : World) : w1 = w2 -> w2 = w3 -> w1 = w3.
Proof. congruence. Qed.

#[local] Hint Resolve eq_trans_world only_network_used_refl
  only_network_used_trans : core.

Lemma same_wallets_refl (w : World) : same_wallets w w.
Proof. reflexivity. Qed.

Lemma same_wallets_trans (w1 w2 w3 : World) :
  same_wallets w1 w2 -> same_wallets w2 w3 -> same_wallets w1 w3.
Proof. unfold same_wallets. congruence. Qed.

#[local] Hint Resolve same_wallets_refl same_wallets_trans : core.

(** *** The steps that only read *)

Lemma verify_transaction_pin_preserves
    (get_decrypted_pin : PaymentPin.t -> Res (option string))
    (wallet_name : string) (transaction_pin : option string) :
  preserves eq (verify_transaction_pin get_decrypted_pin wallet_name transaction_pin).
Proof.
  unfold verify_transaction_pin, frappe.list_pins_limit_1. frame.
Qed.

Lemma verify_transaction_pin_returns
    (get_decrypted_pin : PaymentPin.t -> Res (option string))
    (wallet_name : string) (transaction_pin : option string) :
  returns (verify_transaction_pin get_decrypted_pin wallet_name transaction_pin).
Proof.
  apply returns_try_except. intros e. apply returns_ret.
Qed.

Lemma validate_balance_for_wallet_preserves (self : VirtualPayment.t)
    (wallet_name : string) :
  preserves eq (validate_balance_for_wallet self wallet_name).
Proof. intros w. symmetry. apply validate_balance_for_wallet_reads. Qed.

Lemma validate_balance_for_wallet_returns (self : VirtualPayment.t)
    (wallet_name : string) :
  returns (validate_balance_for_wallet self wallet_name).
Proof.
  apply returns_try_except. intros e. apply returns_ret.
Qed.

Lemma select_wallet_reads (virtual_wallet : option string) (w : World) :
  exists selected, select_wallet virtual_wallet w = (Val selected, w).
Proof.
  unfold select_wallet, frappe.list_wallets_limit_1. run.
  destruct virtual_wallet as [[|c s]|];
    try (eexists; reflexivity);
    destruct (firstn 1 _); eexists; reflexivity.
Qed.

(** *** What a computation returns *)

Lemma ensures_ret {A} (P : A -> Prop) (a : A) : P a -> ensures P (ret a).
Proof. intros H w b E. unfold result, ret in E. cbn in E. congruence. Qed.

Lemma ensures_raise {A} (P : A -> Prop) (e : exn) : ensures P (raise e).
Proof. intros w b E. discriminate E. Qed.

Lemma ensures_bind {A B} (P : B -> Prop) (c : M A) (k : A -> M B) :
  (forall a, ensures P (k a)) -> ensures P (bind c k).
Proof.
  intros Hk w b E. unfold result, bind in E.
  destruct (c w) as [[a|e] w1].
  - apply (Hk a w1 b E).
  - discriminate E.
Qed.

Lemma ensures_try_except {A} (P : A -> Prop) (c : M A) (h : exn -> M A) :
  ensures P c -> (forall e, ensures P (h e)) -> ensures P (try_except c h).
Proof.
  intros Hc Hh w b E. unfold result, try_except in E.
  pose proof (Hc w) as Hcw. unfold result in Hcw.
  destruct (c w) as [[a|e] w1].
  - apply Hcw. exact E.
  - apply (Hh e w1 b E).
Qed.

Lemma ensures_bind_with {A B} (Q : A -> Prop) (P : B -> Prop)
    (c : M A) (k : A -> M B) :
  ensures Q c -> (forall a, Q a -> ensures P (k a)) -> ensures P (bind c k).
Proof.
  intros Hc Hk w b E. unfold result, bind in E.
  pose proof (Hc w) as Hcw. unfold result in Hcw.
  destruct (c w) as [[a|e] w1].
  - apply (Hk a (Hcw a eq_refl) w1 b E).
  - discriminate E.
Qed.

Ltac ensure_step :=
  match goal with
  | |- forall _, _ => intro
  | |- ensures _ (ret _) => apply ensures_ret
  | |- ensures _ (raise _) => apply ensures_raise
  | |- ensures _ (bind _ _) => apply ensures_bind
  | |- ensures _ (try_except _ _) => apply ensures_try_except
  | |- ensures _ (match ?x with _ => _ end) => destruct x
  end.

Lemma verify_transaction_pin_replies
    (get_decrypted_pin : PaymentPin.t -> Res (option string))
    (wallet_name : string) (transaction_pin : option string) :
  ensures pin_reply
    (verify_transaction_pin get_decrypted_pin wallet_name transaction_pin).
Proof.
  unfold verify_transaction_pin, pin_reply.
  apply ensures_try_except;
    [|intros e; apply ensures_ret; right; eexists; reflexivity].
  apply (ensures_bind_with
           (Q := fun denied => denied = None
                               \/ exists error, denied = Some (Failure error))).
  - repeat ensure_step;
      solve [left; reflexivity | right; eexists; reflexivity].
  - intros denied [->|[error ->]].
    + repeat ensure_step;
        solve [left; reflexivity | right; eexists; reflexivity].
    + apply ensures_ret. right. eexists. reflexivity.
Qed.

(** *** Running a step *)

Lemma bind_run {A B} (c : M A) (k : A -> M B) (w w1 : World) (a : A) :
  c w = (Val a, w1) -> bind c k w = k a w1.
Proof. intros E. unfold bind. rewrite E. reflexivity. Qed.

Lemma bind_exc {A B} (c : M A) (k : A -> M B) (w w1 : World) (e : exn) :
  c w = (Exc e, w1) -> bind c k w = (Exc e, w1).
Proof. intros E. unfold bind. rewrite E. reflexivity. Qed.

Lemma final_try_except_ret {A} (c : M A) (f : exn -> A) (w : World) :
  final (try_except c (fun e => ret (f e))) w = final c w.
Proof.
  unfold final, try_except, ret.
  destruct (c w) as [[a|e] w1]; reflexivity.
Qed.

(** *** The steps that write *)

Lemma process_payment_request_uses_only_network (self : VirtualPayment.t)
    (bearer_token bank_code : string) (payment_amount : Q)
    (account_number : string) :
  preserves only_network_used
    (_process_payment_request self bearer_token bank_code payment_amount
       account_number).
Proof.
  intros w.
  destruct (process_payment_request_cases self bearer_token bank_code
              payment_amount account_number w) as [E | [issue [_ E]]];
    unfold final; rewrite E.
  - destruct (transfer_loop_spec VirtualPayment.MAX_RETRIES 0 w eq_refl)
      as [n [_ [_ [Honly _]]]].
    exact Honly.
  - apply only_network_used_refl.
Qed.

Lemma update_specific_wallet_balance_run (wallet_doc : VirtualWallet.t)
    (current_balance payment_amount : Q) (w : World) :
  _update_specific_wallet_balance wallet_doc current_balance payment_amount w
  = (Val (current_balance - payment_amount)%Q,
     set_wallets
       (replace_wallet
          (with_balance wallet_doc (current_balance - payment_amount)%Q)
          (wallets w)) w).
Proof. reflexivity. Qed.

Lemma preserves_db_set_payment (d : VirtualPayment.t) :
  preserves same_wallets (db_set_payment d).
Proof. intros w. reflexivity. Qed.

Lemma preserves_insert_history
    (autoname : TransactionHistory.t -> list TransactionHistory.t -> string)
    (d : TransactionHistory.t) :
  preserves same_wallets (insert_history autoname d).
Proof.
  intros w. unfold insert_history, TransactionHistory_validate. run.
  destruct (negb _); [reflexivity|].
  destruct (TransactionHistory.amount _) as [| [|] | q | [|c s] | [|x l] | [|x l]];
    cbn [fst snd]; try reflexivity;
    try (destruct (existsb _ _); reflexivity).
  destruct (Qeq_bool q 0 || Qle_bool q 0); [reflexivity|].
  destruct (existsb _ _); reflexivity.
Qed.

#[local] Hint Resolve preserves_db_set_payment preserves_insert_history : frames.

Lemma create_transaction_record_keeps_wallets
    (autoname : TransactionHistory.t -> list TransactionHistory.t -> string)
    (transaction_data : json) (virtual_payment_name : option string) :
  preserves same_wallets
    (create_transaction_record autoname transaction_data virtual_payment_name).
Proof. unfold create_transaction_record. repeat frame_step. Qed.

#[local] Hint Resolve create_transaction_record_keeps_wallets : frames.

Lemma record_transaction_keeps_wallets
    (autoname : TransactionHistory.t -> list TransactionHistory.t -> string)
    (self : VirtualPayment.t) (response_data : json) :
  preserves same_wallets (record_transaction autoname self response_data).
Proof. unfold record_transaction. repeat frame_step. Qed.

(** ** Payment orchestrator *)

(** make_virtual_payment and the ledger: either the wallet table is as it
    was, or every step up to the transfer succeeded and the one change is
    the debit of the validated wallet. *)
Lemma make_virtual_payment_ledger
    (get_decrypted_pin : PaymentPin.t -> Res (option string))
    (autoname : TransactionHistory.t -> list TransactionHistory.t -> string)
    (self : VirtualPayment.t) (transaction_pin virtual_wallet : option string)
    (w : World) :
  wallets (final (make_virtual_payment get_decrypted_pin autoname self
                    transaction_pin virtual_wallet) w)
  = wallets w
  \/ exists wallet_doc current_balance payment_amount,
       transfer_succeeded get_decrypted_pin self transaction_pin virtual_wallet w
         wallet_doc current_balance payment_amount
       /\ wallets (final (make_virtual_payment get_decrypted_pin autoname self
                           transaction_pin virtual_wallet) w)
          = replace_wallet
              (with_balance wallet_doc (current_balance - payment_amount)%Q)
              (wallets w).
Proof.
  unfold make_virtual_payment.
  rewrite (final_try_except_ret _ (fun e => Failure (PaymentError e))).
  unfold final.
  destruct (select_wallet_reads virtual_wallet w) as [selected Hsel].
  rewrite (@bind_run _ _ _ _ _ _ _ Hsel).
  destruct selected as [payment_wallet|]; [|left; reflexivity].
  destruct (Py.truthy transaction_pin) eqn:Hpin; cbn [negb]; [|left; reflexivity].
  destruct (run_reader w
              (verify_transaction_pin_preserves get_decrypted_pin payment_wallet
                 transaction_pin)
              (verify_transaction_pin_returns get_decrypted_pin payment_wallet
                 transaction_pin)) as [reply Hverify].
  rewrite (@bind_run _ _ _ _ _ _ _ Hverify).
  assert (Hshape : pin_reply reply).
  { apply (verify_transaction_pin_replies get_decrypted_pin payment_wallet
             transaction_pin w).
    unfold result. rewrite Hverify. reflexivity. }
  destruct Hshape as [-> | [error ->]]; cbn [success negb]; [|left; reflexivity].
  destruct (run_reader w
              (validate_balance_for_wallet_preserves self payment_wallet)
              (validate_balance_for_wallet_returns self payment_wallet))
    as [validation Hvalidate].
  rewrite (@bind_run _ _ _ _ _ _ _ Hvalidate).
  destruct validation
    as [ | | | | current_balance payment_amount wallet_doc account_number | | | | ];
    try (left; reflexivity).
  rewrite (@bind_run _ _ _ _ _ _ _ (get_bearer_token_run w)).
  destruct (first_non_empty (credential_sources w)) as [[|c s]|] eqn:Htoken;
    cbn [Py.truthy negb]; try (left; reflexivity).
  destruct (_get_bank_code (VirtualPayment.destination_bank self) w)
    as [found wb] eqn:Hbank.
  assert (Hwb : wb = w).
  { pose proof (get_bank_code_reads (VirtualPayment.destination_bank self) w) as H.
    unfold final in H. rewrite Hbank in H. exact H. }
  subst wb.
  assert (Hfound :
    try_except
      (code <- _get_bank_code (VirtualPayment.destination_bank self) ;;
       ret (Some code))
      (fun _ => ret None) w
    = (Val (match found with Val code => Some code | Exc _ => None end), w)).
  { unfold try_except, bind, ret. rewrite Hbank. destruct found; reflexivity. }
  rewrite (@bind_run _ _ _ _ _ _ _ Hfound).
  destruct found as [bank_code|e]; [|left; reflexivity].
  cbn [Py.str].
  destruct (_process_payment_request self (String c s) bank_code payment_amount
              account_number w) as [payment_result w2] eqn:Hpay.
  assert (Hw2 : wallets w2 = wallets w).
  { pose proof (process_payment_request_uses_only_network self (String c s)
                  bank_code payment_amount account_number w) as H.
    unfold final in H. rewrite Hpay in H.
    apply only_network_used_site in H. exact (proj1 H). }
  destruct payment_result as [payment_result|e].
  - rewrite (@bind_run _ _ _ _ _ _ _ Hpay).
    destruct payment_result as [ | | | | | response_data | | | ];
      try (left; exact Hw2).
    rewrite (@bind_run _ _ _ _ _ _ _ (update_specific_wallet_balance_run wallet_doc
                             current_balance payment_amount w2)).
    right. exists wallet_doc, current_balance, payment_amount. split.
    + exists payment_wallet, account_number, (String c s), bank_code, response_data.
      unfold result.
      rewrite Hsel, Hverify, Hvalidate, get_bearer_token_run, Htoken, Hbank, Hpay.
      repeat split.
    + pose proof (record_transaction_keeps_wallets autoname self response_data
                    (set_wallets
                       (replace_wallet
                          (with_balance wallet_doc
                             (current_balance - payment_amount)%Q)
                          (wallets w2)) w2)) as Hrec.
      unfold final, same_wallets in Hrec. unfold bind, ret.
      destruct (record_transaction autoname self response_data _) as [[u|e] w4];
        cbn [snd] in *; rewrite Hrec; cbn [wallets set_wallets];
        rewrite Hw2; reflexivity.
  - rewrite (@bind_exc _ _ _ _ _ _ _ Hpay). left. exact Hw2.
Qed.

(** C1. In make_virtual_payment the wallet table is written only after the
    transfer has returned success.  Whenever PIN verification, balance
    validation, token resolution, bank-code resolution or the transfer
    request fails, the wallet table, and so every balance, is as it was; and
    whenever the wallet table has changed, every step up to the transfer
    succeeded, the gateway answered one of the at most three requests with a
    200, and the change is the debit of the validated wallet by the amount. *)
Theorem wallet_debited_only_after_transfer_success
    (get_decrypted_pin : PaymentPin.t -> Res (option string))
    (autoname : TransactionHistory.t -> list TransactionHistory.t -> string)
    (self : VirtualPayment.t) (transaction_pin virtual_wallet : option string)
    (w : World) :
  let w' := final (make_virtual_payment get_decrypted_pin autoname self
                     transaction_pin virtual_wallet) w in
  (forall payment_wallet,
     result (select_wallet virtual_wallet) w = Val (Some payment_wallet) ->
     success_of (result (verify_transaction_pin get_decrypted_pin payment_wallet
                           transaction_pin) w) = false
     \/ success_of (result (validate_balance_for_wallet self payment_wallet) w) = false
     \/ result _get_bearer_token w = Val None
     \/ (exists e,
           result (_get_bank_code (VirtualPayment.destination_bank self)) w = Exc e)
     \/ (forall current_balance payment_amount wallet_doc account_number
                bearer_token bank_code,
           result (validate_balance_for_wallet self payment_wallet) w
           = Val (BalanceValidated current_balance payment_amount wallet_doc
                    account_number) ->
           result _get_bearer_token w = Val (Some bearer_token) ->
           result (_get_bank_code (VirtualPayment.destination_bank self)) w
           = Val bank_code ->
           success_of (result (_process_payment_request self bearer_token bank_code
                                 payment_amount account_number) w) = false) ->
     wallets w' = wallets w)
  /\ (wallets w' <> wallets w ->
      exists wallet_doc current_balance payment_amount,
        transfer_succeeded get_decrypted_pin self transaction_pin virtual_wallet w
          wallet_doc current_balance payment_amount
        /\ wallets w'
           = replace_wallet
               (with_balance wallet_doc (current_balance - payment_amount)%Q)
               (wallets w)
        /\ exists k body,
             k < VirtualPayment.MAX_RETRIES
             /\ network w (requests_made w + k) = Response 200%Z body).
Proof.
  cbv zeta.
  destruct (make_virtual_payment_ledger get_decrypted_pin autoname self
              transaction_pin virtual_wallet w)
    as [Hsame | [wallet_doc [current_balance [payment_amount [Hok Hdebit]]]]].
  - split; [intros; exact Hsame | intros Hdiff; contradiction].
  - split.
    + intros payment_wallet Hsel Hfail. exfalso.
      destruct Hok as [pw [account [token [code [rd
        [Hsel' [Hverify [Hvalidate [Htoken [Hcode Hpay]]]]]]]]]].
      rewrite Hsel in Hsel'. injection Hsel' as <-.
      destruct Hfail as [H | [H | [H | [[e H] | H]]]].
      * rewrite Hverify in H. discriminate H.
      * rewrite Hvalidate in H. discriminate H.
      * rewrite Htoken in H. discriminate H.
      * rewrite Hcode in H. discriminate H.
      * specialize (H _ _ _ _ _ _ Hvalidate Htoken Hcode).
        rewrite Hpay in H. discriminate H.
    + intros _. exists wallet_doc, current_balance, payment_amount.
      split; [exact Hok|]. split; [exact Hdebit|].
      destruct Hok as [pw [account [token [code [rd
        [_ [_ [_ [_ [_ Hpay]]]]]]]]]].
      destruct (process_payment_request_spec self token code payment_amount
                  account w) as [n [_ [Hle [_ [_ [_ Hlast]]]]]].
      destruct (Hlast rd Hpay) as [Hn [body Hbody]].
      exists (n - 1), body. split; [unfold VirtualPayment.MAX_RETRIES; lia|].
      exact Hbody.
Qed.

(** A wrong PIN: the wallet table is as it was. *)
Lemma wallet_debited_only_after_transfer_success_witness :
  wallets (final (make_virtual_payment no_decryption name_by_reference
                    (payment_of (100 # 1)) (Some "0000") (Some "WALLET-1"))
                 (live_site [Response 200 accepted_body]))
  = [wallet_5000].
Proof.
  destruct (@wallet_debited_only_after_transfer_success no_decryption
              name_by_reference (payment_of (100 # 1)) (Some "0000")
              (Some "WALLET-1") (live_site [Response 200 accepted_body]))
    as [Hfail _].
  apply (Hfail "WALLET-1" eq_refl).
  left. reflexivity.
Defined.

(** The same payment with the right PIN: the transfer is accepted and the
    balance goes from 5000 to 4900. *)
Example payment_debits_after_success :
  let run := make_virtual_payment no_decryption name_by_reference
               (payment_of (100 # 1)) (Some "1234") (Some "WALLET-1") in
  let w := live_site [Response 200 accepted_body] in
  map VirtualWallet.balance (wallets (final run w)) = [(4900 # 1)%Q]
  /\ success_of (result run w) = true
  /\ map TransactionHistory.name (history (final run w)) = ["TRX-1"].
Proof. repeat split. Qed.

(** A gateway that refuses with a 400: nothing is debited. *)
Example refused_payment_does_not_debit :
  let run := make_virtual_payment no_decryption name_by_reference
               (payment_of (100 # 1)) (Some "1234") (Some "WALLET-1") in
  let w := live_site [Response 400 None] in
  wallets (final run w) = [wallet_5000]
  /\ result run w
     = Val (FailureWithStatus (PaymentFailedWithStatus 400) 400).
Proof. repeat split. Qed.

(** ** Transaction ledger *)

Lemma json_eqb_refl : forall j : json, Json.eqb j j = true.
Proof.
  fix IH 1.
  intros [| b | q | s | l | d]; cbn [Json.eqb].
  - reflexivity.
  - destruct b; reflexivity.
  - apply Qeq_bool_iff. reflexivity.
  - apply String.eqb_refl.
  - induction l as [|x l IHl]; [reflexivity|].
    rewrite (IH x). exact IHl.
  - induction d as [|[k x] d IHd]; [reflexivity|].
    rewrite String.eqb_refl, (IH x). exact IHd.
Qed.

Lemma find_app_none {A} (f : A -> bool) (l1 l2 : list A) :
  find f l1 = None -> find f (l1 ++ l2) = find f l2.
Proof.
  induction l1 as [|x l1 IH]; cbn [find app]; [reflexivity|].
  destruct (f x); [discriminate | exact IH].
Qed.

Lemma existsb_false_find {A} (f : A -> bool) (l : list A) :
  existsb f l = false -> find f l = None.
Proof.
  induction l as [|x l IH]; cbn [existsb find]; [reflexivity|].
  destruct (f x); [discriminate | exact IH].
Qed.

(** What create_transaction_record does, by cases: it returns the record
    found under the reference and writes nothing; or it appends a new
    record, under a name not taken, and returns it; or it returns None and
    writes nothing. *)
Lemma create_transaction_record_cases
    (autoname : TransactionHistory.t -> list TransactionHistory.t -> string)
    (transaction_data : json) (virtual_payment_name : option string) (w : World) :
  (exists ref found record,
      reference_of transaction_data = Some ref
      /\ find (fun d => Json.eqb (TransactionHistory.transaction_reference d) ref)
           (history w) = Some found
      /\ find (fun d => String.eqb (TransactionHistory.name d)
                          (TransactionHistory.name found)) (history w)
         = Some record
      /\ create_transaction_record autoname transaction_data virtual_payment_name w
         = (Val (Some record), w))
  \/ (exists ref record,
        reference_of transaction_data = Some ref
        /\ find (fun d => Json.eqb (TransactionHistory.transaction_reference d) ref)
             (history w) = None
        /\ TransactionHistory.transaction_reference record = ref
        /\ find (fun d => String.eqb (TransactionHistory.name d)
                            (TransactionHistory.name record)) (history w)
           = None
        /\ create_transaction_record autoname transaction_data virtual_payment_name w
           = (Val (Some record), set_history (history w ++ [record]) w))
  \/ create_transaction_record autoname transaction_data virtual_payment_name w
     = (Val None, w).
Proof.
  unfold create_transaction_record, reference_of.
  destruct transaction_data as [| b | q | s | l | fields];
    try (right; right; reflexivity).
  unfold dict_get, db_exists_history, get_history, frappe.utils_now. run.
  set (ref := match Json.assoc "transactionReference" fields with
              | Some v => v
              | None => JNull
              end).
  destruct (find (fun d => Json.eqb (TransactionHistory.transaction_reference d) ref)
              (history w)) as [found|] eqn:Hfound; cbn [option_map fst snd].
  - destruct (find (fun d => String.eqb (TransactionHistory.name d)
                               (TransactionHistory.name found)) (history w))
      as [record|] eqn:Hrecord; cbn [fst snd].
    + left. exists ref, found, record. repeat split; assumption.
    + right; right. reflexivity.
  - unfold insert_history, TransactionHistory_validate. run.
    cbn [with_name TransactionHistory.transaction_reference
         TransactionHistory.amount TransactionHistory.name].
    destruct (negb (Json.truthy ref)); cbn [fst snd];
      [right; right; reflexivity|].
    match goal with
    | |- context [existsb ?f (history w)] =>
        destruct (existsb f (history w)) eqn:Hname
    end.
    + right; right.
      destruct (match Json.assoc "amount" fields with
                | Some v => v
                | None => JNum 0
                end) as [| [|] | q | [|c s] | [|x l] | [|x l]];
        cbn [fst snd]; try reflexivity.
      destruct (Qeq_bool q 0 || Qle_bool q 0); reflexivity.
    + apply existsb_false_find in Hname.
      destruct (match Json.assoc "amount" fields with
                | Some v => v
                | None => JNum 0
                end) as [| [|] | q | [|c s] | [|x l] | [|x l]] eqn:Hamount;
        cbn [fst snd]; try (right; right; reflexivity).
      * right; left. exists ref. eexists.
        split; [reflexivity|]. split; [exact Hfound|].
        split; [|split]; [ | | reflexivity ].
        -- reflexivity.
        -- exact Hname.
      * destruct (Qeq_bool q 0 || Qle_bool q 0); cbn [fst snd];
          [right; right; reflexivity|].
        right; left. exists ref. eexists.
        split; [reflexivity|]. split; [exact Hfound|].
        split; [|split]; [ | | reflexivity ].
        -- reflexivity.
        -- exact Hname.
Qed.






(** ** Account resolution *)

Lemma verify_bank_account_200 (self : VirtualPayment.t)
    (bearer_token bank_code account_number : string) (doc : VirtualPayment.t)
    (w : World) (body : json) :
  network w (requests_made w) = Response 200%Z (Some body) ->
  account_name_absent_or_blank body ->
  success_of (result (_verify_bank_account self bearer_token bank_code
                        account_number doc) w) = false.
Proof.
  intros Hnet Hblank.
  unfold _verify_bank_account, http_request, response_json, dict_get, json_strip,
    db_set_payment. run. rewrite Hnet. cbn [Z.eqb Pos.eqb fst snd].
  unfold account_name_absent_or_blank, account_name_field in Hblank.
  destruct body as [| b | q | s | l | fields]; try reflexivity.
  destruct (Json.assoc "data" fields) as [[| b | q | s | l | data]|];
    cbn [fst snd Json.assoc]; try reflexivity.
  destruct (Json.assoc "accountName" data) as [[| b | q | s | l | d]|] eqn:Hname;
    cbn [fst snd]; try reflexivity.
  - destruct Hblank as [H | [s' [H Hs]]]; [discriminate|].
    injection H as <-. rewrite Hs.
    destruct (Json.assoc "bankName" data) as [[| b | q | s2 | l | d]|];
      reflexivity.
  - destruct (Json.assoc "bankName" data) as [[| b | q | s2 | l | d]|];
      reflexivity.
Qed.

Lemma verify_bank_account_not_200 (self : VirtualPayment.t)
    (bearer_token bank_code account_number : string) (doc : VirtualPayment.t)
    (w : World) (status_code : Z) (body : option json) :
  network w (requests_made w) = Response status_code body ->
  status_code <> 200%Z ->
  result (_verify_bank_account self bearer_token bank_code account_number doc) w
  = Val (Failure (VerificationFailedWithStatus status_code)).
Proof.
  intros Hnet Hstatus.
  unfold _verify_bank_account, http_request. run. rewrite Hnet.
  apply Z.eqb_neq in Hstatus. rewrite Hstatus. reflexivity.
Qed.

(** Before _verify_bank_account is called, process_bank_verification makes
    no request; it goes on to it only with an account number of at least 10
    characters. *)
Lemma process_bank_verification_cases (self : VirtualPayment.t) (w : World) :
  (exists error,
      result (process_bank_verification self) w = Val (Failure error)
      /\ requests_made (final (process_bank_verification self) w) = requests_made w)
  \/ (10 <= String.length (Py.str (VirtualPayment.destination_account_number self))
      /\ exists bearer_token bank_code doc w1,
           requests_made w1 = requests_made w
           /\ network w1 = network w
           /\ process_bank_verification self w
              = try_except
                  (_verify_bank_account self bearer_token bank_code
                     (Py.str (VirtualPayment.destination_account_number self)) doc)
                  (fun e => ret (Failure (VerificationError e))) w1).
Proof.
  unfold result, final.
  remember (process_bank_verification self w) as out eqn:Hout.
  unfold process_bank_verification, frappe.get_payment, db_set_payment in Hout.
  unfold try_except at 1 in Hout.
  unfold bind at 1 in Hout.
  destruct (find _ (payments w)) as [doc|];
    [|subst out; left; eexists; split; reflexivity].
  unfold bind at 1 in Hout.
  set (w1 := set_payments
               (replace_payment (with_destination_account_name doc (Some EmptyString))
                  (payments w)) w) in *.
  unfold bind at 1 in Hout. rewrite get_bearer_token_run in Hout.
  destruct (first_non_empty (credential_sources w1)) as [[|c s]|];
    cbn [Py.truthy negb] in Hout;
    try (subst out; left; eexists; split; reflexivity).
  unfold bind at 1 in Hout.
  destruct (_get_bank_code (VirtualPayment.destination_bank self) w1)
    as [found wb] eqn:Hbank.
  assert (Hwb : wb = w1).
  { pose proof (get_bank_code_reads (VirtualPayment.destination_bank self) w1) as H.
    unfold final in H. rewrite Hbank in H. exact H. }
  subst wb.
  assert (Hfound :
    try_except
      (code <- _get_bank_code (VirtualPayment.destination_bank self) ;;
       ret (Some code))
      (fun _ => ret None) w1
    = (Val (match found with Val code => Some code | Exc _ => None end), w1)).
  { unfold try_except, bind, ret. rewrite Hbank. destruct found; reflexivity. }
  rewrite Hfound in Hout.
  destruct found as [bank_code|e];
    [|subst out; left; eexists; split; reflexivity].
  destruct (String.length (Py.str (VirtualPayment.destination_account_number self))
            <? 10)%nat eqn:Hlen.
  - subst out. left. eexists. split; reflexivity.
  - right. apply Nat.ltb_ge in Hlen. split; [exact Hlen|].
    exists (Py.str (Some (String c s))), bank_code,
      (with_destination_account_name doc (Some EmptyString)), w1.
    split; [reflexivity|]. split; [reflexivity|].
    subst out. unfold try_except. reflexivity.
Qed.

(** C9. process_bank_verification rejects an account number shorter than
    10 characters without making any request; a 200 response whose
    accountName is absent or blank after trimming gives an error, not a
    success, from _verify_bank_account and from process_bank_verification;
    and a response that is not a 200 gives the failure that carries its
    status code. *)
Theorem account_verification_guards (self : VirtualPayment.t) (w : World) :
  (String.length (Py.str (VirtualPayment.destination_account_number self)) < 10 ->
   (exists error, result (process_bank_verification self) w = Val (Failure error))
   /\ requests_made (final (process_bank_verification self) w) = requests_made w)
  /\ (forall body,
        network w (requests_made w) = Response 200%Z (Some body) ->
        account_name_absent_or_blank body ->
        success_of (result (process_bank_verification self) w) = false
        /\ forall bearer_token bank_code account_number doc,
             success_of (result (_verify_bank_account self bearer_token bank_code
                                   account_number doc) w) = false)
  /\ (forall status_code body bearer_token bank_code account_number doc,
        network w (requests_made w) = Response status_code body ->
        status_code <> 200%Z ->
        result (_verify_bank_account self bearer_token bank_code account_number doc) w
        = Val (Failure (VerificationFailedWithStatus status_code))).
Proof.
  split; [|split].
  - intros Hshort.
    destruct (process_bank_verification_cases self w)
      as [[error [Hres Hreq]] | [Hlen _]]; [|lia].
    split; [exists error; exact Hres | exact Hreq].
  - intros body Hnet Hblank. split.
    + destruct (process_bank_verification_cases self w)
        as [[error [Hres _]]
           | [_ [token [code [doc [w1 [Hreq [Hnet1 E]]]]]]]].
      * rewrite Hres. reflexivity.
      * unfold result. rewrite E.
        assert (Hnet' : network w1 (requests_made w1) = Response 200%Z (Some body))
          by (rewrite Hnet1, Hreq; exact Hnet).
        pose proof (verify_bank_account_200 self token code
                      (Py.str (VirtualPayment.destination_account_number self))
                      doc w1 Hnet' Hblank) as H.
        unfold result, try_except, ret in *.
        destruct (_verify_bank_account self token code _ doc w1) as [[r|e] w2];
          cbn [fst] in *; [exact H | reflexivity].
    + intros token code account doc.
      apply (verify_bank_account_200 self token code account doc w Hnet Hblank).
  - intros status body token code account doc Hnet Hstatus.
    apply (verify_bank_account_not_200 self token code account doc w Hnet Hstatus).
Qed.

(** The scenario of the specification: the account number 81692469, of 8
    digits, is rejected before any request. *)
Lemma account_verification_guards_witness :
  let w := live_site [Response 200 accepted_body] in
  let run := process_bank_verification (payment_to (Some "81692469")) in
  result run w = Val (Failure InvalidAccountNumberFormat)
  /\ requests_made (final run w) = 0.
Proof.
  cbv zeta.
  destruct (@account_verification_guards (payment_to (Some "81692469"))
              (live_site [Response 200 accepted_body])) as [Hshort _].
  destruct (Hshort ltac:(cbn; lia)) as [_ Hreq].
  split; [reflexivity | exact Hreq].
Defined.

Example account_verification_succeeds :
  result (process_bank_verification (payment_to (Some "8169246969")))
    (live_site [Response 200
                  (Some (JDict [("data",
                                 JDict [("accountName", JStr " ADA OBI ");
                                        ("bankName", JStr "Bank A")])]))])
  = Val (AccountVerified "ADA OBI" "Bank A").
Proof. reflexivity. Qed.

Example account_verification_status_404 :
  result (process_bank_verification (payment_to (Some "8169246969")))
    (live_site [Response 404 None])
  = Val (Failure (VerificationFailedWithStatus 404)).
Proof. reflexivity. Qed.

(** ** Bank directory *)

Import BanksBController.

Lemma upsert_in (d : BanksB.t) (l : list BanksB.t) : In d (upsert d l).
Proof.
  induction l as [|x l IH]; cbn [upsert].
  - left. reflexivity.
  - destruct (String.eqb (BanksB.name x) (BanksB.name d)).
    + left. reflexivity.
    + right. exact IH.
Qed.

Lemma text_eqb_refl (v : option string) : text_eqb v v = true.
Proof. destruct v; [apply String.eqb_refl | reflexivity]. Qed.

(** Saving a bank record: a save that succeeds stores the bank name trimmed
    and the bank code trimmed and uppercased; and the save of a record that
    has a name and a code fails with the duplicate-code error whenever
    another bank record holds the code exactly as submitted, and writes
    nothing. *)
Lemma bank_save_normalizes_and_rejects_equal_code (self : BanksB.t) (w : World) :
  (forall doc w',
     save self w = (Val doc, w') ->
     BanksB.bank_name doc = option_map Py.strip (BanksB.bank_name self)
     /\ BanksB.bank_code doc
        = option_map (fun code => Py.upper (Py.strip code)) (BanksB.bank_code self)
     /\ In doc (banks w'))
  /\ (forall other code,
        In other (banks w) ->
        BanksB.name other <> BanksB.name self ->
        BanksB.bank_code other = Some code ->
        BanksB.bank_code self = Some code ->
        Py.truthy (BanksB.bank_name self) = true ->
        Py.truthy (BanksB.bank_code self) = true ->
        save self w
        = (Exc (ValidationError ("Bank with code " ++ code ++ " already exists")), w)).
Proof.
  split.
  - intros doc w' Hsave.
    unfold save, validate, other_bank_with_code in Hsave. run.
    destruct (BanksB.bank_name self) as [[|c1 s1]|] eqn:Hname;
      cbn [Py.truthy negb] in Hsave; try discriminate.
    destruct (BanksB.bank_code self) as [[|c2 s2]|] eqn:Hcode;
      cbn [Py.truthy negb] in Hsave; try discriminate.
    destruct (find _ (banks w)); cbn [option_map fst snd] in Hsave;
      [discriminate|].
    injection Hsave as <- <-.
    unfold before_save. rewrite Hname, Hcode.
    cbn [BanksB.bank_name BanksB.bank_code option_map].
    repeat split. cbn [banks set_banks]. apply upsert_in.
  - intros other code Hin Hother Hcode_other Hcode Hname Htruthy.
    unfold save, validate, other_bank_with_code. run.
    rewrite Hname, Htruthy. cbn [negb].
    destruct (find (fun d => text_eqb (BanksB.bank_code d) (BanksB.bank_code self)
                             && negb (String.eqb (BanksB.name d) (BanksB.name self)))
                (banks w)) as [d|] eqn:Hfind; cbn [option_map fst snd].
    + rewrite Hcode. reflexivity.
    + exfalso. apply (find_none _ _ Hfind) in Hin.
      rewrite Hcode_other, Hcode, text_eqb_refl in Hin.
      destruct (String.eqb_spec (BanksB.name other) (BanksB.name self));
        [contradiction | discriminate].
Qed.

(** The scenario of the specification: 100004 is the code of Bank A, and
    Bank B is saved with the code 100004. *)
Example bank_save_rejects_registered_code :
  save (bank_b "100004") (site [] [] [bank_a] [])
  = (Exc (ValidationError "Bank with code 100004 already exists"),
     site [] [] [bank_a] []).
Proof. reflexivity. Qed.

Example bank_save_normalizes :
  result (save (BanksB.mk "Bank C" (Some "  Bank C ") (Some " gtb01 ")))
         (site [] [] [bank_a] [])
  = Val (BanksB.mk "Bank C" (Some "Bank C") (Some "GTB01")).
Proof. reflexivity. Qed.

(** C7, at the input where the code departs from it.  The code 100004 is
    registered for Bank A, and Bank B is saved with that code preceded by a
    blank.  The duplicate check of validate reads the code as submitted, so
    it finds no other bank with it; before_save then normalizes the code to
    100004; the save succeeds, and two bank records hold the same bank code
    100004. *)
Theorem bank_save_accepts_duplicate_of_normalized_code :
  let w := site [] [] [bank_a] [] in
  result (save (bank_b " 100004")) w
  = Val (BanksB.mk "Bank B" (Some "Bank B") (Some "100004"))
  /\ map (fun d => (BanksB.name d, BanksB.bank_code d))
       (banks (final (save (bank_b " 100004")) w))
     = [("Bank A", Some "100004"); ("Bank B", Some "100004")].
Proof. split; reflexivity. Qed.

(** * Further properties *)

(** ** The transfer request: validation *)

(** The two ways of _process_payment_request: the validation lists at least
    one issue and nothing is sent, or every field is in order and the loop
    runs. *)
Lemma process_payment_request_gate (self : VirtualPayment.t)
    (bearer_token bank_code : string) (payment_amount : Q)
    (account_number : string) (w : World) :
  exists destination_bank_code,
    resolve_destination_bank_code self w = (Val destination_bank_code, w)
    /\ ((request_issues self destination_bank_code <> []
         /\ _process_payment_request self bearer_token bank_code payment_amount
              account_number w
            = (Val (Failure (RequestValidationFailed
                               (request_issues self destination_bank_code))), w))
        \/ (request_issues self destination_bank_code = []
            /\ Py.truthy destination_bank_code = true
            /\ Py.truthy (VirtualPayment.destination_account_number self) = true
            /\ String.length
                 (Py.str (VirtualPayment.destination_account_number self)) = 10
            /\ (0 < VirtualPayment.amount self)%Q
            /\ _process_payment_request self bearer_token bank_code payment_amount
                 account_number w
               = transfer_loop VirtualPayment.MAX_RETRIES 0 w)).
Proof.
  destruct (resolve_destination_bank_code_reads self w) as [code Hcode].
  exists code. split; [exact Hcode|].
  unfold _process_payment_request, bind. rewrite Hcode.
  fold (request_issues self code).
  destruct (request_issues self code) as [|issue issues] eqn:Hissues.
  - right. split; [reflexivity|].
    unfold request_issues, account_number_not_10 in Hissues.
    destruct (Py.truthy code); cbn [negb app] in Hissues; [|discriminate].
    destruct (Py.truthy (VirtualPayment.destination_account_number self));
      cbn [negb app] in Hissues; [|discriminate].
    destruct (Qeq_bool (VirtualPayment.amount self) 0
              || Qle_bool (VirtualPayment.amount self) 0) eqn:Hamount;
      cbn [app] in Hissues; [discriminate|].
    destruct (String.length
                (Py.str (VirtualPayment.destination_account_number self)) =? 10)%nat
      eqn:Hlen; cbn [negb] in Hissues; [|discriminate].
    apply orb_false_iff in Hamount. destruct Hamount as [_ Hle].
    apply Qle_bool_false in Hle. apply Nat.eqb_eq in Hlen.
    repeat split; try assumption.
    rewrite truthy_or_. cbn [Py.truthy andb negb orb].
    rewrite orb_true_r. reflexivity.
  - left. split; [discriminate | reflexivity].
Qed.

(** The replies of the loop, whatever the gateway does. *)
Lemma handle_payment_response_replies (response : Z * option json) (attempt : nat) :
  ensures (fun r => r = RetryReply \/ loop_reply r)
    (_handle_payment_response response attempt).
Proof.
  unfold _handle_payment_response, loop_reply.
  destruct response as [status_code body].
  destruct (status_code =? 200)%Z.
  - repeat ensure_step;
      first [ right; left; eexists; reflexivity
            | right; right; right; left; reflexivity ].
  - destruct (_ && _).
    + apply ensures_ret. left. reflexivity.
    + apply ensures_bind. intros error. apply ensures_ret.
      right. right. left. eexists. eexists. reflexivity.
Qed.

Lemma attempt_transfer_replies (attempt : nat) :
  ensures (fun step => step = Continue \/ exists r, step = Return r /\ loop_reply r)
    (attempt_transfer attempt).
Proof.
  unfold attempt_transfer, backoff.
  apply ensures_try_except.
  - apply ensures_bind. intros response.
    eapply ensures_bind_with;
      [apply (handle_payment_response_replies response attempt)|].
    intros reply [-> | Hreply]; cbn [get_retry].
    + repeat ensure_step. left. reflexivity.
    + destruct (get_retry reply).
      * repeat ensure_step. left. reflexivity.
      * apply ensures_ret. right. exists reply. split; [reflexivity | exact Hreply].
  - intros e. unfold loop_reply.
    destruct e; try apply ensures_raise;
      (destruct (_ <? _)%nat;
       [ repeat ensure_step; left; reflexivity
       | apply ensures_ret; right; eexists; split; [reflexivity|] ]).
    + right. right. right. left. reflexivity.
    + right. right. right. right. left. eexists. reflexivity.
    + right. right. right. right. right. left. eexists. reflexivity.
Qed.

Lemma transfer_loop_replies (remaining attempt : nat) :
  ensures loop_reply (transfer_loop remaining attempt).
Proof.
  revert attempt. induction remaining as [|remaining IH]; intros attempt;
    cbn [transfer_loop].
  - apply ensures_ret. unfold loop_reply. repeat right. reflexivity.
  - eapply ensures_bind_with; [apply (attempt_transfer_replies attempt)|].
    intros step [-> | [r [-> Hr]]].
    + apply IH.
    + apply ensures_ret. exact Hr.
Qed.

(** A float that is neither at most 0 nor above 0 is NaN. *)
Lemma float_unordered_is_nan (x : Float.t) :
  Float.le_bool x (Float.Number 0) = false ->
  Float.gt_bool x (Float.Number 0) = false ->
  x = Float.NaN.
Proof.
  destruct x as [a | | |]; cbn [Float.le_bool Float.gt_bool]; try discriminate;
    [|reflexivity].
  intros ->. discriminate.
Qed.

(** The three ways of _process_payment_request on floats: the validation
    lists at least one issue; or every field passes it and the amount is
    NaN, which the second check stops; or every field is in order and the
    loop runs.  Only the third sends anything. *)
Lemma float_request_gate (self : VirtualPayment.t) (amount : Float.t)
    (bearer_token bank_code : string) (payment_amount : Float.t)
    (account_number : string) (w : World) :
  let run := Float._process_payment_request self amount bearer_token bank_code
               payment_amount account_number in
  exists destination_bank_code,
    resolve_destination_bank_code self w = (Val destination_bank_code, w)
    /\ ((Float.request_issues self amount destination_bank_code <> []
         /\ run w
            = (Val (Float.Refused
                      (Float.request_issues self amount destination_bank_code)), w))
        \/ (Float.request_issues self amount destination_bank_code = []
            /\ Py.truthy destination_bank_code = true
            /\ Py.truthy (VirtualPayment.destination_account_number self) = true
            /\ String.length
                 (Py.str (VirtualPayment.destination_account_number self)) = 10
            /\ Float.truthy amount = true
            /\ Float.le_bool amount (Float.Number 0) = false
            /\ ((amount = Float.NaN
                 /\ run w = (Val (Float.FieldsMissing []), w))
                \/ (Float.gt_bool amount (Float.Number 0) = true
                    /\ run w
                       = match transfer_loop VirtualPayment.MAX_RETRIES 0 w with
                         | (Val reply, w') => (Val (Float.Attempted reply), w')
                         | (Exc e, w') => (Exc e, w')
                         end)))).
Proof.
  cbv zeta.
  destruct (resolve_destination_bank_code_reads self w) as [code Hcode].
  exists code. split; [exact Hcode|].
  remember (Float._process_payment_request self amount bearer_token bank_code
              payment_amount account_number w) as out eqn:Hout.
  unfold Float._process_payment_request in Hout. unfold bind at 1 in Hout.
  rewrite Hcode in Hout.
  fold (Float.request_issues self amount code) in Hout.
  destruct (Float.request_issues self amount code) as [|issue issues] eqn:Hissues;
    [|left; split; [discriminate | exact Hout]].
  right. split; [reflexivity|].
  unfold Float.request_issues, account_number_not_10 in Hissues.
  destruct (Py.truthy code) eqn:Hc; cbn [negb app] in Hissues; [|discriminate].
  destruct (Py.truthy (VirtualPayment.destination_account_number self)) eqn:Ha;
    cbn [negb app] in Hissues; [|discriminate].
  destruct (negb (Float.truthy amount) || Float.le_bool amount (Float.Number 0))
    eqn:Hamount; cbn [app] in Hissues; [discriminate|].
  destruct (String.length
              (Py.str (VirtualPayment.destination_account_number self)) =? 10)%nat
    eqn:Hlen; cbn [negb] in Hissues; [|discriminate].
  apply orb_false_iff in Hamount. destruct Hamount as [Htruthy Hle].
  apply negb_false_iff in Htruthy. apply Nat.eqb_eq in Hlen.
  refine (conj eq_refl (conj eq_refl (conj Hlen (conj Htruthy (conj Hle _))))).
  rewrite truthy_or_, Htruthy in Hout.
  cbn [Py.truthy andb negb orb app] in Hout.
  rewrite orb_true_r in Hout. cbn [andb] in Hout.
  destruct (Float.gt_bool amount (Float.Number 0)) eqn:Hgt;
    cbn [andb negb] in Hout.
  - right. split; [reflexivity|]. unfold bind, ret in Hout.
    destruct (transfer_loop VirtualPayment.MAX_RETRIES 0 w) as [[reply|e] w'];
      exact Hout.
  - left. split; [exact (float_unordered_is_nan amount Hle Hgt) | exact Hout].
Qed.

(** On numbers _process_payment_request on floats is the one above. *)
Lemma float_request_on_numbers (self : VirtualPayment.t)
    (bearer_token bank_code : string) (payment_amount : Q)
    (float_payment_amount : Float.t) (account_number : string) (w : World) :
  Float._process_payment_request self (Float.Number (VirtualPayment.amount self))
    bearer_token bank_code float_payment_amount account_number w
  = match _process_payment_request self bearer_token bank_code payment_amount
            account_number w with
    | (Val reply, w') => (Val (Float.of_reply reply), w')
    | (Exc e, w') => (Exc e, w')
    end.
Proof.
  destruct (resolve_destination_bank_code_reads self w) as [code Hcode].
  unfold Float._process_payment_request, _process_payment_request.
  unfold bind at 1. unfold bind at 2. rewrite Hcode.
  cbn [Float.truthy Float.le_bool Float.gt_bool].
  rewrite negb_involutive, truthy_or_. cbn [Py.truthy].
  rewrite orb_true_r.
  destruct (account_number_not_10 (VirtualPayment.destination_account_number self));
    destruct (Py.truthy code);
    destruct (Py.truthy (VirtualPayment.destination_account_number self));
    destruct (Qeq_bool (VirtualPayment.amount self) 0) eqn:Hzero;
    destruct (Qle_bool (VirtualPayment.amount self) 0) eqn:Hle;
    cbn [negb app andb orb map Float.of_issue Float.of_reply];
    try reflexivity.
  unfold bind, ret.
  destruct (transfer_loop VirtualPayment.MAX_RETRIES 0 w) as [[reply|e] w'] eqn:Hloop;
    [|reflexivity].
  assert (Hshape : loop_reply reply).
  { apply (transfer_loop_replies VirtualPayment.MAX_RETRIES 0 w).
    unfold result. rewrite Hloop. reflexivity. }
  unfold loop_reply in Hshape.
  destruct Hshape as [[x ->] | [[x [y ->]] | [-> | [-> | [[x ->] | [[x ->] | ->]]]]]];
    reflexivity.
Qed.

(** X1. _process_payment_request, with the amount as the Python float it
    is, sends a request only when the payment has a bank code, an account
    number of exactly 10 characters and an amount above 0.  A missing bank
    code, an account number that is missing or not of 10 characters, and an
    amount that is zero or at most 0 are each refused by the validation,
    with that issue on the list whatever else is wrong, and nothing is
    sent.  The missing-fields reply of the second check is returned only
    for an amount that is NaN, with an empty list of fields and nothing
    sent; and it is returned for such an amount when the bank code and the
    account number are in order. *)
Theorem process_payment_request_validation (self : VirtualPayment.t)
    (amount : Float.t) (bearer_token bank_code : string)
    (payment_amount : Float.t) (account_number : string) (w : World) :
  let run := Float._process_payment_request self amount bearer_token bank_code
               payment_amount account_number in
  let account := VirtualPayment.destination_account_number self in
  (requests_made (final run w) <> requests_made w ->
   Py.truthy account = true
   /\ String.length (Py.str account) = 10
   /\ Float.gt_bool amount (Float.Number 0) = true
   /\ exists code,
        result (resolve_destination_bank_code self) w = Val code
        /\ Py.truthy code = true)
  /\ (Float.truthy amount = false \/ Float.le_bool amount (Float.Number 0) = true ->
      exists issues,
        run w = (Val (Float.Refused issues), w)
        /\ In (Float.InvalidAmount amount) issues)
  /\ (String.length (Py.str account) <> 10 \/ Py.truthy account = false ->
      exists issues,
        run w = (Val (Float.Refused issues), w)
        /\ In (Float.AccountNot10 account) issues)
  /\ (forall code,
        result (resolve_destination_bank_code self) w = Val code ->
        Py.truthy code = false ->
        exists issues,
          run w = (Val (Float.Refused issues), w) /\ In Float.NoBankCode issues)
  /\ (forall fields,
        result run w = Val (Float.FieldsMissing fields) ->
        amount = Float.NaN /\ fields = [] /\ final run w = w)
  /\ (forall code,
        amount = Float.NaN ->
        result (resolve_destination_bank_code self) w = Val code ->
        Py.truthy code = true ->
        Py.truthy account = true ->
        String.length (Py.str account) = 10 ->
        run w = (Val (Float.FieldsMissing []), w)).
Proof.
  cbv zeta.
  destruct (float_request_gate self amount bearer_token bank_code payment_amount
              account_number w)
    as [code [Hcode [[Hissues E]
                    | [Hnone [Hc [Hacc [Hlen [Htruthy [Hle [[Hnan E] | [Hgt E]]]]]]]]]]];
    cbv zeta in E.
  - (* refused by the validation *)
    refine (conj _ (conj _ (conj _ (conj _ (conj _ _))))).
    + intros Hreq. exfalso. apply Hreq. unfold final. rewrite E. reflexivity.
    + intros Hbad. eexists. split; [exact E|].
      unfold Float.request_issues. apply in_or_app. right.
      apply in_or_app. right. apply in_or_app. left.
      destruct Hbad as [Hbad | Hbad]; rewrite Hbad;
        [|rewrite orb_true_r]; left; reflexivity.
    + intros Hbad. eexists. split; [exact E|].
      unfold Float.request_issues. apply in_or_app. right.
      apply in_or_app. right. apply in_or_app. right.
      unfold account_number_not_10.
      destruct Hbad as [Hbad | Hbad].
      * apply Nat.eqb_neq in Hbad. rewrite Hbad.
        destruct (Py.truthy _); left; reflexivity.
      * rewrite Hbad. left. reflexivity.
    + intros code' Hres Hfalsy. unfold result in Hres. rewrite Hcode in Hres.
      injection Hres as <-. eexists. split; [exact E|].
      unfold Float.request_issues. apply in_or_app. left.
      rewrite Hfalsy. left. reflexivity.
    + intros fields H. unfold result in H. rewrite E in H. discriminate H.
    + intros code' Hnan Hres Hc Hacc Hlen. exfalso. apply Hissues.
      unfold result in Hres. rewrite Hcode in Hres. injection Hres as <-.
      unfold Float.request_issues, account_number_not_10.
      rewrite Hc, Hacc, Hnan, Hlen. reflexivity.
  - (* stopped by the second check *)
    refine (conj _ (conj _ (conj _ (conj _ (conj _ _))))).
    + intros Hreq. exfalso. apply Hreq. unfold final. rewrite E. reflexivity.
    + intros [Hbad | Hbad]; congruence.
    + intros [Hbad | Hbad]; [contradiction | congruence].
    + intros code' Hres Hfalsy. unfold result in Hres. rewrite Hcode in Hres.
      injection Hres as <-. congruence.
    + intros fields H. unfold result, final in *. rewrite E in *.
      injection H as <-. repeat split. exact Hnan.
    + intros. exact E.
  - (* in order *)
    refine (conj _ (conj _ (conj _ (conj _ (conj _ _))))).
    + intros _. repeat split; try assumption.
      exists code. unfold result. rewrite Hcode. split; [reflexivity | exact Hc].
    + intros [Hbad | Hbad]; congruence.
    + intros [Hbad | Hbad]; [contradiction | congruence].
    + intros code' Hres Hfalsy. unfold result in Hres. rewrite Hcode in Hres.
      injection Hres as <-. congruence.
    + intros fields H. unfold result in H. rewrite E in H.
      destruct (transfer_loop VirtualPayment.MAX_RETRIES 0 w) as [[reply|e] w'];
        discriminate H.
    + intros code' Hnan. rewrite Hnan in Hgt. discriminate Hgt.
Qed.

(** A payment in order but for its amount, which is NaN: the second check
    stops it, and the list of missing fields is empty. *)
Lemma process_payment_request_validation_witness :
  Float._process_payment_request (payment_to (Some "8169246969")) Float.NaN
    "token" "100004" Float.NaN "9000136910"
    (live_site [Response 200 accepted_body])
  = (Val (Float.FieldsMissing []), live_site [Response 200 accepted_body]).
Proof.
  destruct (@process_payment_request_validation (payment_to (Some "8169246969"))
              Float.NaN "token" "100004" Float.NaN "9000136910"
              (live_site [Response 200 accepted_body]))
    as (_ & _ & _ & _ & _ & Hnan).
  apply (Hnan (Some "100004")); reflexivity.
Defined.

(** ** The transfer request: exhaustion *)

(** After two attempts that are retried, the world before the third. *)
Lemma transfer_loop_after_two_retries (w : World) :
  retryable (network w (requests_made w)) = true ->
  retryable (network w (S (requests_made w))) = true ->
  transfer_loop VirtualPayment.MAX_RETRIES 0 w
  = transfer_loop 1 2
      (set_slept (slept w ++ [2; 5]%Z)%list
         (set_requests_made (S (S (requests_made w))) w)).
Proof.
  intros H0 H1. unfold VirtualPayment.MAX_RETRIES.
  rewrite transfer_loop_unfold.
  pose proof (attempt_transfer_step 0 w) as Hs. cbv zeta in Hs.
  rewrite H0 in Hs. cbn [andb Nat.ltb Nat.leb] in Hs.
  destruct Hs as [delay [Hdelay ->]].
  cbn in Hdelay. injection Hdelay as <-.
  rewrite transfer_loop_unfold.
  pose proof (attempt_transfer_step 1
                (set_slept (slept w ++ [2%Z])%list
                   (set_requests_made (S (requests_made w)) w))) as Hs.
  cbv zeta in Hs.
  cbn [network requests_made slept set_slept set_requests_made] in Hs.
  rewrite H1 in Hs. cbn [andb Nat.ltb Nat.leb] in Hs.
  destruct Hs as [delay [Hdelay ->]].
  cbn in Hdelay. injection Hdelay as <-.
  f_equal. destruct w. cbn. rewrite <- app_assoc. reflexivity.
Qed.

(** X2. When the first two attempts of a well-formed transfer are retried,
    the third attempt is the last whatever it does: three requests are
    made and the sleeps are 2 and 5.  If the third attempt raises a
    timeout, a connection error or another request exception, the reply is
    that fault's own failure (timed out, connection error, network error);
    if it is answered 502, the reply is not a success, and with a body
    that is not JSON it is the failure carrying status 502. *)
Theorem transfer_exhaustion (self : VirtualPayment.t)
    (bearer_token bank_code : string) (payment_amount : Q)
    (account_number : string) (w : World) :
  well_formed_request self ->
  retryable (network w (requests_made w)) = true ->
  retryable (network w (S (requests_made w))) = true ->
  let run := _process_payment_request self bearer_token bank_code
               payment_amount account_number in
  requests_made (final run w) = requests_made w + 3
  /\ slept (final run w) = (slept w ++ [2; 5]%Z)%list
  /\ (forall e reply,
        network w (S (S (requests_made w))) = Raises e ->
        fault_reply e = Some reply ->
        result run w = Val reply)
  /\ (forall body,
        network w (S (S (requests_made w))) = Response 502%Z body ->
        success_of (result run w) = false
        /\ (body = None ->
            result run w
            = Val (FailureWithStatus (PaymentFailedWithStatus 502) 502))).
Proof.
  intros Hwf H0 H1. cbv zeta.
  unfold final, result.
  rewrite (well_formed_request_reaches_loop bearer_token bank_code payment_amount
             account_number w Hwf).
  rewrite (transfer_loop_after_two_retries w H0 H1).
  set (w2 := set_slept (slept w ++ [2; 5]%Z)%list
               (set_requests_made (S (S (requests_made w))) w)).
  assert (Hnet : network w2 (requests_made w2) = network w (S (S (requests_made w))))
    by reflexivity.
  rewrite transfer_loop_unfold.
  split; [|split; [|split]].
  - pose proof (attempt_transfer_step 2 w2) as Hs. cbv zeta in Hs.
    cbn [Nat.ltb Nat.leb] in Hs. rewrite andb_false_r in Hs.
    destruct Hs as [r [-> [Hc _]]].
    destruct r as [[reply|]|e]; [| contradiction |]; cbn [snd];
      subst w2; cbn [requests_made set_slept set_requests_made]; lia.
  - pose proof (attempt_transfer_step 2 w2) as Hs. cbv zeta in Hs.
    cbn [Nat.ltb Nat.leb] in Hs. rewrite andb_false_r in Hs.
    destruct Hs as [r [-> [Hc _]]].
    destruct r as [[reply|]|e]; [| contradiction |]; reflexivity.
  - intros e reply He Hreply.
    unfold attempt_transfer, http_request. run. rewrite Hnet, He.
    destruct e; cbn [fault_reply] in Hreply; try discriminate;
      injection Hreply as <-; reflexivity.
  - intros body Hbody.
    unfold attempt_transfer, http_request, _handle_payment_response, response_json.
    run. rewrite Hnet, Hbody. cbn [Z.eqb Pos.eqb andb Nat.ltb Nat.leb Nat.sub
                                  VirtualPayment.MAX_RETRIES].
    split.
    + destruct body as [[| b | q | s | l | fields]|]; try reflexivity.
      destruct (Json.assoc "message" fields); reflexivity.
    + intros ->. reflexivity.
Qed.

(** Three timeouts in a row. *)
Lemma transfer_exhaustion_witness :
  let w := with_network (scripted [Raises Timeout; Raises Timeout; Raises Timeout])
             (site [wallet_5000] [pin_1234] [] []) in
  let run := _process_payment_request (payment_of (100 # 1)) "token" "100004"
               (100 # 1) "9000136910" in
  result run w = Val (Failure RequestTimedOut)
  /\ requests_made (final run w) = 3
  /\ slept (final run w) = [2; 5]%Z.
Proof.
  cbv zeta.
  assert (Hwf : well_formed_request (payment_of (100 # 1))).
  { unfold well_formed_request. repeat split. }
  destruct (@transfer_exhaustion (payment_of (100 # 1)) "token" "100004"
              (100 # 1) "9000136910"
              (with_network
                 (scripted [Raises Timeout; Raises Timeout; Raises Timeout])
                 (site [wallet_5000] [pin_1234] [] []))
              Hwf eq_refl eq_refl) as [Hreq [Hslept [Hfault _]]].
  split; [exact (Hfault Timeout _ eq_refl eq_refl)|].
  split; [exact Hreq | exact Hslept].
Defined.

(** ** make_virtual_payment: the reply and the ledger together *)

Lemma validate_balance_for_wallet_replies (self : VirtualPayment.t)
    (wallet_name : string) :
  ensures validation_reply (validate_balance_for_wallet self wallet_name).
Proof.
  unfold validate_balance_for_wallet, validation_reply.
  repeat ensure_step;
    first [ left; eexists; reflexivity
          | right; do 4 eexists; reflexivity ].
Qed.

Lemma process_payment_request_replies (self : VirtualPayment.t)
    (bearer_token bank_code : string) (payment_amount : Q)
    (account_number : string) :
  ensures transfer_reply
    (_process_payment_request self bearer_token bank_code payment_amount
       account_number).
Proof.
  intros w reply Hreply. unfold transfer_reply.
  destruct (process_payment_request_gate self bearer_token bank_code
              payment_amount account_number w)
    as [code [_ [[_ E] | [_ [_ [_ [_ [_ E]]]]]]]];
    unfold result in Hreply; rewrite E in Hreply.
  - right. cbn [fst] in Hreply. injection Hreply as <-. eexists. reflexivity.
  - left. apply (transfer_loop_replies VirtualPayment.MAX_RETRIES 0 w Hreply).
Qed.

Lemma first_non_empty_truthy (sources : list (option string)) (token : string) :
  first_non_empty sources = Some token -> Py.truthy (Some token) = true.
Proof.
  unfold first_non_empty. intros H.
  destruct (find Py.truthy sources) as [v|] eqn:Hfind; [|discriminate].
  apply find_some in Hfind. destruct Hfind as [_ Hv]. subst v. exact Hv.
Qed.

Lemma reader_run {A} (c : M A) (w : World) (a : A) :
  preserves eq c -> result c w = Val a -> c w = (Val a, w).
Proof.
  intros Hp Hr. specialize (Hp w). unfold result, final in *.
  destruct (c w) as [r w1]. cbn [fst snd] in *. congruence.
Qed.

Lemma select_wallet_run (virtual_wallet : option string) (w : World)
    (selected : option string) :
  result (select_wallet virtual_wallet) w = Val selected ->
  select_wallet virtual_wallet w = (Val selected, w).
Proof.
  intros H. destruct (select_wallet_reads virtual_wallet w) as [s E].
  unfold result in H. rewrite E in *. cbn [fst] in H. congruence.
Qed.

Lemma get_bank_code_run (bank_name : option string) (w : World) (r : Res string) :
  result (_get_bank_code bank_name) w = r -> _get_bank_code bank_name w = (r, w).
Proof.
  intros H. pose proof (get_bank_code_reads bank_name w) as Hw.
  unfold result, final in *.
  destruct (_get_bank_code bank_name w) as [r' w']. cbn [fst snd] in *. congruence.
Qed.

(** make_virtual_payment once the transfer is accepted: the wallet is
    debited, the transaction is recorded, and the reply is the completed
    payment, or a payment error when recording raises. *)
Lemma make_virtual_payment_after_transfer
    (get_decrypted_pin : PaymentPin.t -> Res (option string))
    (autoname : TransactionHistory.t -> list TransactionHistory.t -> string)
    (self : VirtualPayment.t) (transaction_pin virtual_wallet : option string)
    (w w2 : World) (payment_wallet : string) (wallet_doc : VirtualWallet.t)
    (current_balance payment_amount : Q) (account_number bearer_token : string)
    (bank_code : string) (response_data : json) :
  result (select_wallet virtual_wallet) w = Val (Some payment_wallet) ->
  Py.truthy transaction_pin = true ->
  result (verify_transaction_pin get_decrypted_pin payment_wallet transaction_pin) w
  = Val PinVerified ->
  result (validate_balance_for_wallet self payment_wallet) w
  = Val (BalanceValidated current_balance payment_amount wallet_doc account_number) ->
  result _get_bearer_token w = Val (Some bearer_token) ->
  result (_get_bank_code (VirtualPayment.destination_bank self)) w = Val bank_code ->
  _process_payment_request self bearer_token bank_code payment_amount
    account_number w
  = (Val (TransferAccepted response_data), w2) ->
  make_virtual_payment get_decrypted_pin autoname self transaction_pin
    virtual_wallet w
  = match record_transaction autoname self response_data
            (debited wallet_doc current_balance payment_amount w2) with
    | (Val _, w4) =>
        (Val (PaymentCompleted (current_balance - payment_amount)%Q response_data
                payment_wallet), w4)
    | (Exc e, w4) => (Val (Failure (PaymentError e)), w4)
    end.
Proof.
  intros Hsel Hpin Hverify Hvalidate Htoken Hcode Hpay.
  apply select_wallet_run in Hsel.
  apply (@reader_run _ _ _ _
           (verify_transaction_pin_preserves get_decrypted_pin
              payment_wallet transaction_pin)) in Hverify.
  apply (@reader_run _ _ _ _
           (validate_balance_for_wallet_preserves self payment_wallet))
    in Hvalidate.
  apply get_bank_code_run in Hcode.
  unfold result in Htoken. rewrite get_bearer_token_run in Htoken.
  cbn [fst] in Htoken. injection Htoken as Htoken.
  pose proof (first_non_empty_truthy _ Htoken) as Htruthy.
  unfold make_virtual_payment, try_except at 1.
  rewrite (@bind_run _ _ _ _ _ _ _ Hsel).
  rewrite Hpin. cbn [negb].
  rewrite (@bind_run _ _ _ _ _ _ _ Hverify). cbn [success negb].
  rewrite (@bind_run _ _ _ _ _ _ _ Hvalidate).
  rewrite (@bind_run _ _ _ _ _ _ _ (get_bearer_token_run w)).
  rewrite Htoken, Htruthy. cbn [negb Py.str].
  assert (Hfound :
    try_except
      (code <- _get_bank_code (VirtualPayment.destination_bank self) ;;
       ret (Some code))
      (fun _ => ret None) w
    = (Val (Some bank_code), w)).
  { unfold try_except, bind, ret. rewrite Hcode. reflexivity. }
  rewrite (@bind_run _ _ _ _ _ _ _ Hfound).
  rewrite (@bind_run _ _ _ _ _ _ _ Hpay).
  rewrite (@bind_run _ _ _ _ _ _ _
             (update_specific_wallet_balance_run wallet_doc current_balance
                payment_amount w2)).
  unfold bind, ret, debited.
  destruct (record_transaction autoname self response_data _) as [[u|e] w4];
    reflexivity.
Qed.

(** A completed payment went through every step. *)
Lemma make_virtual_payment_completed
    (get_decrypted_pin : PaymentPin.t -> Res (option string))
    (autoname : TransactionHistory.t -> list TransactionHistory.t -> string)
    (self : VirtualPayment.t) (transaction_pin virtual_wallet : option string)
    (w : World) (new_balance : Q) (response_data : json) (payment_wallet : string) :
  result (make_virtual_payment get_decrypted_pin autoname self transaction_pin
            virtual_wallet) w
  = Val (PaymentCompleted new_balance response_data payment_wallet) ->
  exists wallet_doc current_balance payment_amount account_number bearer_token
         bank_code w2,
    result (select_wallet virtual_wallet) w = Val (Some payment_wallet)
    /\ Py.truthy transaction_pin = true
    /\ result (verify_transaction_pin get_decrypted_pin payment_wallet
                 transaction_pin) w = Val PinVerified
    /\ result (validate_balance_for_wallet self payment_wallet) w
       = Val (BalanceValidated current_balance payment_amount wallet_doc
                account_number)
    /\ result _get_bearer_token w = Val (Some bearer_token)
    /\ result (_get_bank_code (VirtualPayment.destination_bank self)) w
       = Val bank_code
    /\ _process_payment_request self bearer_token bank_code payment_amount
         account_number w
       = (Val (TransferAccepted response_data), w2)
    /\ new_balance = (current_balance - payment_amount)%Q.
Proof.
  unfold result at 1. unfold make_virtual_payment, try_except at 1.
  destruct (select_wallet_reads virtual_wallet w) as [selected Hsel].
  rewrite (@bind_run _ _ _ _ _ _ _ Hsel).
  destruct selected as [pw|]; [|intros H; discriminate H].
  destruct (Py.truthy transaction_pin) eqn:Hpin; cbn [negb];
    [|intros H; discriminate H].
  destruct (run_reader w
              (verify_transaction_pin_preserves get_decrypted_pin pw transaction_pin)
              (verify_transaction_pin_returns get_decrypted_pin pw transaction_pin))
    as [reply Hverify].
  rewrite (@bind_run _ _ _ _ _ _ _ Hverify).
  assert (Hshape : pin_reply reply).
  { apply (verify_transaction_pin_replies get_decrypted_pin pw transaction_pin w).
    unfold result. rewrite Hverify. reflexivity. }
  destruct Hshape as [-> | [error ->]]; cbn [success negb];
    [|intros H; discriminate H].
  destruct (run_reader w (validate_balance_for_wallet_preserves self pw)
              (validate_balance_for_wallet_returns self pw))
    as [validation Hvalidate].
  rewrite (@bind_run _ _ _ _ _ _ _ Hvalidate).
  assert (Hvshape : validation_reply validation).
  { apply (validate_balance_for_wallet_replies self pw w).
    unfold result. rewrite Hvalidate. reflexivity. }
  destruct Hvshape as [[error ->] | [cb [pa [wd [acct ->]]]]];
    [intros H; discriminate H|].
  rewrite (@bind_run _ _ _ _ _ _ _ (get_bearer_token_run w)).
  destruct (first_non_empty (credential_sources w)) as [[|c s]|] eqn:Htoken;
    cbn [Py.truthy negb]; try (intros H; discriminate H).
  destruct (_get_bank_code (VirtualPayment.destination_bank self) w)
    as [found wb] eqn:Hbank.
  assert (Hwb : wb = w).
  { pose proof (get_bank_code_reads (VirtualPayment.destination_bank self) w) as H.
    unfold final in H. rewrite Hbank in H. exact H. }
  subst wb.
  assert (Hfound :
    try_except
      (code <- _get_bank_code (VirtualPayment.destination_bank self) ;;
       ret (Some code))
      (fun _ => ret None) w
    = (Val (match found with Val code => Some code | Exc _ => None end), w)).
  { unfold try_except, bind, ret. rewrite Hbank. destruct found; reflexivity. }
  rewrite (@bind_run _ _ _ _ _ _ _ Hfound).
  destruct found as [bank_code|e]; [|intros H; discriminate H].
  cbn [Py.str].
  destruct (_process_payment_request self (String c s) bank_code pa acct w)
    as [payment_result w2] eqn:Hpay.
  destruct payment_result as [payment_result|e].
  - rewrite (@bind_run _ _ _ _ _ _ _ Hpay).
    assert (Hpshape : transfer_reply payment_result).
    { apply (process_payment_request_replies self (String c s) bank_code pa acct w).
      unfold result. rewrite Hpay. reflexivity. }
    destruct Hpshape
      as [[[rd ->] | [[m [st ->]] | [-> | [-> | [[e ->] | [[e ->] | ->]]]]]]
         | [issues ->]];
      try (intros H; discriminate H).
    rewrite (@bind_run _ _ _ _ _ _ _
               (update_specific_wallet_balance_run wd cb pa w2)).
    unfold bind, ret.
    destruct (record_transaction autoname self rd _) as [[u|e] w4];
      cbn [fst]; intros H; [|discriminate H].
    injection H as <- <- <-.
    exists wd, cb, pa, acct, (String c s), bank_code, w2.
    unfold result.
    rewrite Hsel, Hverify, Hvalidate, get_bearer_token_run, Htoken, Hbank.
    repeat split; try reflexivity; exact Hpay.
  - rewrite (@bind_exc _ _ _ _ _ _ _ Hpay). intros H. discriminate H.
Qed.

Lemma replace_wallet_names (d : VirtualWallet.t) (l : list VirtualWallet.t) :
  map VirtualWallet.name (replace_wallet d l) = map VirtualWallet.name l.
Proof.
  induction l as [|x l IH]; cbn [replace_wallet map]; [reflexivity|].
  destruct (String.eqb_spec (VirtualWallet.name x) (VirtualWallet.name d)) as [E|E];
    cbn [map]; [rewrite E; reflexivity | rewrite IH; reflexivity].
Qed.

(** What validate_balance_for_wallet has validated. *)
Lemma validate_balance_for_wallet_validated (self : VirtualPayment.t)
    (wallet_name : string) (w : World) (current_balance payment_amount : Q)
    (wallet_doc : VirtualWallet.t) (account_number : string) :
  result (validate_balance_for_wallet self wallet_name) w
  = Val (BalanceValidated current_balance payment_amount wallet_doc account_number) ->
  find_wallet wallet_name w = Some wallet_doc
  /\ current_balance = VirtualWallet.balance wallet_doc
  /\ payment_amount = VirtualPayment.amount self
  /\ (0 < payment_amount)%Q
  /\ (payment_amount <= current_balance)%Q.
Proof.
  unfold validate_balance_for_wallet, find_wallet, frappe.get_wallet. run.
  destruct (find _ (wallets w)) as [d|]; cbn [fst snd]; [|discriminate].
  destruct (Qle_bool (VirtualPayment.amount self) 0) eqn:Epos; cbn [fst];
    [discriminate|].
  unfold Qgt_bool.
  destruct (Qle_bool (VirtualPayment.amount self) (VirtualWallet.balance d)) eqn:Ele;
    cbn [negb fst]; [|discriminate].
  intros H. injection H as <- <- <- _.
  repeat split.
  - apply Qle_bool_false. exact Epos.
  - apply Qle_bool_iff. exact Ele.
Qed.

(** X3. A payment that make_virtual_payment reports as completed is on the
    ledger as reported: the wallet used existed, the amount was above 0 and
    at most its balance, the new balance reported is the old balance minus
    the amount and is not negative, the stored balance of the wallet is the
    new balance, and check_wallet_balance, asked about the same wallet
    afterwards, reports that balance. *)
Theorem completed_payment_is_on_the_ledger
    (get_decrypted_pin : PaymentPin.t -> Res (option string))
    (autoname : TransactionHistory.t -> list TransactionHistory.t -> string)
    (self : VirtualPayment.t) (transaction_pin virtual_wallet : option string)
    (w : World) (new_balance : Q) (response_data : json) (payment_wallet : string) :
  result (make_virtual_payment get_decrypted_pin autoname self transaction_pin
            virtual_wallet) w
  = Val (PaymentCompleted new_balance response_data payment_wallet) ->
  let w' := final (make_virtual_payment get_decrypted_pin autoname self
                     transaction_pin virtual_wallet) w in
  exists wallet_doc,
    find_wallet payment_wallet w = Some wallet_doc
    /\ (0 < VirtualPayment.amount self)%Q
    /\ (VirtualPayment.amount self <= VirtualWallet.balance wallet_doc)%Q
    /\ new_balance
       = (VirtualWallet.balance wallet_doc - VirtualPayment.amount self)%Q
    /\ (0 <= new_balance)%Q
    /\ find_wallet payment_wallet w' = Some (with_balance wallet_doc new_balance)
    /\ result (check_wallet_balance virtual_wallet) w'
       = Val (BalanceReport new_balance payment_wallet).
Proof.
  intros Hdone. cbv zeta.
  destruct (make_virtual_payment_completed _ _ _ _ _ _ Hdone)
    as [wd [cb [pa [acct [token [code [w2
         [Hsel [Hpin [Hverify [Hvalidate [Htoken [Hcode [Hpay Hnew]]]]]]]]]]]]]].
  destruct (validate_balance_for_wallet_validated _ _ _ Hvalidate)
    as [Hfind [Hcb [Hpa [Hpos Hle]]]].
  subst cb pa new_balance.
  exists wd.
  assert (Hw2 : wallets w2 = wallets w).
  { pose proof (process_payment_request_uses_only_network self token code
                  (VirtualPayment.amount self) acct w) as H.
    unfold final in H. rewrite Hpay in H.
    apply only_network_used_site in H. exact (proj1 H). }
  assert (Hwallets :
    wallets (final (make_virtual_payment get_decrypted_pin autoname self
                      transaction_pin virtual_wallet) w)
    = replace_wallet
        (with_balance wd
           (VirtualWallet.balance wd - VirtualPayment.amount self)%Q)
        (wallets w)).
  { unfold final.
    rewrite (@make_virtual_payment_after_transfer get_decrypted_pin autoname self
               transaction_pin virtual_wallet w w2 payment_wallet wd _ _ acct
               token code response_data Hsel Hpin Hverify Hvalidate Htoken
               Hcode Hpay).
    pose proof (record_transaction_keeps_wallets autoname self response_data
                  (debited wd (VirtualWallet.balance wd)
                     (VirtualPayment.amount self) w2)) as Hrec.
    unfold final, same_wallets in Hrec.
    destruct (record_transaction autoname self response_data _) as [[u|e] w4];
      cbn [snd] in *; rewrite Hrec; unfold debited; cbn [wallets set_wallets];
      rewrite Hw2; reflexivity. }
  assert (Hname : String.eqb (VirtualWallet.name wd) payment_wallet = true).
  { unfold find_wallet in Hfind. apply find_some in Hfind. exact (proj2 Hfind). }
  assert (Hfind' :
    find_wallet payment_wallet
      (final (make_virtual_payment get_decrypted_pin autoname self
                transaction_pin virtual_wallet) w)
    = Some (with_balance wd
              (VirtualWallet.balance wd - VirtualPayment.amount self)%Q)).
  { unfold find_wallet in *. rewrite Hwallets, find_replace_wallet.
    cbn [with_balance VirtualWallet.name]. rewrite Hname, Hfind. reflexivity. }
  split; [exact Hfind|]. split; [exact Hpos|]. split; [exact Hle|].
  split; [reflexivity|]. split; [lra|]. split; [exact Hfind'|].
  (* check_wallet_balance on the same selection *)
  set (w' := final (make_virtual_payment get_decrypted_pin autoname self
                      transaction_pin virtual_wallet) w) in *.
  assert (Hselect :
    (if negb (Py.truthy virtual_wallet) then
       wallet_list <- frappe.list_wallets_limit_1 ;;
       match wallet_list with
       | [] => ret None
       | first :: _ => ret (Some first)
       end
     else ret (Some (Py.str virtual_wallet))) w'
    = (Val (Some payment_wallet), w')).
  { unfold result, select_wallet, frappe.list_wallets_limit_1 in *. run.
    destruct virtual_wallet as [[|c s]|]; cbn [Py.truthy negb Py.str fst] in *.
    - rewrite Hwallets, replace_wallet_names.
      destruct (firstn 1 (map VirtualWallet.name (wallets w))); cbn [fst] in *;
        congruence.
    - congruence.
    - rewrite Hwallets, replace_wallet_names.
      destruct (firstn 1 (map VirtualWallet.name (wallets w))); cbn [fst] in *;
        congruence. }
  unfold result, check_wallet_balance. unfold try_except at 1.
  rewrite (@bind_run _ _ _ _ _ _ _ Hselect).
  unfold find_wallet in Hfind'. unfold frappe.get_wallet. run.
  rewrite Hfind'. reflexivity.
Qed.

Lemma completed_payment_is_on_the_ledger_witness :
  let run := make_virtual_payment no_decryption name_by_reference
               (payment_of (100 # 1)) (Some "1234") None in
  let w := live_site [Response 200 accepted_body] in
  result (check_wallet_balance None) (final run w)
  = Val (BalanceReport (4900 # 1) "WALLET-1").
Proof.
  cbv zeta.
  destruct (@completed_payment_is_on_the_ledger no_decryption name_by_reference
              (payment_of (100 # 1)) (Some "1234") None
              (live_site [Response 200 accepted_body])
              (4900 # 1)%Q
              (JDict [("transactionReference", JStr "TRX-1");
                      ("amount", JNum (100 # 1))])
              "WALLET-1" eq_refl)
    as [wd [_ [_ [_ [_ [_ [_ H]]]]]]].
  exact H.
Defined.

(** X4. Once the transfer is accepted the debit stands, whatever happens
    to the record keeping.  The wallet is debited before the transaction is
    recorded; when recording raises, make_virtual_payment still returns,
    but with the payment-error failure: this happens when the response data
    is not a JSON object, and when it carries a reference while the payment
    document is not in the database.  Otherwise the reply is the completed
    payment. *)
Theorem debit_stands_when_recording_fails
    (get_decrypted_pin : PaymentPin.t -> Res (option string))
    (autoname : TransactionHistory.t -> list TransactionHistory.t -> string)
    (self : VirtualPayment.t) (transaction_pin virtual_wallet : option string)
    (w w2 : World) (payment_wallet : string) (wallet_doc : VirtualWallet.t)
    (current_balance payment_amount : Q) (account_number bearer_token : string)
    (bank_code : string) (response_data : json) :
  result (select_wallet virtual_wallet) w = Val (Some payment_wallet) ->
  Py.truthy transaction_pin = true ->
  result (verify_transaction_pin get_decrypted_pin payment_wallet transaction_pin) w
  = Val PinVerified ->
  result (validate_balance_for_wallet self payment_wallet) w
  = Val (BalanceValidated current_balance payment_amount wallet_doc account_number) ->
  result _get_bearer_token w = Val (Some bearer_token) ->
  result (_get_bank_code (VirtualPayment.destination_bank self)) w = Val bank_code ->
  _process_payment_request self bearer_token bank_code payment_amount
    account_number w
  = (Val (TransferAccepted response_data), w2) ->
  let run := make_virtual_payment get_decrypted_pin autoname self transaction_pin
               virtual_wallet in
  find_wallet payment_wallet (final run w)
  = Some (with_balance wallet_doc (current_balance - payment_amount)%Q)
  /\ (result run w
      = Val (PaymentCompleted (current_balance - payment_amount)%Q response_data
               payment_wallet)
      \/ exists e, result run w = Val (Failure (PaymentError e)))
  /\ ((forall fields, response_data <> JDict fields) ->
      result run w
      = Val (Failure (PaymentError (AttributeError "object has no attribute 'get'"))))
  /\ (forall fields reference,
        response_data = JDict fields ->
        Json.assoc "transactionReference" fields = Some reference ->
        Json.truthy reference = true ->
        find (fun d => String.eqb (VirtualPayment.name d) (VirtualPayment.name self))
          (payments w) = None ->
        result run w
        = Val (Failure (PaymentError
                          (DoesNotExistError "Virtual Payment"
                             (Some (VirtualPayment.name self)))))
        /\ history (final run w) = history w).
Proof.
  intros Hsel Hpin Hverify Hvalidate Htoken Hcode Hpay. cbv zeta.
  pose proof (@make_virtual_payment_after_transfer get_decrypted_pin autoname self
                transaction_pin virtual_wallet w w2 payment_wallet wallet_doc
                current_balance payment_amount account_number bearer_token
                bank_code response_data Hsel Hpin Hverify Hvalidate Htoken
                Hcode Hpay) as Hrun.
  destruct (validate_balance_for_wallet_validated _ _ _ Hvalidate)
    as [Hfind [Hcb [Hpa _]]].
  pose proof (process_payment_request_uses_only_network self bearer_token
                bank_code payment_amount account_number w) as Honly.
  unfold final in Honly. rewrite Hpay in Honly. cbn [snd] in Honly.
  apply only_network_used_site in Honly.
  destruct Honly as [Hw2 [_ [_ [Hh2 [Hp2 _]]]]].
  pose proof (record_transaction_keeps_wallets autoname self response_data
                (debited wallet_doc current_balance payment_amount w2)) as Hrec.
  unfold final, same_wallets in Hrec.
  unfold final, result. rewrite Hrun.
  split; [|split; [|split]].
  - assert (Hname : String.eqb (VirtualWallet.name wallet_doc) payment_wallet = true).
    { unfold find_wallet in Hfind. apply find_some in Hfind. exact (proj2 Hfind). }
    unfold find_wallet in *.
    destruct (record_transaction autoname self response_data _) as [[u|e] w4];
      cbn [snd] in *; rewrite Hrec; unfold debited; cbn [wallets set_wallets];
      rewrite Hw2, find_replace_wallet; cbn [with_balance VirtualWallet.name];
      rewrite Hname, Hfind; reflexivity.
  - destruct (record_transaction autoname self response_data _) as [[u|e] w4];
      [left; reflexivity | right; eexists; reflexivity].
  - intros Hnot. unfold record_transaction, dict_get. unfold bind at 1.
    destruct response_data as [| b | q | s | l | fields]; try reflexivity.
    exfalso. apply (Hnot fields). reflexivity.
  - intros fields reference -> Href Htruthy Hmissing.
    unfold record_transaction, dict_get, frappe.get_payment. run.
    rewrite Href, Htruthy.
    unfold debited. cbn [payments set_wallets]. rewrite Hp2, Hmissing.
    cbn [fst snd history set_wallets]. split; [reflexivity | exact Hh2].
Qed.

(** A gateway that accepts the transfer and answers with data that is
    null: the reply is a payment error and the balance is 4900. *)
Lemma debit_stands_when_recording_fails_witness :
  let run := make_virtual_payment no_decryption name_by_reference
               (payment_of (100 # 1)) (Some "1234") (Some "WALLET-1") in
  let w := live_site [Response 200 (Some (JDict [("data", JNull)]))] in
  option_map VirtualWallet.balance (find_wallet "WALLET-1" (final run w))
  = Some (4900 # 1)%Q
  /\ result run w
     = Val (Failure (PaymentError (AttributeError "object has no attribute 'get'"))).
Proof.
  cbv zeta.
  destruct (@debit_stands_when_recording_fails no_decryption name_by_reference
              (payment_of (100 # 1)) (Some "1234") (Some "WALLET-1")
              (live_site [Response 200 (Some (JDict [("data", JNull)]))])
              (set_requests_made 1
                 (live_site [Response 200 (Some (JDict [("data", JNull)]))]))
              "WALLET-1" wallet_5000 (5000 # 1) (100 # 1) "9000136910" "secret"
              "100004" JNull
              eq_refl eq_refl eq_refl eq_refl eq_refl eq_refl eq_refl)
    as [Hfind [_ [Hnot _]]].
  split.
  - rewrite Hfind. reflexivity.
  - apply Hnot. intros fields. discriminate.
Defined.

(** *** Changing the PIN *)

Lemma find_replace_pin (d : PaymentPin.t) (n : string) (l : list PaymentPin.t) :
  find (fun x => String.eqb (PaymentPin.name x) n) (replace_pin d l)
  = if String.eqb (PaymentPin.name d) n
    then match find (fun x => String.eqb (PaymentPin.name x) n) l with
         | Some _ => Some d
         | None => None
         end
    else find (fun x => String.eqb (PaymentPin.name x) n) l.
Proof.
  induction l as [|x rest IH]; cbn [replace_pin find].
  - destruct (String.eqb _ n); reflexivity.
  - destruct (String.eqb_spec (PaymentPin.name x) (PaymentPin.name d)) as [E|E].
    + cbn [find]. rewrite E.
      destruct (String.eqb (PaymentPin.name d) n); reflexivity.
    + cbn [find]. rewrite IH.
      destruct (String.eqb_spec (PaymentPin.name d) n) as [F|F];
        destruct (String.eqb_spec (PaymentPin.name x) n) as [G|G];
        try reflexivity.
      exfalso. apply E. congruence.
Qed.

(** Saving a PIN document with another PIN leaves the answer of the
    wallet's PIN query as it was. *)
Lemma list_pins_replace_pin (x : PaymentPin.t) (p : option string)
    (l : list PaymentPin.t) (wallet_name : string) :
  find (fun d => String.eqb (PaymentPin.name d) (PaymentPin.name x)) l = Some x ->
  map PaymentPin.name
    (filter (fun q => String.eqb (PaymentPin.wallet q) wallet_name)
       (replace_pin (with_pin x p) l))
  = map PaymentPin.name
      (filter (fun q => String.eqb (PaymentPin.wallet q) wallet_name) l).
Proof.
  induction l as [|y rest IH]; cbn [replace_pin find filter]; [reflexivity|].
  cbn [with_pin PaymentPin.name].
  destruct (String.eqb (PaymentPin.name y) (PaymentPin.name x)).
  - intros Hy. injection Hy as ->. cbn [filter with_pin PaymentPin.wallet].
    destruct (String.eqb (PaymentPin.wallet x) wallet_name); reflexivity.
  - intros Hfind. cbn [filter].
    destruct (String.eqb (PaymentPin.wallet y) wallet_name); cbn [map];
      rewrite (IH Hfind); reflexivity.
Qed.

Lemma replace_pin_names (d : PaymentPin.t) (l : list PaymentPin.t) :
  map PaymentPin.name (replace_pin d l) = map PaymentPin.name l.
Proof.
  induction l as [|x rest IH]; cbn [replace_pin map]; [reflexivity|].
  destruct (String.eqb_spec (PaymentPin.name x) (PaymentPin.name d)) as [E|E];
    cbn [map]; congruence.
Qed.

(** What a successful verify_and_update_pin has read and written. *)
Lemma verify_and_update_pin_updated (wallet_name : string)
    (current_pin new_pin : option string) (w : World) :
  result (verify_and_update_pin wallet_name current_pin new_pin) w = Val PinUpdated ->
  exists first rest pin_doc,
    result (frappe.list_pins wallet_name) w = Val (first :: rest)
    /\ find (fun d => String.eqb (PaymentPin.name d) first) (pins w) = Some pin_doc
    /\ Py.str (PaymentPin.pin pin_doc) = Py.str current_pin
    /\ final (verify_and_update_pin wallet_name current_pin new_pin) w
       = set_pins (replace_pin (with_pin pin_doc new_pin) (pins w)) w.
Proof.
  unfold verify_and_update_pin, frappe.list_pins, frappe.get_pin, save_pin. run.
  destruct (map PaymentPin.name _) as [|first rest] eqn:Hlist; cbn [fst snd];
    [discriminate|].
  destruct (find _ (pins w)) as [pin_doc|] eqn:Hfind; cbn [fst snd]; [|discriminate].
  destruct (String.eqb_spec (Py.str (PaymentPin.pin pin_doc)) (Py.str current_pin))
    as [E|E]; cbn [negb fst snd]; [|discriminate].
  intros _. exists first, rest, pin_doc. repeat split; assumption || reflexivity.
Qed.

(** X5. Changing the PIN and then paying with it.  After a successful
    verify_and_update_pin with a non-empty new PIN, verify_transaction_pin
    for the same wallet (which exists and whose role the caller has) accepts
    exactly the attempts that equal the new PIN after trimming and rejects
    every other attempt as incorrect, the old PIN included; the stored PIN
    documents keep their names and the wallets are untouched. *)
Theorem pin_update_round_trip
    (get_decrypted_pin : PaymentPin.t -> Res (option string))
    (w : World) (wallet_name : string) (wallet_doc : VirtualWallet.t)
    (current_pin new_pin : option string) :
  result (verify_and_update_pin wallet_name current_pin new_pin) w = Val PinUpdated ->
  find_wallet wallet_name w = Some wallet_doc ->
  lacks_required_role wallet_doc w = false ->
  Py.truthy new_pin = true ->
  let w' := final (verify_and_update_pin wallet_name current_pin new_pin) w in
  (forall attempt,
     result (verify_transaction_pin get_decrypted_pin wallet_name attempt) w'
     = Val (if trimmed_equal attempt new_pin then PinVerified
            else Failure IncorrectPin))
  /\ map PaymentPin.name (pins w') = map PaymentPin.name (pins w)
  /\ wallets w' = wallets w.
Proof.
  intros Hupdated Hwallet Hrole Hnew. cbv zeta.
  destruct (verify_and_update_pin_updated _ _ _ _ Hupdated)
    as (first & rest & pin_doc & Hlist & Hfind & _ & ->).
  unfold frappe.list_pins, result in Hlist. cbn [fst] in Hlist.
  injection Hlist as Hlist.
  assert (Hname : PaymentPin.name pin_doc = first).
  { apply find_some in Hfind. apply String.eqb_eq. exact (proj2 Hfind). }
  split; [|split].
  - intros attempt.
    unfold verify_transaction_pin, lacks_required_role, trimmed_equal,
      frappe.list_pins_limit_1, frappe.list_pins, frappe.get_roles,
      frappe.get_wallet, frappe.get_pin, find_wallet in *. run.
    cbn [wallets pins user_roles set_pins].
    rewrite Hwallet. cbn [fst snd].
    assert (Hpins :
      map PaymentPin.name
        (filter (fun p => String.eqb (PaymentPin.wallet p) wallet_name)
           (replace_pin (with_pin pin_doc new_pin) (pins w)))
      = first :: rest).
    { rewrite list_pins_replace_pin; [exact Hlist|].
      rewrite Hname. exact Hfind. }
    destruct (VirtualWallet.role wallet_doc) as [[|c s]|];
      cbn [user_roles set_pins];
      try rewrite Hrole; cbn [negb fst snd wallets pins user_roles set_pins];
      rewrite Hpins; cbn [firstn fst snd pins set_pins];
      rewrite find_replace_pin; cbn [with_pin PaymentPin.name];
      rewrite Hname, String.eqb_refl, Hfind; cbn [fst snd with_pin PaymentPin.pin];
      rewrite Hnew; cbn [fst snd];
      destruct (String.eqb _ _); reflexivity.
  - cbn [pins set_pins]. apply replace_pin_names.
  - reflexivity.
Qed.

(** The PIN 1234 is changed to 9999 (stored with a trailing blank): 9999 is
    accepted and 1234 no longer is. *)
Lemma pin_update_round_trip_witness :
  let w' := final (verify_and_update_pin "WALLET-1" (Some "1234") (Some "9999 "))
              (site [wallet_5000] [pin_1234] [] []) in
  result (verify_transaction_pin no_decryption "WALLET-1" (Some "9999")) w'
  = Val PinVerified
  /\ result (verify_transaction_pin no_decryption "WALLET-1" (Some "1234")) w'
     = Val (Failure IncorrectPin).
Proof.
  cbv zeta.
  destruct (@pin_update_round_trip no_decryption
              (site [wallet_5000] [pin_1234] [] []) "WALLET-1" wallet_5000
              (Some "1234") (Some "9999 ") eq_refl eq_refl eq_refl eq_refl)
    as [Hverify _].
  split.
  - rewrite (Hverify (Some "9999")). reflexivity.
  - rewrite (Hverify (Some "1234")). reflexivity.
Defined.

(** *** Updating the status of a transaction *)

Lemma validate_reads (d : TransactionHistory.t) (w : World) :
  TransactionHistory_validate d w = (Val tt, w)
  \/ exists e, TransactionHistory_validate d w = (Exc e, w).
Proof.
  unfold TransactionHistory_validate. run.
  destruct (negb _); [right; eexists; reflexivity|].
  destruct (TransactionHistory.amount d) as [| [|] | q | [|c s] | [|x l] | [|x l]];
    try (left; reflexivity); try (right; eexists; reflexivity).
  destruct (Qeq_bool q 0 || Qle_bool q 0);
    [right; eexists; reflexivity | left; reflexivity].
Qed.

Lemma validate_any_world (d : TransactionHistory.t) (w : World) :
  TransactionHistory_validate d w = (Val tt, w) -> passes_validation d.
Proof.
  unfold passes_validation, TransactionHistory_validate. run.
  intros H w0. revert H.
  destruct (negb _); [discriminate|].
  destruct (TransactionHistory.amount d) as [| [|] | q | [|c s] | [|x l] | [|x l]];
    try discriminate; try reflexivity.
  destruct (Qeq_bool q 0 || Qle_bool q 0); [discriminate | reflexivity].
Qed.

Lemma validate_updated_doc (old : TransactionHistory.t) (status : string)
    (api_response : json) :
  TransactionHistory_validate (updated_doc old status api_response)
  = TransactionHistory_validate old.
Proof.
  unfold updated_doc, TransactionHistory_validate.
  destruct (Json.truthy api_response); reflexivity.
Qed.

Lemma status_updated_refl (d : TransactionHistory.t) : status_updated d d.
Proof. destruct d. reflexivity. Qed.

Lemma status_updated_doc (old : TransactionHistory.t) (status : string)
    (api_response : json) :
  status_updated old (updated_doc old status api_response).
Proof.
  unfold status_updated, updated_doc.
  destruct (Json.truthy api_response); destruct old; reflexivity.
Qed.

Lemma status_updated_name (old new : TransactionHistory.t) :
  status_updated old new -> TransactionHistory.name new = TransactionHistory.name old.
Proof. intros <-. reflexivity. Qed.

Lemma find_replace_history (d : TransactionHistory.t) (n : string)
    (l : list TransactionHistory.t) :
  find (fun x => String.eqb (TransactionHistory.name x) n) (replace_history d l)
  = if String.eqb (TransactionHistory.name d) n
    then match find (fun x => String.eqb (TransactionHistory.name x) n) l with
         | Some _ => Some d
         | None => None
         end
    else find (fun x => String.eqb (TransactionHistory.name x) n) l.
Proof.
  induction l as [|x rest IH]; cbn [replace_history find].
  - destruct (String.eqb _ n); reflexivity.
  - destruct (String.eqb_spec (TransactionHistory.name x) (TransactionHistory.name d))
      as [E|E].
    + cbn [find]. rewrite E.
      destruct (String.eqb (TransactionHistory.name d) n); reflexivity.
    + cbn [find]. rewrite IH.
      destruct (String.eqb_spec (TransactionHistory.name d) n) as [F|F];
        destruct (String.eqb_spec (TransactionHistory.name x) n) as [G|G];
        try reflexivity.
      exfalso. apply E. congruence.
Qed.

(** Writing back a document that differs from the stored one in its status
    and response only leaves every other row as it is, and that row with
    the same name, reference, amount and the rest. *)
Lemma replace_history_status_updated (old d : TransactionHistory.t)
    (l : list TransactionHistory.t) :
  find (fun x => String.eqb (TransactionHistory.name x) (TransactionHistory.name d)) l
  = Some old ->
  status_updated old d ->
  Forall2 status_updated l (replace_history d l).
Proof.
  intros Hfind Hupd.
  induction l as [|x rest IH]; cbn [replace_history find] in *; [constructor|].
  destruct (String.eqb (TransactionHistory.name x) (TransactionHistory.name d)).
  - injection Hfind as ->. constructor; [exact Hupd|].
    clear. induction rest; constructor; [apply status_updated_refl | assumption].
  - constructor; [apply status_updated_refl | exact (IH Hfind)].
Qed.

Lemma Forall2_status_updated_refl (l : list TransactionHistory.t) :
  Forall2 status_updated l l.
Proof. induction l; constructor; [apply status_updated_refl | assumption]. Qed.

(** What update_status does, by cases: it returns None and writes nothing;
    or it writes back the first record of the reference, as found under its
    name, with the new status (and the response, when there is one), and
    returns it. *)
Lemma update_status_cases (transaction_reference : json) (status : string)
    (api_response : json) (w : World) :
  update_status transaction_reference status api_response w = (Val None, w)
  \/ exists found old,
       find (fun d => Json.eqb (TransactionHistory.transaction_reference d)
                        transaction_reference) (history w) = Some found
       /\ find (fun d => String.eqb (TransactionHistory.name d)
                           (TransactionHistory.name found)) (history w) = Some old
       /\ passes_validation old
       /\ update_status transaction_reference status api_response w
          = (Val (Some (updated_doc old status api_response)),
             set_history
               (replace_history (updated_doc old status api_response) (history w)) w).
Proof.
  remember (update_status transaction_reference status api_response w) as out
    eqn:Hout.
  unfold update_status, db_exists_history, get_history, save_history in Hout.
  unfold try_except, bind, ret, raise, get_world, put_world in Hout.
  destruct (find (fun d => Json.eqb (TransactionHistory.transaction_reference d)
                             transaction_reference) (history w))
    as [found|] eqn:Hfound; cbn [option_map Py.truthy Py.str] in Hout;
    [|left; exact Hout].
  destruct (TransactionHistory.name found) as [|c s] eqn:Hname;
    [left; exact Hout|].
  destruct (find (fun d => String.eqb (TransactionHistory.name d) (String c s))
              (history w)) as [old|] eqn:Hold; [|left; exact Hout].
  change (if Json.truthy api_response
          then with_api_response (with_status old status) api_response
          else with_status old status)
    with (updated_doc old status api_response) in Hout.
  rewrite validate_updated_doc in Hout.
  destruct (validate_reads old w) as [Hv | [e Hv]]; rewrite Hv in Hout.
  - right. exists found, old.
    split; [reflexivity|]. split; [rewrite Hname; exact Hold|].
    split; [eapply validate_any_world; exact Hv|]. exact Hout.
  - left. exact Hout.
Qed.

(** X6. update_status writes at most one row, and of that row the status
    and the stored response only.  It never raises.  When it returns None
    nothing is written, and it returns None when no record has the
    reference.  When it returns a document, that document has the status
    asked for, it is what the table then holds under its name, and the
    table is the old one with that row written back; every record keeps its
    name, reference, payment, date, amount and destination. *)
Theorem update_status_writes_one_row (transaction_reference : json)
    (status : string) (api_response : json) (w : World) :
  let run := update_status transaction_reference status api_response in
  (exists outcome, result run w = Val outcome)
  /\ only_history_written w (final run w)
  /\ Forall2 status_updated (history w) (history (final run w))
  /\ (result run w = Val None -> final run w = w)
  /\ (find (fun d => Json.eqb (TransactionHistory.transaction_reference d)
                       transaction_reference) (history w) = None ->
      result run w = Val None)
  /\ (forall doc,
        result run w = Val (Some doc) ->
        TransactionHistory.status doc = status
        /\ history (final run w) = replace_history doc (history w)
        /\ find (fun d => String.eqb (TransactionHistory.name d)
                            (TransactionHistory.name doc)) (history (final run w))
           = Some doc).
Proof.
  cbv zeta. unfold result, final, only_history_written.
  destruct (update_status_cases transaction_reference status api_response w)
    as [Hnone | (found & old & Hfound & Hold & Hvalid & Hrun)].
  - rewrite Hnone. cbn [fst snd].
    refine (conj _ (conj _ (conj _ (conj _ (conj _ _))))).
    + eexists. reflexivity.
    + destruct w. reflexivity.
    + apply Forall2_status_updated_refl.
    + reflexivity.
    + reflexivity.
    + discriminate.
  - rewrite Hrun. cbn [fst snd history set_history].
    pose proof (status_updated_doc old status api_response) as Hupd.
    assert (Hname := Hupd). apply status_updated_name in Hname.
    assert (Hold' :
      find (fun x => String.eqb (TransactionHistory.name x)
                       (TransactionHistory.name (updated_doc old status api_response)))
        (history w) = Some old).
    { rewrite Hname.
      assert (E : TransactionHistory.name old = TransactionHistory.name found).
      { apply find_some in Hold. apply String.eqb_eq. exact (proj2 Hold). }
      rewrite E. exact Hold. }
    refine (conj _ (conj _ (conj _ (conj _ (conj _ _))))).
    + eexists. reflexivity.
    + reflexivity.
    + eapply replace_history_status_updated; [exact Hold' | exact Hupd].
    + discriminate.
    + rewrite Hfound. discriminate.
    + intros doc Hdoc. injection Hdoc as <-.
      split; [|split].
      * unfold updated_doc. destruct (Json.truthy api_response); reflexivity.
      * reflexivity.
      * rewrite find_replace_history, String.eqb_refl, Hold'. reflexivity.
Qed.

(** What a call of create_transaction_record that creates the record has
    made of it. *)
Lemma create_transaction_record_created
    (autoname : TransactionHistory.t -> list TransactionHistory.t -> string)
    (transaction_data : json) (virtual_payment_name : option string) (w : World)
    (ref : json) (record : TransactionHistory.t) :
  reference_of transaction_data = Some ref ->
  find (fun d => Json.eqb (TransactionHistory.transaction_reference d) ref)
    (history w) = None ->
  result (create_transaction_record autoname transaction_data virtual_payment_name) w
  = Val (Some record) ->
  TransactionHistory.transaction_reference record = ref
  /\ TransactionHistory.status record = "Pending"
  /\ TransactionHistory.virtual_payment record = virtual_payment_name
  /\ TransactionHistory.api_response record = transaction_data
  /\ find (fun d => String.eqb (TransactionHistory.name d)
                      (TransactionHistory.name record)) (history w) = None
  /\ passes_validation record
  /\ final (create_transaction_record autoname transaction_data
              virtual_payment_name) w
     = set_history (history w ++ [record]) w
  /\ (forall fields,
        transaction_data = JDict fields ->
        Json.assoc "amount" fields = None ->
        TransactionHistory.amount record = JNum 0).
Proof.
  intros Href Hfresh.
  unfold result, final.
  remember (create_transaction_record autoname transaction_data
              virtual_payment_name w) as out eqn:Hout.
  unfold create_transaction_record, reference_of in *.
  destruct transaction_data as [| b | q | s | l | fields]; try discriminate.
  injection Href as Href.
  unfold dict_get, db_exists_history, get_history, frappe.utils_now,
    insert_history in Hout.
  unfold try_except, bind, ret, raise, get_world, put_world in Hout.
  rewrite Href, Hfresh in Hout. cbn [option_map] in Hout.
  match type of Hout with
  | context [TransactionHistory_validate ?named w] =>
      destruct (validate_reads named w) as [Hv | [e Hv]]; rewrite Hv in Hout;
      [assert (Hvalid := Hv); apply validate_any_world in Hvalid | ]
  end.
  - match type of Hout with
    | context [existsb ?f (history w)] =>
        destruct (existsb f (history w)) eqn:Hname
    end.
    + subst out. discriminate.
    + apply existsb_false_find in Hname. subst out. cbn [fst snd].
      intros Hrec. injection Hrec as <-.
      refine (conj _ (conj _ (conj _ (conj _ (conj _ (conj _ (conj _ _)))))));
        try reflexivity; try assumption.
      intros fields' Hfields Hamount. injection Hfields as <-.
      cbn [with_name TransactionHistory.amount]. rewrite Hamount. reflexivity.
  - subst out. discriminate.
Qed.

Lemma replace_history_app_last (d x : TransactionHistory.t)
    (l : list TransactionHistory.t) :
  find (fun y => String.eqb (TransactionHistory.name y) (TransactionHistory.name d)) l
  = None ->
  TransactionHistory.name x = TransactionHistory.name d ->
  replace_history d (l ++ [x]) = (l ++ [d])%list.
Proof.
  intros Hnone Hname.
  induction l as [|y rest IH]; cbn [replace_history find app] in *.
  - rewrite Hname, String.eqb_refl. reflexivity.
  - destruct (String.eqb (TransactionHistory.name y) (TransactionHistory.name d));
      [discriminate|].
    rewrite (IH Hnone). reflexivity.
Qed.

(** X7. A record that create_transaction_record has just created can be
    updated under its reference.  It is created with the status Pending;
    update_status with the same reference then returns the record with the
    new status (and the new response, when there is one), and the table is
    the old one followed by that record alone, in the place of the one
    created. *)
Theorem created_record_can_be_updated
    (autoname : TransactionHistory.t -> list TransactionHistory.t -> string)
    (transaction_data : json) (virtual_payment_name : option string) (w : World)
    (ref : json) (record : TransactionHistory.t) (status : string)
    (api_response : json) :
  reference_of transaction_data = Some ref ->
  find (fun d => Json.eqb (TransactionHistory.transaction_reference d) ref)
    (history w) = None ->
  result (create_transaction_record autoname transaction_data virtual_payment_name) w
  = Val (Some record) ->
  TransactionHistory.name record <> EmptyString ->
  let w1 := final (create_transaction_record autoname transaction_data
                     virtual_payment_name) w in
  let doc := updated_doc record status api_response in
  TransactionHistory.status record = "Pending"
  /\ history w1 = (history w ++ [record])%list
  /\ result (update_status ref status api_response) w1 = Val (Some doc)
  /\ history (final (update_status ref status api_response) w1)
     = (history w ++ [doc])%list
  /\ TransactionHistory.status doc = status.
Proof.
  intros Href Hfresh Hcreated Hnamed. cbv zeta.
  destruct (create_transaction_record_created _ _ _ _ Href Hfresh Hcreated)
    as (Hrecref & Hpending & _ & _ & Hnew & Hvalid & -> & _).
  split; [exact Hpending|]. split; [reflexivity|].
  assert (Hrun :
    update_status ref status api_response (set_history (history w ++ [record]) w)
    = (Val (Some (updated_doc record status api_response)),
       set_history (history w ++ [updated_doc record status api_response])
         (set_history (history w ++ [record]) w))).
  { unfold update_status, db_exists_history, get_history, save_history.
    unfold try_except, bind, ret, raise, get_world, put_world.
    cbn [history set_history].
    rewrite (find_app_none _ _ _ Hfresh). cbn [find].
    rewrite Hrecref, json_eqb_refl. cbn [option_map].
    assert (Htruthy : Py.truthy (Some (TransactionHistory.name record)) = true).
    { destruct (TransactionHistory.name record); [contradiction | reflexivity]. }
    rewrite Htruthy. cbn [Py.str history set_history].
    rewrite (find_app_none _ _ _ Hnew). cbn [find].
    rewrite String.eqb_refl.
    change (if Json.truthy api_response
            then with_api_response (with_status record status) api_response
            else with_status record status)
      with (updated_doc record status api_response).
    rewrite validate_updated_doc, Hvalid. cbn [history set_history].
    rewrite replace_history_app_last; [reflexivity | | ].
    - rewrite (status_updated_name (status_updated_doc record status api_response)).
      exact Hnew.
    - symmetry. apply status_updated_name. apply status_updated_doc. }
  unfold result, final. rewrite Hrun. cbn [fst snd history set_history].
  split; [reflexivity|]. split; [reflexivity|].
  unfold updated_doc. destruct (Json.truthy api_response); reflexivity.
Qed.

(** The transfer TRX-1 is recorded and then reported successful. *)
Lemma created_record_can_be_updated_witness :
  let w1 := final (create_transaction_record name_by_reference
                     (transfer_data "TRX-1" (100 # 1)) (Some "PAY-1"))
              (site [] [] [] []) in
  map TransactionHistory.status
    (history (final (update_status (JStr "TRX-1") "Successful" JNull) w1))
  = ["Successful"].
Proof.
  cbv zeta.
  destruct (@created_record_can_be_updated name_by_reference
              (transfer_data "TRX-1" (100 # 1)) (Some "PAY-1") (site [] [] [] [])
              (JStr "TRX-1")
              (TransactionHistory.mk "TRX-1" (JStr "TRX-1") (Some "PAY-1") "Pending"
                 "2025-01-01 00:00:00" (JNum (100 # 1)) (JStr EmptyString)
                 (JStr EmptyString) (JStr EmptyString) (JStr EmptyString)
                 (JStr EmptyString) (transfer_data "TRX-1" (100 # 1)))
              "Successful" JNull eq_refl eq_refl eq_refl)
    as (_ & _ & _ & Hhistory & _).
  - discriminate.
  - rewrite Hhistory. reflexivity.
Defined.

(** *** Checking the status of a transfer *)

Lemma mapping_get_status (api_status : string) :
  In (mapping_get status_mapping api_status "Pending") mapped_statuses.
Proof.
  unfold status_mapping, mapped_statuses. cbn [mapping_get].
  repeat match goal with
         | |- context [String.eqb api_status ?k] => destruct (String.eqb api_status k)
         end;
    cbn [In]; tauto.
Qed.

Lemma api_status_of_reads (data : json) (w : World) :
  exists r, api_status_of data w = (r, w).
Proof.
  unfold api_status_of, dict_get, json_upper.
  destruct data as [| b | q | s | l | fields];
    try (eexists; reflexivity).
  unfold bind, ret, raise.
  destruct (Json.assoc "status" fields) as [[| b | q | s | l | d]|];
    cbn [Json.truthy];
    try (eexists; reflexivity);
    try (match goal with
         | |- context [if ?c then _ else _] => destruct c
         end; try (eexists; reflexivity));
    destruct (Json.assoc "transactionStatus" fields) as [[| b' | q' | s' | l' | d']|];
    cbn [Json.truthy];
    try (eexists; reflexivity);
    match goal with
    | |- context [if ?c then _ else _] => destruct c
    end; eexists; reflexivity.
Qed.

(** What the inner try of check_transaction_status_api does, by cases:
    nothing; or the record of the reference is written back with the
    mapped status and the data of the response. *)
Lemma update_from_status_response_cases (transaction_reference : option string)
    (data : json) (w : World) :
  update_from_status_response transaction_reference data w = (Val tt, w)
  \/ exists api_status found old,
       api_status_of data w = (Val api_status, w)
       /\ find (fun d => Json.eqb (TransactionHistory.transaction_reference d)
                           (JStr (Py.str transaction_reference))) (history w)
          = Some found
       /\ find (fun d => String.eqb (TransactionHistory.name d)
                           (TransactionHistory.name found)) (history w) = Some old
       /\ passes_validation old
       /\ update_from_status_response transaction_reference data w
          = (Val tt,
             set_history
               (replace_history
                  (updated_doc old (mapping_get status_mapping api_status "Pending")
                     data) (history w)) w).
Proof.
  remember (update_from_status_response transaction_reference data w) as out
    eqn:Hout.
  unfold update_from_status_response in Hout.
  unfold try_except, bind in Hout.
  destruct (api_status_of_reads data w) as [[api_status|e] Hapi];
    rewrite Hapi in Hout; [|left; exact Hout].
  destruct (update_status_cases (JStr (Py.str transaction_reference))
              (mapping_get status_mapping api_status "Pending") data w)
    as [Hnone | (found & old & Hfound & Hold & Hvalid & Hrun)].
  - rewrite Hnone in Hout. left. exact Hout.
  - rewrite Hrun in Hout. right. exists api_status, found, old.
    repeat split; assumption.
Qed.

Lemma update_from_status_response_written (transaction_reference : option string)
    (data : json) (w : World) :
  exists h,
    update_from_status_response transaction_reference data w
    = (Val tt, set_history h w)
    /\ Forall2 status_written (history w) h.
Proof.
  destruct (update_from_status_response_cases transaction_reference data w)
    as [Hnone | (api_status & found & old & _ & Hfound & Hold & _ & Hrun)].
  - exists (history w). split; [rewrite Hnone; destruct w; reflexivity|].
    clear. induction (history w); constructor; [|assumption].
    split; [apply status_updated_refl | left; reflexivity].
  - eexists. split; [exact Hrun|].
    set (doc := updated_doc old (mapping_get status_mapping api_status "Pending")
                  data).
    assert (Hupd : status_updated old doc) by apply status_updated_doc.
    assert (Hstatus : In (TransactionHistory.status doc) mapped_statuses).
    { unfold doc, updated_doc. destruct (Json.truthy data);
        cbn [with_api_response with_status TransactionHistory.status];
        apply mapping_get_status. }
    assert (Hname : TransactionHistory.name doc = TransactionHistory.name found).
    { rewrite (status_updated_name Hupd).
      apply find_some in Hold. apply String.eqb_eq. exact (proj2 Hold). }
    rewrite <- Hname in Hold. clearbody doc. clear Hfound Hrun.
    induction (history w) as [|x rest IH]; cbn [replace_history find] in *;
      [constructor|].
    destruct (String.eqb (TransactionHistory.name x) (TransactionHistory.name doc)).
    + injection Hold as ->. constructor.
      * split; [exact Hupd | right; exact Hstatus].
      * clear. induction rest; constructor; [|assumption].
        split; [apply status_updated_refl | left; reflexivity].
    + constructor; [|exact (IH Hold)].
      split; [apply status_updated_refl | left; reflexivity].
Qed.

(** check_transaction_status_api, once the reference and the token are
    there: one request, and the reply by the answer of the gateway. *)
Lemma status_check_run (transaction_reference : option string) (w : World)
    (token : string) :
  Py.truthy transaction_reference = true ->
  first_non_empty (credential_sources w) = Some token ->
  Py.truthy (Some token) = true ->
  let w1 := set_requests_made (S (requests_made w)) w in
  check_transaction_status_api transaction_reference w
  = match network w (requests_made w) with
    | Raises e => (Val (StatusFailure (status_fault_reply e)), w1)
    | Response status_code body =>
        if (status_code =? 200)%Z then
          match body with
          | None => (Val (StatusFailure NetworkErrorWhileCheckingStatus), w1)
          | Some (JDict fields) =>
              let data := match Json.assoc "data" fields with
                          | Some v => v
                          | None => JDict fields
                          end in
              (Val (StatusRetrieved data),
               final (update_from_status_response transaction_reference data) w1)
          | Some _ =>
              (Val (StatusFailure
                      (StatusCheckError
                         (AttributeError "object has no attribute 'get'"))), w1)
          end
        else if (status_code =? 404)%Z then
          (Val (StatusFailure TransactionNotFound), w1)
        else (Val (StatusFailure (StatusCheckFailedWithCode status_code)), w1)
    end.
Proof.
  intros Href Htoken Htruthy. cbv zeta.
  unfold check_transaction_status_api. rewrite Href. cbn [negb].
  unfold try_except at 1. unfold bind at 1.
  rewrite get_bearer_token_run, Htoken, Htruthy. cbn [negb].
  unfold try_except, http_request, response_json, dict_get, final.
  unfold bind at 1.
  destruct (network w (requests_made w)) as [status_code body | e].
  - destruct (status_code =? 200)%Z.
    + destruct body as [[| b | q | s | l | fields]|]; try reflexivity.
      unfold bind, ret.
      destruct (update_from_status_response_written transaction_reference
                  (match Json.assoc "data" fields with
                   | Some v => v
                   | None => JDict fields
                   end) (set_requests_made (S (requests_made w)) w))
        as (h & Hrun & _).
      rewrite Hrun. reflexivity.
    + destruct (status_code =? 404)%Z; reflexivity.
  - destruct e; reflexivity.
Qed.

Lemma api_status_of_any_world (data : json) (w w' : World) :
  fst (api_status_of data w) = fst (api_status_of data w').
Proof.
  unfold api_status_of, dict_get, json_upper.
  destruct data as [| b | q | s | l | fields]; try reflexivity.
  unfold bind, ret, raise.
  destruct (Json.assoc "status" fields) as [[| b | q | s | l | d]|];
    cbn [Json.truthy];
    try reflexivity;
    try (match goal with
         | |- context [if ?c then _ else _] => destruct c
         end; try reflexivity);
    destruct (Json.assoc "transactionStatus" fields) as [[| b' | q' | s' | l' | d']|];
    cbn [Json.truthy];
    try reflexivity;
    match goal with
    | |- context [if ?c then _ else _] => destruct c
    end; reflexivity.
Qed.

Lemma update_status_run (transaction_reference : json) (status : string)
    (api_response : json) (w : World) (found old : TransactionHistory.t) :
  find (fun d => Json.eqb (TransactionHistory.transaction_reference d)
                   transaction_reference) (history w) = Some found ->
  TransactionHistory.name found <> EmptyString ->
  find (fun d => String.eqb (TransactionHistory.name d)
                   (TransactionHistory.name found)) (history w) = Some old ->
  passes_validation old ->
  update_status transaction_reference status api_response w
  = (Val (Some (updated_doc old status api_response)),
     set_history (replace_history (updated_doc old status api_response) (history w))
       w).
Proof.
  intros Hfound Hnamed Hold Hvalid.
  unfold update_status, db_exists_history, get_history, save_history.
  unfold try_except, bind, ret, raise, get_world, put_world.
  rewrite Hfound. cbn [option_map].
  assert (Htruthy : Py.truthy (Some (TransactionHistory.name found)) = true).
  { destruct (TransactionHistory.name found); [contradiction | reflexivity]. }
  rewrite Htruthy. cbn [Py.str]. rewrite Hold.
  change (if Json.truthy api_response
          then with_api_response (with_status old status) api_response
          else with_status old status)
    with (updated_doc old status api_response).
  rewrite validate_updated_doc, Hvalid. reflexivity.
Qed.

(** X8. check_transaction_status_api always answers, makes at most one
    request, and writes nothing but the Transaction History, where every
    record is as it was or has one of the statuses Successful, Pending,
    Processing, Failed, Cancelled, with only its status and stored response
    changed.  Without a reference, or without a bearer token, it fails
    before any request; and whenever it reports a failure the Transaction
    History is as it was. *)
Theorem status_check_writes_mapped_statuses_only
    (transaction_reference : option string) (w : World) :
  let run := check_transaction_status_api transaction_reference in
  (exists reply, result run w = Val reply)
  /\ only_history_and_requests w (final run w)
  /\ (requests_made (final run w) = requests_made w
      \/ requests_made (final run w) = S (requests_made w))
  /\ Forall2 status_written (history w) (history (final run w))
  /\ (Py.truthy transaction_reference = false ->
      run w = (Val (StatusFailure TransactionReferenceRequired), w))
  /\ (Py.truthy transaction_reference = true ->
      first_non_empty (credential_sources w) = None ->
      run w = (Val (StatusFailure StatusBearerTokenNotFound), w))
  /\ (forall error,
        result run w = Val (StatusFailure error) ->
        history (final run w) = history w).
Proof.
  cbv zeta.
  assert (Hsame : Forall2 status_written (history w) (history w)).
  { induction (history w); constructor; [|assumption].
    split; [apply status_updated_refl | left; reflexivity]. }
  assert (Hw : only_history_and_requests w w).
  { unfold only_history_and_requests. destruct w. reflexivity. }
  assert (Hw1 : only_history_and_requests w
                  (set_requests_made (S (requests_made w)) w)).
  { unfold only_history_and_requests. destruct w. reflexivity. }
  destruct (Py.truthy transaction_reference) eqn:Href.
  - destruct (first_non_empty (credential_sources w)) as [token|] eqn:Htoken.
    + pose proof (first_non_empty_truthy _ Htoken) as Htruthy.
      pose proof (status_check_run transaction_reference w Href Htoken Htruthy)
        as Hrun.
      cbv zeta in Hrun. unfold result, final. rewrite Hrun. clear Hrun.
      destruct (network w (requests_made w)) as [status_code body | e].
      * destruct (status_code =? 200)%Z.
        -- destruct body as [[| b | q | s | l | fields]|]; cbn [fst snd];
             try (refine (conj _ (conj _ (conj _ (conj _ (conj _ (conj _ _))))));
                  [eexists; reflexivity | exact Hw1 | right; reflexivity
                  | exact Hsame | discriminate | discriminate
                  | intros; reflexivity]).
           destruct (update_from_status_response_written transaction_reference
                       (match Json.assoc "data" fields with
                        | Some v => v
                        | None => JDict fields
                        end) (set_requests_made (S (requests_made w)) w))
             as (h & Hupdate & Hwritten).
           unfold final. rewrite Hupdate. cbn [fst snd history set_history].
           refine (conj _ (conj _ (conj _ (conj _ (conj _ (conj _ _)))))).
           ++ eexists; reflexivity.
           ++ unfold only_history_and_requests. destruct w. reflexivity.
           ++ right. reflexivity.
           ++ exact Hwritten.
           ++ discriminate.
           ++ discriminate.
           ++ discriminate.
        -- destruct (status_code =? 404)%Z; cbn [fst snd];
             (refine (conj _ (conj _ (conj _ (conj _ (conj _ (conj _ _))))));
              [eexists; reflexivity | exact Hw1 | right; reflexivity
              | exact Hsame | discriminate | discriminate
              | intros; reflexivity]).
      * cbn [fst snd].
        refine (conj _ (conj _ (conj _ (conj _ (conj _ (conj _ _))))));
          [eexists; reflexivity | exact Hw1 | right; reflexivity
          | exact Hsame | discriminate | discriminate
          | intros; reflexivity].
    + assert (Hrun : check_transaction_status_api transaction_reference w
                     = (Val (StatusFailure StatusBearerTokenNotFound), w)).
      { unfold check_transaction_status_api. rewrite Href. cbn [negb].
        unfold try_except at 1. unfold bind at 1.
        rewrite get_bearer_token_run, Htoken. reflexivity. }
      unfold result, final. rewrite Hrun. cbn [fst snd].
      refine (conj _ (conj _ (conj _ (conj _ (conj _ (conj _ _))))));
        [eexists; reflexivity | exact Hw | left; reflexivity
        | exact Hsame | discriminate | reflexivity
        | intros; reflexivity].
  - assert (Hrun : check_transaction_status_api transaction_reference w
                   = (Val (StatusFailure TransactionReferenceRequired), w)).
    { unfold check_transaction_status_api. rewrite Href. reflexivity. }
    unfold result, final. rewrite Hrun. cbn [fst snd].
    refine (conj _ (conj _ (conj _ (conj _ (conj _ (conj _ _))))));
      [eexists; reflexivity | exact Hw | left; reflexivity
      | exact Hsame | reflexivity | discriminate
      | intros; reflexivity].
Qed.

(** X9. A status check that the gateway answers with 200 and a JSON object
    writes the mapped status to the record of the reference, whatever
    status the record had: the reply is the success with the data of the
    response, and the table holds the record with the status that
    status_mapping gives for the upper-cased status of the response, which
    is Pending when that text is not one of its keys (a response without a
    status included). *)
Theorem status_check_updates_record
    (transaction_reference : option string) (w : World) (token : string)
    (fields : list (string * json)) (api_status : string)
    (found old : TransactionHistory.t) :
  let data := match Json.assoc "data" fields with
              | Some v => v
              | None => JDict fields
              end in
  let run := check_transaction_status_api transaction_reference in
  let doc := updated_doc old (mapping_get status_mapping api_status "Pending") data in
  Py.truthy transaction_reference = true ->
  first_non_empty (credential_sources w) = Some token ->
  network w (requests_made w) = Response 200%Z (Some (JDict fields)) ->
  result (api_status_of data) w = Val api_status ->
  find (fun d => Json.eqb (TransactionHistory.transaction_reference d)
                   (JStr (Py.str transaction_reference))) (history w) = Some found ->
  TransactionHistory.name found <> EmptyString ->
  find (fun d => String.eqb (TransactionHistory.name d)
                   (TransactionHistory.name found)) (history w) = Some old ->
  passes_validation old ->
  result run w = Val (StatusRetrieved data)
  /\ history (final run w) = replace_history doc (history w)
  /\ find (fun d => String.eqb (TransactionHistory.name d)
                      (TransactionHistory.name old)) (history (final run w))
     = Some doc
  /\ In (TransactionHistory.status doc) mapped_statuses
  /\ ((forall key, In key (map fst status_mapping) -> api_status <> key) ->
      TransactionHistory.status doc = "Pending").
Proof.
  cbv zeta. intros Href Htoken Hnet Hapi Hfound Hnamed Hold Hvalid.
  pose proof (first_non_empty_truthy _ Htoken) as Htruthy.
  pose proof (status_check_run transaction_reference w Href Htoken Htruthy) as Hrun.
  cbv zeta in Hrun. rewrite Hnet in Hrun. cbn [Z.eqb Pos.eqb] in Hrun.
  set (data := match Json.assoc "data" fields with
               | Some v => v
               | None => JDict fields
               end) in *.
  set (w1 := set_requests_made (S (requests_made w)) w) in *.
  set (mapped := mapping_get status_mapping api_status "Pending").
  assert (Hupdate :
    update_from_status_response transaction_reference data w1
    = (Val tt, set_history (replace_history (updated_doc old mapped data)
                              (history w)) w1)).
  { unfold update_from_status_response, try_except, bind.
    destruct (api_status_of_reads data w1) as [r Hr].
    pose proof (api_status_of_any_world data w w1) as Hany.
    unfold result in Hapi. rewrite Hapi, Hr in Hany. cbn [fst] in Hany.
    subst r. rewrite Hr. cbv beta iota zeta. fold mapped.
    rewrite (@update_status_run (JStr (Py.str transaction_reference)) mapped data
               w1 found old Hfound Hnamed Hold Hvalid).
    reflexivity. }
  unfold result, final. rewrite Hrun. unfold final. rewrite Hupdate.
  cbn [fst snd history set_history].
  assert (Hname : TransactionHistory.name (updated_doc old mapped data)
                  = TransactionHistory.name old).
  { apply status_updated_name. apply status_updated_doc. }
  assert (Hold' : find (fun d => String.eqb (TransactionHistory.name d)
                                   (TransactionHistory.name old)) (history w)
                  = Some old).
  { assert (E : TransactionHistory.name old = TransactionHistory.name found).
    { apply find_some in Hold. apply String.eqb_eq. exact (proj2 Hold). }
    rewrite E. exact Hold. }
  assert (Hstatus : TransactionHistory.status (updated_doc old mapped data) = mapped).
  { unfold updated_doc. destruct (Json.truthy data); reflexivity. }
  refine (conj _ (conj _ (conj _ (conj _ _)))).
  - reflexivity.
  - reflexivity.
  - rewrite find_replace_history, Hname, String.eqb_refl, Hold'. reflexivity.
  - rewrite Hstatus. apply mapping_get_status.
  - intros Hnokey. rewrite Hstatus. unfold mapped, status_mapping.
    cbn [mapping_get].
    repeat match goal with
           | |- context [String.eqb api_status ?k] =>
               destruct (String.eqb_spec api_status k) as [E|_];
               [exfalso; apply (Hnokey k); [cbn; tauto | exact E]|]
           end.
    reflexivity.
Qed.

(** A transfer on record as Successful; the gateway answers a status check
    with data that carry no status: the record is Pending again. *)
Lemma status_check_updates_record_witness :
  let w := with_network (scripted [Response 200%Z (Some (JDict [("data",
             JDict [("transactionReference", JStr "TRX-1")])]))])
             (set_history [record_trx_1 "Successful"] (live_site [])) in
  map TransactionHistory.status
    (history (final (check_transaction_status_api (Some "TRX-1")) w))
  = ["Pending"].
Proof.
  cbv zeta.
  destruct (@status_check_updates_record (Some "TRX-1")
              (with_network (scripted [Response 200%Z (Some (JDict [("data",
                 JDict [("transactionReference", JStr "TRX-1")])]))])
                 (set_history [record_trx_1 "Successful"] (live_site [])))
              "secret" [("data", JDict [("transactionReference", JStr "TRX-1")])]
              EmptyString (record_trx_1 "Successful") (record_trx_1 "Successful")
              eq_refl eq_refl eq_refl eq_refl eq_refl)
    as (_ & Hhistory & _).
  - discriminate.
  - reflexivity.
  - intros w0. reflexivity.
  - rewrite Hhistory. reflexivity.
Defined.

(** *** The account name that a verification leaves on the payment *)

Lemma find_replace_payment (d : VirtualPayment.t) (n : string)
    (l : list VirtualPayment.t) :
  find (fun x => String.eqb (VirtualPayment.name x) n) (replace_payment d l)
  = if String.eqb (VirtualPayment.name d) n
    then match find (fun x => String.eqb (VirtualPayment.name x) n) l with
         | Some _ => Some d
         | None => None
         end
    else find (fun x => String.eqb (VirtualPayment.name x) n) l.
Proof.
  induction l as [|x rest IH]; cbn [replace_payment find].
  - destruct (String.eqb _ n); reflexivity.
  - destruct (String.eqb_spec (VirtualPayment.name x) (VirtualPayment.name d)) as [E|E].
    + cbn [find]. rewrite E.
      destruct (String.eqb (VirtualPayment.name d) n); reflexivity.
    + cbn [find]. rewrite IH.
      destruct (String.eqb_spec (VirtualPayment.name d) n) as [F|F];
        destruct (String.eqb_spec (VirtualPayment.name x) n) as [G|G];
        try reflexivity.
      exfalso. apply E. congruence.
Qed.

(** What _verify_bank_account does, by cases: one request, and either no
    write and a failure or an exception, or the account name written to
    the document and the success. *)
Lemma verify_bank_account_cases (self : VirtualPayment.t)
    (bearer_token bank_code account_number : string) (doc : VirtualPayment.t)
    (w : World) :
  let w2 := set_requests_made (S (requests_made w)) w in
  (exists error,
      _verify_bank_account self bearer_token bank_code account_number doc w
      = (Val (Failure error), w2))
  \/ (exists e,
        _verify_bank_account self bearer_token bank_code account_number doc w
        = (Exc e, w2))
  \/ (exists account_name bank_name,
        account_name <> EmptyString
        /\ _verify_bank_account self bearer_token bank_code account_number doc w
           = (Val (AccountVerified account_name bank_name),
              set_payments
                (replace_payment
                   (with_destination_account_name doc (Some account_name))
                   (payments w2)) w2)).
Proof.
  cbv zeta.
  remember (_verify_bank_account self bearer_token bank_code account_number doc w)
    as out eqn:Hout.
  unfold _verify_bank_account, http_request, response_json, dict_get, json_strip,
    db_set_payment in Hout.
  unfold try_except, bind, ret, raise in Hout.
  destruct (network w (requests_made w)) as [status_code body | e].
  - destruct (status_code =? 200)%Z;
      [|left; eexists; exact Hout].
    destruct body as [[| b | q | s | l | fields]|];
      try (left; eexists; exact Hout);
      try (right; left; eexists; exact Hout).
    destruct (Json.assoc "data" fields) as [[| b | q | s | l | data]|];
      try (left; eexists; exact Hout);
      try (right; left; eexists; exact Hout).
    + destruct (Json.assoc "accountName" data) as [[| b | q | s | l | d]|];
        try (left; eexists; exact Hout);
        try (right; left; eexists; exact Hout).
      * destruct (Json.assoc "bankName" data) as [[| b | q | s2 | l | d]|];
          try (left; eexists; exact Hout);
          try (right; left; eexists; exact Hout);
          (destruct (Py.strip s) as [|c s'] eqn:Hstrip;
           [left; eexists; exact Hout
           |right; right; eexists; eexists; split; [|exact Hout]; discriminate]).
      * destruct (Json.assoc "bankName" data) as [[| b | q | s2 | l | d]|];
          try (left; eexists; exact Hout);
          try (right; left; eexists; exact Hout).
  - destruct e;
      try (left; eexists; exact Hout);
      try (right; left; eexists; exact Hout).
Qed.

(** process_bank_verification on a document that is in the database: the
    account name is cleared, and then the call fails before any request or
    goes on to _verify_bank_account. *)
Lemma process_bank_verification_run (self : VirtualPayment.t) (w : World)
    (doc : VirtualPayment.t) :
  find (fun d => String.eqb (VirtualPayment.name d) (VirtualPayment.name self))
    (payments w) = Some doc ->
  let cleared := with_destination_account_name doc (Some EmptyString) in
  let w1 := set_payments (replace_payment cleared (payments w)) w in
  (exists error, process_bank_verification self w = (Val (Failure error), w1))
  \/ (10 <= String.length (Py.str (VirtualPayment.destination_account_number self))
      /\ exists bearer_token bank_code,
           process_bank_verification self w
           = try_except
               (_verify_bank_account self bearer_token bank_code
                  (Py.str (VirtualPayment.destination_account_number self)) cleared)
               (fun e => ret (Failure (VerificationError e))) w1).
Proof.
  intros Hdoc. cbv zeta.
  remember (process_bank_verification self w) as out eqn:Hout.
  unfold process_bank_verification, frappe.get_payment, db_set_payment in Hout.
  unfold try_except at 1 in Hout.
  unfold bind at 1 in Hout. rewrite Hdoc in Hout.
  unfold bind at 1 in Hout.
  set (w1 := set_payments
               (replace_payment (with_destination_account_name doc (Some EmptyString))
                  (payments w)) w) in *.
  unfold bind at 1 in Hout. rewrite get_bearer_token_run in Hout.
  destruct (first_non_empty (credential_sources w1)) as [[|c s]|];
    cbn [Py.truthy negb] in Hout;
    try (subst out; left; eexists; reflexivity).
  unfold bind at 1 in Hout.
  destruct (_get_bank_code (VirtualPayment.destination_bank self) w1)
    as [found wb] eqn:Hbank.
  assert (Hwb : wb = w1).
  { pose proof (get_bank_code_reads (VirtualPayment.destination_bank self) w1) as H.
    unfold final in H. rewrite Hbank in H. exact H. }
  subst wb.
  assert (Hfound :
    try_except
      (code <- _get_bank_code (VirtualPayment.destination_bank self) ;;
       ret (Some code))
      (fun _ => ret None) w1
    = (Val (match found with Val code => Some code | Exc _ => None end), w1)).
  { unfold try_except, bind, ret. rewrite Hbank. destruct found; reflexivity. }
  rewrite Hfound in Hout.
  destruct found as [bank_code|e];
    [|subst out; left; eexists; reflexivity].
  destruct (String.length (Py.str (VirtualPayment.destination_account_number self))
            <? 10)%nat eqn:Hlen.
  - subst out. left. eexists. reflexivity.
  - right. apply Nat.ltb_ge in Hlen. split; [exact Hlen|].
    exists (Py.str (Some (String c s))), bank_code.
    subst out. unfold try_except. reflexivity.
Qed.

(** X10. The account name that process_bank_verification leaves on the
    payment document.  For a document that is in the database the call
    always answers, with the verified account or with a failure.  After a
    success the stored document carries the account name of the reply,
    which is not empty, the account number has at least 10 characters and
    one request was made.  After any failure the stored account name is the
    empty text: a name verified earlier is erased.  Nothing else of the
    document changes. *)
Theorem verification_sets_or_clears_account_name (self : VirtualPayment.t)
    (w : World) (doc : VirtualPayment.t) :
  find (fun d => String.eqb (VirtualPayment.name d) (VirtualPayment.name self))
    (payments w) = Some doc ->
  let run := process_bank_verification self in
  let stored :=
    find (fun d => String.eqb (VirtualPayment.name d) (VirtualPayment.name self))
      (payments (final run w)) in
  (exists account_name bank_name,
      result run w = Val (AccountVerified account_name bank_name)
      /\ account_name <> EmptyString
      /\ stored = Some (with_destination_account_name doc (Some account_name))
      /\ 10 <= String.length (Py.str (VirtualPayment.destination_account_number self))
      /\ requests_made (final run w) = S (requests_made w))
  \/ (exists error,
        result run w = Val (Failure error)
        /\ stored = Some (with_destination_account_name doc (Some EmptyString))).
Proof.
  intros Hdoc. cbv zeta.
  assert (Hname : VirtualPayment.name doc = VirtualPayment.name self).
  { apply find_some in Hdoc. apply String.eqb_eq. exact (proj2 Hdoc). }
  set (cleared := with_destination_account_name doc (Some EmptyString)).
  set (w1 := set_payments (replace_payment cleared (payments w)) w).
  assert (Hcleared :
    find (fun d => String.eqb (VirtualPayment.name d) (VirtualPayment.name self))
      (payments w1) = Some cleared).
  { unfold w1. cbn [payments set_payments]. rewrite find_replace_payment.
    unfold cleared. cbn [with_destination_account_name VirtualPayment.name].
    rewrite Hname, String.eqb_refl, Hdoc. reflexivity. }
  destruct (process_bank_verification_run self w Hdoc)
    as [[error Hrun] | [Hlen (token & code & Hrun)]];
    fold cleared in Hrun; fold w1 in Hrun; unfold result, final; rewrite Hrun.
  - right. exists error. split; [reflexivity | exact Hcleared].
  - unfold try_except, ret.
    destruct (verify_bank_account_cases self token code
                (Py.str (VirtualPayment.destination_account_number self)) cleared w1)
      as [[error Hv] | [[e Hv] | (account_name & bank_name & Hne & Hv)]];
      rewrite Hv; cbn [fst snd].
    + right. exists error. split; [reflexivity | exact Hcleared].
    + right. eexists. split; [reflexivity | exact Hcleared].
    + left. exists account_name, bank_name.
      split; [reflexivity|]. split; [exact Hne|].
      split; [|split; [exact Hlen | reflexivity]].
      cbn [payments set_payments set_requests_made].
      rewrite find_replace_payment.
      cbn [with_destination_account_name VirtualPayment.name].
      unfold cleared at 1. cbn [with_destination_account_name VirtualPayment.name].
      rewrite Hname, String.eqb_refl.
      change (payments w1) with (replace_payment cleared (payments w)).
      rewrite find_replace_payment.
      unfold cleared at 1. cbn [with_destination_account_name VirtualPayment.name].
      rewrite Hname, String.eqb_refl, Hdoc.
      unfold cleared. destruct doc. reflexivity.
Qed.

(** A payment whose account was verified as ADA OBI is verified again
    while the gateway answers 404: the stored name is erased. *)
Lemma verification_sets_or_clears_account_name_witness :
  let verified :=
    with_destination_account_name (payment_to (Some "8169246969")) (Some "ADA OBI") in
  let w := set_payments [verified] (live_site [Response 404 None]) in
  option_map VirtualPayment.destination_account_name
    (find (fun d => String.eqb (VirtualPayment.name d) "PAY-1")
       (payments (final (process_bank_verification (payment_to (Some "8169246969"))) w)))
  = Some (Some EmptyString).
Proof.
  cbv zeta.
  destruct (@verification_sets_or_clears_account_name
              (payment_to (Some "8169246969"))
              (set_payments
                 [with_destination_account_name (payment_to (Some "8169246969"))
                    (Some "ADA OBI")]
                 (live_site [Response 404 None]))
              (with_destination_account_name (payment_to (Some "8169246969"))
                 (Some "ADA OBI")) eq_refl)
    as [(account_name & bank_name & Hres & _) | (error & _ & Hstored)].
  - discriminate Hres.
  - cbn [VirtualPayment.name payment_to] in Hstored. rewrite Hstored. reflexivity.
Defined.

(** ** Bank directory: what a save stores *)

Lemma isspace_upper_char (c : ascii) : Py.isspace (Py.upper_char c) = Py.isspace c.
Proof. destruct c as [[] [] [] [] [] [] [] []]; reflexivity. Qed.

Lemma upper_char_idempotent (c : ascii) :
  Py.upper_char (Py.upper_char c) = Py.upper_char c.
Proof. destruct c as [[] [] [] [] [] [] [] []]; reflexivity. Qed.

Lemma upper_idempotent (s : string) : Py.upper (Py.upper s) = Py.upper s.
Proof.
  induction s as [|c s IH]; cbn [Py.upper]; [reflexivity|].
  rewrite upper_char_idempotent, IH. reflexivity.
Qed.

Lemma lstrip_upper (s : string) : Py.lstrip (Py.upper s) = Py.upper (Py.lstrip s).
Proof.
  induction s as [|c s IH]; cbn [Py.upper Py.lstrip]; [reflexivity|].
  rewrite isspace_upper_char.
  destruct (Py.isspace c); [exact IH | reflexivity].
Qed.

Lemma rstrip_upper (s : string) : Py.rstrip (Py.upper s) = Py.upper (Py.rstrip s).
Proof.
  induction s as [|c s IH]; cbn [Py.upper Py.rstrip]; [reflexivity|].
  rewrite IH, isspace_upper_char.
  destruct (Py.rstrip s); cbn [Py.upper];
    [destruct (Py.isspace c); reflexivity | reflexivity].
Qed.

Lemma strip_upper (s : string) : Py.strip (Py.upper s) = Py.upper (Py.strip s).
Proof. unfold Py.strip. rewrite lstrip_upper, rstrip_upper. reflexivity. Qed.

Lemma lstrip_head (s : string) :
  Py.lstrip s = EmptyString
  \/ exists c r, Py.lstrip s = String c r /\ Py.isspace c = false.
Proof.
  induction s as [|c s IH]; cbn [Py.lstrip]; [left; reflexivity|].
  destruct (Py.isspace c) eqn:E; [exact IH|].
  right. exists c, s. split; [reflexivity | exact E].
Qed.

Lemma rstrip_head (c : ascii) (r : string) :
  Py.isspace c = false -> Py.rstrip (String c r) = String c (Py.rstrip r).
Proof.
  intros E. cbn [Py.rstrip]. rewrite E. destruct (Py.rstrip r); reflexivity.
Qed.

Lemma rstrip_idempotent (s : string) : Py.rstrip (Py.rstrip s) = Py.rstrip s.
Proof.
  induction s as [|c s IH]; cbn [Py.rstrip]; [reflexivity|].
  destruct (Py.rstrip s) as [|d r] eqn:E.
  - destruct (Py.isspace c) eqn:Hc; cbn [Py.rstrip]; [reflexivity|].
    rewrite Hc. reflexivity.
  - change (Py.rstrip (String c (String d r)))
      with (match Py.rstrip (String d r) with
            | EmptyString =>
                if Py.isspace c then EmptyString else String c EmptyString
            | r' => String c r'
            end).
    rewrite IH. reflexivity.
Qed.

Lemma strip_idempotent (s : string) : Py.strip (Py.strip s) = Py.strip s.
Proof.
  unfold Py.strip.
  destruct (lstrip_head s) as [E | (c & r & E & Hc)]; rewrite E.
  - reflexivity.
  - rewrite (@rstrip_head c r Hc). cbn [Py.lstrip]. rewrite Hc.
    rewrite <- (@rstrip_head c r Hc). apply rstrip_idempotent.
Qed.

(** X11. before_save brings a bank record to a normal form: applying it
    again changes nothing, the stored bank name has no blank at either end,
    and the stored bank code has no blank at either end and no lower-case
    letter. *)
Theorem bank_before_save_normal_form (self : BanksB.t) :
  before_save (before_save self) = before_save self
  /\ (forall name,
        BanksB.bank_name (before_save self) = Some name -> Py.strip name = name)
  /\ (forall code,
        BanksB.bank_code (before_save self) = Some code ->
        Py.strip code = code /\ Py.upper code = code).
Proof.
  assert (Hname : forall name,
            BanksB.bank_name (before_save self) = Some name -> Py.strip name = name).
  { unfold before_save. cbn [BanksB.bank_name].
    destruct (BanksB.bank_name self) as [[|c s]|]; intros name H;
      try discriminate; injection H as <-;
      [reflexivity | apply strip_idempotent]. }
  assert (Hcode : forall code,
            BanksB.bank_code (before_save self) = Some code ->
            Py.strip code = code /\ Py.upper code = code).
  { unfold before_save. cbn [BanksB.bank_code].
    destruct (BanksB.bank_code self) as [[|c s]|]; intros code H;
      try discriminate; injection H as <-.
    - split; reflexivity.
    - split; [rewrite strip_upper, strip_idempotent; reflexivity
             |apply upper_idempotent]. }
  split; [|split; assumption].
  clear Hname Hcode.
  destruct self as [n bn bc]. unfold before_save.
  cbn [BanksB.name BanksB.bank_name BanksB.bank_code].
  f_equal.
  - destruct bn as [[|c s]|]; try reflexivity.
    destruct (Py.strip (String c s)) as [|c' s'] eqn:E; [reflexivity|].
    rewrite <- E, strip_idempotent. reflexivity.
  - destruct bc as [[|c s]|]; try reflexivity.
    destruct (Py.upper (Py.strip (String c s))) as [|c' s'] eqn:E; [reflexivity|].
    rewrite <- E, strip_upper, strip_idempotent, upper_idempotent. reflexivity.
Qed.

Lemma find_upsert (d : BanksB.t) (l : list BanksB.t) :
  find (fun x => String.eqb (BanksB.name x) (BanksB.name d)) (upsert d l) = Some d.
Proof.
  induction l as [|x l IH]; cbn [upsert find].
  - rewrite String.eqb_refl. reflexivity.
  - destruct (String.eqb (BanksB.name x) (BanksB.name d)) eqn:E; cbn [find].
    + rewrite String.eqb_refl. reflexivity.
    + rewrite E. exact IH.
Qed.

(** X12. The required-field checks of a bank record are made before the
    fields are trimmed.  A bank whose name and code are given and whose code
    no other bank holds is saved; but a name of blanks only is stored as the
    empty text, which validate itself refuses on the stored record, and a
    code of blanks only is stored as the empty text, so that _get_bank_code
    finds no code for that bank. *)
Theorem bank_save_stores_blank_fields (self : BanksB.t) (w : World) :
  Py.truthy (BanksB.bank_name self) = true ->
  Py.truthy (BanksB.bank_code self) = true ->
  find (fun d => text_eqb (BanksB.bank_code d) (BanksB.bank_code self)
                 && negb (String.eqb (BanksB.name d) (BanksB.name self)))
    (banks w) = None ->
  let w' := final (save self) w in
  save self w
  = (Val (before_save self), set_banks (upsert (before_save self) (banks w)) w)
  /\ (forall name,
        BanksB.bank_name self = Some name -> Py.strip name = EmptyString ->
        BanksB.bank_name (before_save self) = Some EmptyString
        /\ result (validate (before_save self)) w'
           = Exc (ValidationError "Bank name is required"))
  /\ (forall code,
        BanksB.bank_code self = Some code -> Py.strip code = EmptyString ->
        BanksB.bank_code (before_save self) = Some EmptyString
        /\ result (_get_bank_code (Some (BanksB.name self))) w'
           = Exc (ValueError ("Bank code not found for: " ++ BanksB.name self))).
Proof.
  intros Hname Hcode Hunique. cbv zeta.
  assert (Hsave :
    save self w
    = (Val (before_save self), set_banks (upsert (before_save self) (banks w)) w)).
  { unfold save, validate, other_bank_with_code. run.
    rewrite Hname, Hcode. cbn [negb]. rewrite Hunique. reflexivity. }
  split; [exact Hsave|]. unfold final. rewrite Hsave. cbn [snd].
  split.
  - intros name Hn Hblank.
    assert (Hstored : BanksB.bank_name (before_save self) = Some EmptyString).
    { unfold before_save. cbn [BanksB.bank_name]. rewrite Hn.
      destruct name as [|c s]; [reflexivity | rewrite Hblank; reflexivity]. }
    split; [exact Hstored|].
    unfold validate, result. rewrite Hstored. reflexivity.
  - intros code Hc Hblank.
    assert (Hstored : BanksB.bank_code (before_save self) = Some EmptyString).
    { unfold before_save. cbn [BanksB.bank_code]. rewrite Hc.
      destruct code as [|c s]; [reflexivity | rewrite Hblank; reflexivity]. }
    split; [exact Hstored|].
    unfold _get_bank_code, frappe.get_bank. run. cbn [banks set_banks].
    change (BanksB.name self) with (BanksB.name (before_save self)) at 1.
    rewrite find_upsert. cbn [fst snd]. rewrite Hstored. reflexivity.
Qed.

(** A bank is saved with a name and a code of blanks. *)
Lemma bank_save_stores_blank_fields_witness :
  let blank := BanksB.mk "Bank C" (Some "  ") (Some " ") in
  let w := site [] [] [bank_a] [] in
  result (save blank) w = Val (BanksB.mk "Bank C" (Some EmptyString) (Some EmptyString))
  /\ result (_get_bank_code (Some "Bank C")) (final (save blank) w)
     = Exc (ValueError "Bank code not found for: Bank C").
Proof.
  cbv zeta.
  destruct (@bank_save_stores_blank_fields
              (BanksB.mk "Bank C" (Some "  ") (Some " ")) (site [] [] [bank_a] [])
              eq_refl eq_refl eq_refl) as (Hsave & _ & Hcode).
  split.
  - unfold result. rewrite Hsave. reflexivity.
  - exact (proj2 (Hcode " " eq_refl eq_refl)).
Defined.

(** X13. A bank that has been saved is looked up with its normalized
    code.  When save succeeds for a bank whose code is not blank,
    _get_bank_code for that bank returns the code as submitted, trimmed and
    in upper case, and reads only. *)
Theorem saved_bank_is_looked_up_by_normalized_code (self : BanksB.t) (w : World)
    (doc : BanksB.t) (code : string) :
  result (save self) w = Val doc ->
  BanksB.bank_code self = Some code ->
  Py.strip code <> EmptyString ->
  let w' := final (save self) w in
  _get_bank_code (Some (BanksB.name self)) w' = (Val (Py.upper (Py.strip code)), w')
  /\ BanksB.bank_code doc = Some (Py.upper (Py.strip code)).
Proof.
  intros Hsave Hcode Hblank. cbv zeta.
  assert (Hrun :
    save self w
    = (Val (before_save self), set_banks (upsert (before_save self) (banks w)) w)
    /\ doc = before_save self).
  { unfold result in Hsave. unfold save, validate, other_bank_with_code in *. run.
    destruct (Py.truthy (BanksB.bank_name self)); cbn [negb] in *; [|discriminate].
    destruct (Py.truthy (BanksB.bank_code self)); cbn [negb] in *; [|discriminate].
    destruct (find _ (banks w)); cbn [option_map fst snd] in *; [discriminate|].
    injection Hsave as <-. split; reflexivity. }
  destruct Hrun as [Hrun ->].
  assert (Hstored : BanksB.bank_code (before_save self)
                    = Some (Py.upper (Py.strip code))).
  { unfold before_save. cbn [BanksB.bank_code]. rewrite Hcode.
    destruct code as [|c s]; [contradiction Hblank; reflexivity | reflexivity]. }
  split; [|exact Hstored].
  unfold final. rewrite Hrun. cbn [snd].
  unfold _get_bank_code, frappe.get_bank. run. cbn [banks set_banks].
  change (BanksB.name self) with (BanksB.name (before_save self)) at 1.
  rewrite find_upsert. cbn [fst snd]. rewrite Hstored.
  destruct (Py.strip code) as [|c s]; [contradiction Hblank; reflexivity|].
  reflexivity.
Qed.

(** The bank saved with the code gtb01 between blanks is looked up with the
    code GTB01. *)
Lemma saved_bank_is_looked_up_by_normalized_code_witness :
  let bank := BanksB.mk "Bank C" (Some "  Bank C ") (Some " gtb01 ") in
  let w := site [] [] [bank_a] [] in
  result (_get_bank_code (Some "Bank C")) (final (save bank) w) = Val "GTB01".
Proof.
  cbv zeta.
  destruct (@saved_bank_is_looked_up_by_normalized_code
              (BanksB.mk "Bank C" (Some "  Bank C ") (Some " gtb01 "))
              (site [] [] [bank_a] [])
              (BanksB.mk "Bank C" (Some "Bank C") (Some "GTB01")) " gtb01 "
              eq_refl eq_refl) as [Hlookup _].
  - discriminate.
  - unfold result. cbn [BanksB.name] in Hlookup. rewrite Hlookup. reflexivity.
Defined.

(** ** The balance report and the payment *)

Lemma verify_transaction_pin_without_wallet
    (get_decrypted_pin : PaymentPin.t -> Res (option string))
    (wallet_name : string) (transaction_pin : option string) (w : World) :
  find_wallet wallet_name w = None ->
  verify_transaction_pin get_decrypted_pin wallet_name transaction_pin w
  = (Val (Failure (WalletNotFound wallet_name)), w).
Proof.
  intros Hfind. unfold find_wallet in Hfind.
  unfold verify_transaction_pin, frappe.get_wallet. run.
  rewrite Hfind. reflexivity.
Qed.

Lemma make_virtual_payment_without_wallet
    (get_decrypted_pin : PaymentPin.t -> Res (option string))
    (autoname : TransactionHistory.t -> list TransactionHistory.t -> string)
    (self : VirtualPayment.t) (transaction_pin virtual_wallet : option string)
    (w : World) (selected : option string) :
  select_wallet virtual_wallet w = (Val selected, w) ->
  (forall name, selected = Some name -> find_wallet name w = None) ->
  exists error,
    make_virtual_payment get_decrypted_pin autoname self transaction_pin
      virtual_wallet w
    = (Val (Failure error), w).
Proof.
  intros Hsel Hnone.
  unfold make_virtual_payment. unfold try_except at 1.
  rewrite (@bind_run _ _ _ _ _ _ _ Hsel).
  destruct selected as [name|]; [|eexists; reflexivity].
  destruct (Py.truthy transaction_pin); cbn [negb]; [|eexists; reflexivity].
  rewrite (@bind_run _ _ _ _ _ _ _
             (verify_transaction_pin_without_wallet get_decrypted_pin name
                transaction_pin w (Hnone name eq_refl))).
  cbn [success negb]. eexists. reflexivity.
Qed.

(** X14. The balance report agrees with the payment.  check_wallet_balance
    reads only.  When it reports a balance, it is the balance of the wallet
    that make_virtual_payment selects for the same argument, and a payment
    from that wallet, its amount taken as the Python float it is, passes
    the balance validation exactly when the amount is a number above 0 and
    at most the reported balance, or is NaN.  When it reports a failure,
    every payment with the same wallet argument fails and writes
    nothing. *)
Theorem balance_report_agrees_with_payment
    (get_decrypted_pin : PaymentPin.t -> Res (option string))
    (autoname : TransactionHistory.t -> list TransactionHistory.t -> string)
    (virtual_wallet : option string) (w : World) :
  let check := check_wallet_balance virtual_wallet in
  final check w = w
  /\ (forall balance name,
        result check w = Val (BalanceReport balance name) ->
        result (select_wallet virtual_wallet) w = Val (Some name)
        /\ option_map VirtualWallet.balance (find_wallet name w) = Some balance
        /\ forall amount,
             Float.passes
               (result (Float.validate_balance_for_wallet amount name) w) = true
             <-> amount = Float.NaN
                 \/ exists a,
                      amount = Float.Number a /\ (0 < a)%Q /\ (a <= balance)%Q)
  /\ (forall error,
        result check w = Val (BalanceFailure error) ->
        forall self transaction_pin,
        exists payment_error,
          make_virtual_payment get_decrypted_pin autoname self transaction_pin
            virtual_wallet w
          = (Val (Failure payment_error), w)).
Proof.
  cbv zeta.
  assert (Hvalidate : forall name wallet_doc amount,
            find_wallet name w = Some wallet_doc ->
            Float.passes
              (result (Float.validate_balance_for_wallet amount name) w) = true
            <-> amount = Float.NaN
                \/ exists a,
                     amount = Float.Number a /\ (0 < a)%Q
                     /\ (a <= VirtualWallet.balance wallet_doc)%Q).
  { intros name wallet_doc amount Hfind.
    exact (proj1 (proj2 (float_validation_passes amount name w Hfind))). }
  unfold check_wallet_balance, select_wallet, frappe.list_wallets_limit_1,
    frappe.get_wallet.
  destruct virtual_wallet as [[|c s]|]; run; cbn [Py.truthy negb Py.str fst snd].
  - (* the empty text: the first wallet *)
    destruct (wallets w) as [|first rest] eqn:Hwallets; cbn [map firstn fst snd].
    + split; [reflexivity|]. split; [discriminate|].
      intros error _ self transaction_pin.
      apply make_virtual_payment_without_wallet with (selected := None).
      * unfold select_wallet, frappe.list_wallets_limit_1. run.
        rewrite Hwallets. reflexivity.
      * discriminate.
    + cbn [find]. rewrite Hwallets. cbn [find]. rewrite String.eqb_refl. cbn [fst snd].
      split; [reflexivity|]. split; [|discriminate].
      intros balance name H. injection H as <- <-.
      assert (Hfind : find_wallet (VirtualWallet.name first) w = Some first).
      { unfold find_wallet. rewrite Hwallets. cbn [find].
        rewrite String.eqb_refl. reflexivity. }
      split; [reflexivity|]. split; [rewrite Hfind; reflexivity|].
      intros amount. exact (Hvalidate _ _ amount Hfind).
  - (* a wallet is named *)
    destruct (find (fun d => String.eqb (VirtualWallet.name d) (String c s))
                (wallets w)) as [wallet_doc|] eqn:Hfind; cbn [fst snd].
    + split; [reflexivity|]. split; [|discriminate].
      intros balance name H. injection H as <- <-.
      split; [reflexivity|].
      unfold find_wallet at 1. rewrite Hfind. split; [reflexivity|].
      intros amount. exact (Hvalidate _ _ amount Hfind).
    + split; [reflexivity|]. split; [discriminate|].
      intros error _ self transaction_pin.
      apply make_virtual_payment_without_wallet with (selected := Some (String c s)).
      * reflexivity.
      * intros name H. injection H as <-. exact Hfind.
  - (* no wallet is named: the first wallet *)
    destruct (wallets w) as [|first rest] eqn:Hwallets; cbn [map firstn fst snd].
    + split; [reflexivity|]. split; [discriminate|].
      intros error _ self transaction_pin.
      apply make_virtual_payment_without_wallet with (selected := None).
      * unfold select_wallet, frappe.list_wallets_limit_1. run.
        rewrite Hwallets. reflexivity.
      * discriminate.
    + cbn [find]. rewrite Hwallets. cbn [find]. rewrite String.eqb_refl. cbn [fst snd].
      split; [reflexivity|]. split; [|discriminate].
      intros balance name H. injection H as <- <-.
      assert (Hfind : find_wallet (VirtualWallet.name first) w = Some first).
      { unfold find_wallet. rewrite Hwallets. cbn [find].
        rewrite String.eqb_refl. reflexivity. }
      split; [reflexivity|]. split; [rewrite Hfind; reflexivity|].
      intros amount. exact (Hvalidate _ _ amount Hfind).
Qed.

(** ** validate_wallet_data *)

Lemma remove_separators_cons (c : ascii) (s : string) :
  PyStr.remove_char "_" (PyStr.remove_char "-" (PyStr.remove_char " " (String c s)))
  = if name_separator c
    then PyStr.remove_char "_" (PyStr.remove_char "-" (PyStr.remove_char " " s))
    else String c
           (PyStr.remove_char "_" (PyStr.remove_char "-" (PyStr.remove_char " " s))).
Proof.
  unfold name_separator. cbn [PyStr.remove_char].
  destruct (Ascii.eqb c " "); cbn [orb]; [reflexivity|].
  cbn [PyStr.remove_char].
  destruct (Ascii.eqb c "-"); cbn [orb]; [reflexivity|].
  cbn [PyStr.remove_char].
  destruct (Ascii.eqb c "_"); reflexivity.
Qed.

Lemma separator_not_alnum (c : ascii) :
  name_separator c = true -> PyStr.isalnum_char c = false.
Proof.
  destruct c as [[] [] [] [] [] [] [] []]; vm_compute; intros H;
    first [reflexivity | discriminate H].
Qed.

Lemma isalnum_all_chars (s : string) :
  PyStr.isalnum s = negb (String.length s =? 0)%nat
                    && PyStr.all_chars PyStr.isalnum_char s.
Proof. destruct s; reflexivity. Qed.

Lemma isdigit_all_chars (s : string) :
  PyStr.isdigit s = negb (String.length s =? 0)%nat
                    && PyStr.all_chars PyStr.isdigit_char s.
Proof. destruct s; reflexivity. Qed.

Lemma removed_all_alnum (s : string) :
  PyStr.all_chars PyStr.isalnum_char
    (PyStr.remove_char "_" (PyStr.remove_char "-" (PyStr.remove_char " " s)))
  = PyStr.all_chars wallet_name_char s.
Proof.
  induction s as [|c s IH]; [reflexivity|].
  rewrite remove_separators_cons. cbn [PyStr.all_chars]. unfold wallet_name_char at 1.
  destruct (name_separator c) eqn:Hsep.
  - rewrite (separator_not_alnum c Hsep). exact IH.
  - cbn [PyStr.all_chars]. rewrite IH, orb_false_r. reflexivity.
Qed.

Lemma removed_empty (s : string) :
  (String.length
     (PyStr.remove_char "_" (PyStr.remove_char "-" (PyStr.remove_char " " s)))
   =? 0)%nat
  = negb (PyStr.any_chars (fun c => negb (name_separator c)) s).
Proof.
  induction s as [|c s IH]; [reflexivity|].
  rewrite remove_separators_cons. cbn [PyStr.any_chars].
  destruct (name_separator c); cbn [negb orb]; [exact IH | reflexivity].
Qed.

Lemma allowed_not_separator (s : string) :
  PyStr.all_chars wallet_name_char s = true ->
  PyStr.any_chars (fun c => negb (name_separator c)) s
  = PyStr.any_chars PyStr.isalnum_char s.
Proof.
  induction s as [|c s IH]; [reflexivity|].
  cbn [PyStr.all_chars PyStr.any_chars]. unfold wallet_name_char at 1.
  intros H. apply andb_prop in H. destruct H as [Hc Hs].
  rewrite (IH Hs).
  destruct (name_separator c) eqn:Hsep.
  - rewrite (separator_not_alnum c Hsep). reflexivity.
  - rewrite orb_false_r in Hc. rewrite Hc. reflexivity.
Qed.

(** The test of the wallet name, read on the name itself: every character
    is a letter, a digit, a blank, a hyphen or an underscore, and at least
    one is a letter or a digit. *)
Lemma wallet_name_test (s : string) :
  PyStr.isalnum
    (PyStr.remove_char "_" (PyStr.remove_char "-" (PyStr.remove_char " " s)))
  = PyStr.all_chars wallet_name_char s && PyStr.any_chars PyStr.isalnum_char s.
Proof.
  rewrite isalnum_all_chars, removed_all_alnum, removed_empty, negb_involutive.
  destruct (PyStr.all_chars wallet_name_char s) eqn:Hall.
  - rewrite (allowed_not_separator s Hall), andb_true_r. reflexivity.
  - rewrite andb_false_r. reflexivity.
Qed.

Lemma filter_all_chars (p : ascii -> bool) (s : string) :
  PyStr.all_chars p s = true -> PyStr.filter_chars p s = s.
Proof.
  induction s as [|c s IH]; [reflexivity|].
  cbn [PyStr.all_chars PyStr.filter_chars]. intros H.
  apply andb_prop in H. destruct H as [Hc Hs]. rewrite Hc, (IH Hs). reflexivity.
Qed.

(** X15. What validate_wallet_data accepts.  It returns no error exactly
    when the wallet name and the BVN are given, the trimmed name has 2 to 50
    characters, each a letter, a digit, a blank, a hyphen or an underscore
    and at least one of them a letter or a digit, and the trimmed BVN is 11
    digits.  It reports at most one error about the wallet name and at most
    one about the BVN, the one about the name first; and for accepted data
    the digits that create_wallet keeps of the BVN are the trimmed BVN
    itself, 11 of them. *)
Theorem wallet_data_accepted_iff (wallet_name bvn : option string) :
  let name := Py.strip (Py.str wallet_name) in
  let bvn_str := Py.strip (Py.str bvn) in
  (validate_wallet_data wallet_name bvn = []
   <-> Py.truthy wallet_name = true
       /\ 2 <= String.length name <= 50
       /\ PyStr.all_chars wallet_name_char name = true
       /\ PyStr.any_chars PyStr.isalnum_char name = true
       /\ Py.truthy bvn = true
       /\ String.length bvn_str = 11
       /\ PyStr.all_chars PyStr.isdigit_char bvn_str = true)
  /\ (length (filter wallet_name_error (validate_wallet_data wallet_name bvn)) <= 1
      /\ length (filter (fun e => negb (wallet_name_error e))
                   (validate_wallet_data wallet_name bvn)) <= 1
      /\ validate_wallet_data wallet_name bvn
         = (filter wallet_name_error (validate_wallet_data wallet_name bvn)
            ++ filter (fun e => negb (wallet_name_error e))
                 (validate_wallet_data wallet_name bvn))%list)
  /\ (validate_wallet_data wallet_name bvn = [] ->
      bvn_clean bvn = bvn_str /\ String.length (bvn_clean bvn) = 11).
Proof.
  cbv zeta.
  assert (Hiff :
    validate_wallet_data wallet_name bvn = []
    <-> Py.truthy wallet_name = true
        /\ 2 <= String.length (Py.strip (Py.str wallet_name)) <= 50
        /\ PyStr.all_chars wallet_name_char (Py.strip (Py.str wallet_name)) = true
        /\ PyStr.any_chars PyStr.isalnum_char (Py.strip (Py.str wallet_name)) = true
        /\ Py.truthy bvn = true
        /\ String.length (Py.strip (Py.str bvn)) = 11
        /\ PyStr.all_chars PyStr.isdigit_char (Py.strip (Py.str bvn)) = true).
  { unfold validate_wallet_data. cbv zeta. cbn [app].
    rewrite wallet_name_test, isdigit_all_chars.
    destruct (Py.truthy wallet_name); cbn [negb].
    2:{ split; [|intros [H _]; discriminate].
        destruct (negb (Py.truthy bvn));
          [|destruct (negb _); [|destruct (negb _)]]; discriminate. }
    destruct (String.length (Py.strip (Py.str wallet_name)) <? 2)%nat eqn:Hshort.
    { apply Nat.ltb_lt in Hshort. split; [|intros (_ & H & _); lia].
      destruct (negb (Py.truthy bvn));
        [|destruct (negb _); [|destruct (negb _)]]; discriminate. }
    apply Nat.ltb_ge in Hshort.
    destruct (50 <? String.length (Py.strip (Py.str wallet_name)))%nat eqn:Hlong.
    { apply Nat.ltb_lt in Hlong. split; [|intros (_ & H & _); lia].
      destruct (negb (Py.truthy bvn));
        [|destruct (negb _); [|destruct (negb _)]]; discriminate. }
    apply Nat.ltb_ge in Hlong.
    destruct (PyStr.all_chars wallet_name_char (Py.strip (Py.str wallet_name)));
      cbn [andb negb].
    2:{ split; [|intros (_ & _ & H & _); discriminate].
        destruct (negb (Py.truthy bvn));
          [|destruct (negb _); [|destruct (negb _)]]; discriminate. }
    destruct (PyStr.any_chars PyStr.isalnum_char (Py.strip (Py.str wallet_name)));
      cbn [negb].
    2:{ split; [|intros (_ & _ & _ & H & _); discriminate].
        destruct (negb (Py.truthy bvn));
          [|destruct (negb _); [|destruct (negb _)]]; discriminate. }
    destruct (Py.truthy bvn); cbn [negb app].
    2:{ split; [discriminate | intros (_ & _ & _ & _ & H & _); discriminate]. }
    destruct (String.length (Py.strip (Py.str bvn)) =? 11)%nat eqn:Hlen.
    - apply Nat.eqb_eq in Hlen. rewrite Hlen. cbn [Nat.eqb negb andb].
      destruct (PyStr.all_chars PyStr.isdigit_char (Py.strip (Py.str bvn)));
        cbn [negb].
      + split; [intros _; repeat split; assumption | reflexivity].
      + split; [discriminate | intros (_ & _ & _ & _ & _ & _ & H); discriminate].
    - apply Nat.eqb_neq in Hlen.
      split; [|intros (_ & _ & _ & _ & _ & H & _); contradiction].
      destruct (negb _); discriminate. }
  split; [exact Hiff|]. split.
  - unfold validate_wallet_data. cbv zeta. cbn [app].
    destruct (negb (Py.truthy wallet_name));
      [|destruct (_ <? 2)%nat;
        [|destruct (50 <? _)%nat; [|destruct (negb (PyStr.isalnum _))]]];
      (destruct (negb (Py.truthy bvn));
       [|destruct (negb (PyStr.isdigit _)); [|destruct (negb (_ =? 11)%nat)]]);
      cbn [app length filter wallet_name_error negb];
      (split; [lia | split; [lia | reflexivity]]).
  - intros Hok. apply Hiff in Hok.
    destruct Hok as (_ & _ & _ & _ & _ & Hlen & Hdigits).
    unfold bvn_clean. rewrite filter_all_chars by exact Hdigits.
    split; [reflexivity | exact Hlen].
Qed.

(** ** safe_log_error *)

Lemma length_substring_0 (n : nat) (s : string) :
  String.length (String.substring 0 n s) = Nat.min n (String.length s).
Proof.
  revert n. induction s as [|c s IH]; intros [|n]; cbn [String.substring String.length];
    try reflexivity.
  rewrite IH. reflexivity.
Qed.

Lemma length_append (s t : string) :
  String.length (s ++ t) = String.length s + String.length t.
Proof.
  induction s as [|c s IH]; cbn [String.append String.length]; [reflexivity|].
  rewrite IH. reflexivity.
Qed.

(** X16. The bounds of safe_log_error.  The message it logs has at most
    3015 characters, and is the data as text when that has at most 3000.
    A title within the limit is logged as it is; a longer one is logged with
    at most max_title_length characters when that limit is 3 or more.  With
    a limit below 3 a title that is cut is logged longer than the limit. *)
Theorem safe_log_error_bounds (json_dumps : json -> string) (data : LogData)
    (title_prefix : string) (max_title_length : Z) :
  let text := match data with
              | LogStructure j => json_dumps j
              | LogText s => s
              end in
  let message := fst (safe_log_error json_dumps data title_prefix max_title_length) in
  let title := snd (safe_log_error json_dumps data title_prefix max_title_length) in
  String.length message <= 3015
  /\ (String.length text <= 3000 -> message = text)
  /\ ((Z.of_nat (String.length title_prefix) <= max_title_length)%Z ->
      title = title_prefix)
  /\ ((3 <= max_title_length)%Z ->
      (Z.of_nat (String.length title) <= max_title_length)%Z)
  /\ ((max_title_length < 3)%Z ->
      (max_title_length < Z.of_nat (String.length title_prefix))%Z ->
      (max_title_length < Z.of_nat (String.length title))%Z).
Proof.
  cbv zeta. unfold safe_log_error. cbn [fst snd].
  set (text := match data with
               | LogStructure j => json_dumps j
               | LogText s => s
               end).
  refine (conj _ (conj _ (conj _ (conj _ _)))).
  - destruct (3000 <? String.length text)%nat eqn:E.
    + rewrite length_append, length_substring_0. cbn [String.length]. lia.
    + apply Nat.ltb_ge in E. lia.
  - intros H. apply Nat.ltb_ge in H. rewrite H. reflexivity.
  - intros H. apply Z.ltb_ge in H. rewrite H. reflexivity.
  - intros Hmax.
    destruct (max_title_length <? Z.of_nat (String.length title_prefix))%Z eqn:E.
    + rewrite length_append. unfold slice_to.
      assert (H0 : (0 <=? max_title_length - 3)%Z = true) by (apply Z.leb_le; lia).
      rewrite H0, length_substring_0. cbn [String.length]. lia.
    + apply Z.ltb_ge in E. exact E.
  - intros Hmax Hlong. apply Z.ltb_lt in Hlong. rewrite Hlong.
    rewrite length_append. cbn [String.length]. lia.
Qed.

(** ** The record of a completed payment *)

Lemma zero_amount_fails_validation (d : TransactionHistory.t) :
  TransactionHistory.amount d = JNum 0 -> ~ passes_validation d.
Proof.
  intros Hamount Hvalid.
  specialize (Hvalid (site [] [] [] [])).
  unfold TransactionHistory_validate in Hvalid. rewrite Hamount in Hvalid.
  destruct (negb (Json.truthy (TransactionHistory.transaction_reference d)));
    discriminate Hvalid.
Qed.

(** X17. What a completed payment leaves on record.  The data of the
    response are a JSON object.  Without a transaction reference in them
    nothing is recorded.  With one, the payment document is in the database
    and now carries the reference, and the Transaction History is as it
    was or has one more record, Pending, with that reference, the name of
    the payment and the data of the response; it is as it was, the payment
    completed without a record, when the data carry no amount. *)
Theorem completed_payment_record
    (get_decrypted_pin : PaymentPin.t -> Res (option string))
    (autoname : TransactionHistory.t -> list TransactionHistory.t -> string)
    (self : VirtualPayment.t) (transaction_pin virtual_wallet : option string)
    (w : World) (new_balance : Q) (response_data : json) (payment_wallet : string) :
  result (make_virtual_payment get_decrypted_pin autoname self transaction_pin
            virtual_wallet) w
  = Val (PaymentCompleted new_balance response_data payment_wallet) ->
  let w' := final (make_virtual_payment get_decrypted_pin autoname self
                     transaction_pin virtual_wallet) w in
  exists fields,
    response_data = JDict fields
    /\ let ref := match Json.assoc "transactionReference" fields with
                  | Some v => v
                  | None => JNull
                  end in
       (Json.truthy ref = false ->
        payments w' = payments w /\ history w' = history w)
       /\ (Json.truthy ref = true ->
           (exists doc,
               find (fun d => String.eqb (VirtualPayment.name d)
                                (VirtualPayment.name self)) (payments w) = Some doc
               /\ payments w'
                  = replace_payment (with_transaction_reference doc ref) (payments w))
           /\ (history w' = history w
               \/ exists record,
                    history w' = (history w ++ [record])%list
                    /\ TransactionHistory.transaction_reference record = ref
                    /\ TransactionHistory.status record = "Pending"
                    /\ TransactionHistory.virtual_payment record
                       = Some (VirtualPayment.name self)
                    /\ TransactionHistory.api_response record = response_data)
           /\ (Json.assoc "amount" fields = None -> history w' = history w)).
Proof.
  intros Hcompleted. cbv zeta.
  destruct (make_virtual_payment_completed _ _ _ _ _ _ Hcompleted)
    as (wd & cb & pa & acct & token & code & w2
        & Hsel & Hpin & Hverify & Hvalidate & Htoken & Hcode & Hpay & _).
  pose proof (@make_virtual_payment_after_transfer get_decrypted_pin autoname self
                transaction_pin virtual_wallet w w2 payment_wallet wd cb pa acct
                token code response_data Hsel Hpin Hverify Hvalidate Htoken Hcode
                Hpay) as Hrun.
  pose proof (process_payment_request_uses_only_network self token code pa acct w)
    as Honly.
  unfold final in Honly. rewrite Hpay in Honly. cbn [snd] in Honly.
  apply only_network_used_site in Honly.
  destruct Honly as (_ & _ & _ & Hh2 & Hp2 & _).
  unfold result in Hcompleted. unfold final. rewrite Hrun in *. clear Hrun.
  set (wD := debited wd cb pa w2) in *.
  assert (HhD : history wD = history w) by exact Hh2.
  assert (HpD : payments wD = payments w) by exact Hp2.
  clearbody wD.
  remember (record_transaction autoname self response_data wD) as out eqn:Hout.
  unfold record_transaction, dict_get in Hout.
  destruct response_data as [| b | q | s | l | fields];
    try (unfold bind, raise in Hout; subst out; discriminate Hcompleted).
  exists fields. split; [reflexivity|]. cbv zeta.
  unfold bind at 1 in Hout. unfold ret at 1 in Hout.
  set (ref := match Json.assoc "transactionReference" fields with
              | Some v => v
              | None => JNull
              end) in *.
  destruct (Json.truthy ref) eqn:Htruthy.
  - split; [discriminate|]. intros _.
    unfold frappe.get_payment, db_set_payment in Hout.
    unfold bind at 1 in Hout. rewrite HpD in Hout.
    destruct (find (fun d => String.eqb (VirtualPayment.name d)
                               (VirtualPayment.name self)) (payments w))
      as [doc|] eqn:Hdoc; [|subst out; discriminate Hcompleted].
    unfold bind, ret in Hout.
    set (wP := set_payments
                 (replace_payment (with_transaction_reference doc ref)
                    (payments wD)) wD) in *.
    assert (HhP : history wP = history w) by exact HhD.
    assert (HpP : payments wP
                  = replace_payment (with_transaction_reference doc ref)
                      (payments w)).
    { unfold wP. cbn [payments set_payments]. rewrite HpD. reflexivity. }
    clearbody wP.
    destruct (create_transaction_record_cases autoname (JDict fields)
                (Some (VirtualPayment.name self)) wP)
      as [(r & found & record & _ & _ & _ & Hrec)
         | [(r & record & Href & Hfresh & _ & _ & Hrec) | Hrec]].
    + rewrite Hrec in Hout. subst out. cbn [snd].
      split; [exists doc; split; [reflexivity | exact HpP]|].
      split; [left; exact HhP | intros _; exact HhP].
    + assert (Hres : result (create_transaction_record autoname (JDict fields)
                               (Some (VirtualPayment.name self))) wP
                     = Val (Some record)).
      { unfold result. rewrite Hrec. reflexivity. }
      destruct (create_transaction_record_created _ _ _ _ Href Hfresh Hres)
        as (Hrecref & Hpending & Hvp & Hapi & _ & Hvalid & _ & Hamount).
      rewrite Hrec in Hout. subst out. cbn [snd history set_history payments].
      split; [exists doc; split; [reflexivity | exact HpP]|].
      split.
      * right. exists record. rewrite HhP.
        cbn [reference_of] in Href. injection Href as Href.
        repeat split; try assumption. rewrite Hrecref, <- Href. reflexivity.
      * intros Hnoamount. exfalso.
        apply (zero_amount_fails_validation (Hamount fields eq_refl Hnoamount)).
        exact Hvalid.
    + rewrite Hrec in Hout. subst out. cbn [snd].
      split; [exists doc; split; [reflexivity | exact HpP]|].
      split; [left; exact HhP | intros _; exact HhP].
  - subst out. cbn [snd]. split; [|discriminate].
    intros _. split; assumption.
Qed.

(** The payment of the sample site, accepted with the reference TRX-1 and
    the amount 100: the reference is on the payment document. *)
Lemma completed_payment_record_witness :
  let run := make_virtual_payment no_decryption name_by_reference
               (payment_of (100 # 1)) (Some "1234") (Some "WALLET-1") in
  let w' := final run (live_site [Response 200 accepted_body]) in
  map VirtualPayment.transaction_reference (payments w') = [JStr "TRX-1"].
Proof.
  cbv zeta.
  destruct (@completed_payment_record no_decryption name_by_reference
              (payment_of (100 # 1)) (Some "1234") (Some "WALLET-1")
              (live_site [Response 200 accepted_body]) (4900 # 1)
              (JDict [("transactionReference", JStr "TRX-1");
                      ("amount", JNum (100 # 1))]) "WALLET-1" eq_refl)
    as (fields & Hfields & _ & Hsome).
  injection Hfields as <-.
  destruct (Hsome eq_refl) as ((doc & Hdoc & Hpayments) & _ & _).
  rewrite Hpayments. cbn in Hdoc. injection Hdoc as <-. reflexivity.
Defined.
